(** * Educational Assistant: session state, ingestion and generation handlers

    A shallow embedding of the Streamlit front end of the educational
    assistant ([ui/app.py] and the split components under
    [ui/components/]).  The handlers mutate a session-wide state store, call
    injected collaborators (file handler, document loader, vector store, LLM
    client, RAG chain) and report to the user through Streamlit calls.  They
    are embedded as computations in a state-and-exception monad over an
    explicit system state; every Streamlit call is recorded as an event in a
    chronological trace. *)

From Stdlib Require Import Ascii String QArith_base.
From stdpp Require Import base option list strings gmap pretty.

Set Default Proof Using "Type".
Open Scope string_scope.
Open Scope list_scope.
Open Scope stdpp_scope.

(** ** Python string primitives used by the handlers

    Python [str] values are embedded as Rocq byte strings.  The case and
    whitespace classes below are the ASCII ones. *)
Module Py.

(** [chr(10)] *)
Definition nl : string := String (ascii_of_nat 10) EmptyString.

Definition is_upper (c : ascii) : bool :=
  let n := nat_of_ascii c in (65 <=? n)%nat && (n <=? 90)%nat.

Definition lower_char (c : ascii) : ascii :=
  if is_upper c then ascii_of_nat (nat_of_ascii c + 32) else c.

(** [s.lower()] *)
Fixpoint lower (s : string) : string :=
  match s with
  | EmptyString => EmptyString
  | String c s' => String (lower_char c) (lower s')
  end.

(** [c.isspace()] on ASCII: TAB, LF, VT, FF, CR, FS, GS, RS, US, SPACE. *)
Definition isspace (c : ascii) : bool :=
  let n := nat_of_ascii c in
  ((9 <=? n)%nat && (n <=? 13)%nat) || ((28 <=? n)%nat && (n <=? 32)%nat).

Fixpoint lstrip (s : string) : string :=
  match s with
  | EmptyString => EmptyString
  | String c s' => if isspace c then lstrip s' else s
  end.

Fixpoint rev_onto (s acc : string) : string :=
  match s with
  | EmptyString => acc
  | String c s' => rev_onto s' (String c acc)
  end.

Definition rstrip (s : string) : string :=
  rev_onto (lstrip (rev_onto s EmptyString)) EmptyString.

(** [s.strip()] *)
Definition strip (s : string) : string := rstrip (lstrip s).

(** [s.split(sep)] for a one-character separator; the result is never
    empty: [''.split(sep) == ['']]. *)
Fixpoint split_char (sep : ascii) (s : string) : list string :=
  match s with
  | EmptyString => [EmptyString]
  | String c s' =>
      if Ascii.eqb c sep then EmptyString :: split_char sep s'
      else match split_char sep s' with
           | [] => [String c EmptyString]
           | w :: ws => String c w :: ws
           end
  end.

(** [s.split("\n")] *)
Definition split_lines (s : string) : list string :=
  split_char (ascii_of_nat 10) s.

(** [sep.join(l)] *)
Fixpoint join (sep : string) (l : list string) : string :=
  match l with
  | [] => EmptyString
  | [x] => x
  | x :: xs => x +:+ sep +:+ join sep xs
  end.

(** Truth value of a [str]: non-empty. *)
Definition truthy (s : string) : bool :=
  match s with EmptyString => false | String _ _ => true end.

(** Truth value of an [Optional[str]]. *)
Definition truthy_opt (o : option string) : bool :=
  match o with None => false | Some s => truthy s end.

(** [s.replace(a, b)] for one-character [a] and [b]. *)
Fixpoint replace_char (a b : ascii) (s : string) : string :=
  match s with
  | EmptyString => EmptyString
  | String c s' =>
      String (if Ascii.eqb c a then b else c) (replace_char a b s')
  end.

(** [all(l)] on a list of truth values. *)
Definition all (l : list bool) : bool := forallb id l.

(** [s[:n]] for a non-negative [n]. *)
Fixpoint take (n : nat) (s : string) : string :=
  match n, s with
  | S n', String c s' => String c (take n' s')
  | _, _ => EmptyString
  end.

(** [s.startswith(prefix)] *)
Fixpoint startswith (prefix s : string) : bool :=
  match prefix, s with
  | EmptyString, _ => true
  | String a prefix', String b s' => Ascii.eqb a b && startswith prefix' s'
  | String _ _, EmptyString => false
  end.

(** [s.endswith(suffix)] *)
Definition endswith (suffix s : string) : bool :=
  startswith (rev_onto suffix EmptyString) (rev_onto s EmptyString).

(** [sub in s] *)
Fixpoint contains (sub s : string) : bool :=
  startswith sub s
  || match s with
     | EmptyString => false
     | String _ s' => contains sub s'
     end.

(** [any(l)] on a list of truth values. *)
Definition any (l : list bool) : bool := existsb id l.

End Py.

(** ** Data model *)

(** A LangChain [Document]: text plus a metadata dictionary. *)
Record Document := mkDocument {
  page_content : string;
  metadata : gmap string string
}.

(** Values stored in a lesson-plan dictionary: strings and lists of strings. *)
Inductive PyVal :=
| VStr (s : string)
| VList (l : list string).

(** A chat history entry.  The user entry is built without a ["sources"]
    key, the assistant entries with one. *)
Record Message := mkMessage {
  role : string;
  content : string;
  sources : option (list Document)
}.

(** The value [rag_chain.run] returns: a dictionary in which ["result"] and
    ["source_documents"] may be present. *)
Record RagResponse := mkRagResponse {
  result : option string;
  source_documents : option (list Document)
}.

(** Python exceptions the handlers can meet. *)
Inductive Exn :=
| FileHandlerError (msg : string)
| KeyError (key : string)
| ValueError (msg : string)
| TypeError (msg : string)
| Exception (msg : string).

(** [str(e)] *)
Definition exn_str (e : Exn) : string :=
  match e with
  | FileHandlerError m => m
  | KeyError k => "'" +:+ k +:+ "'"
  | ValueError m => m
  | TypeError m => m
  | Exception m => m
  end.

Inductive Res (A : Type) :=
| Ok (a : A)
| Raise (e : Exn).
Arguments Ok {A} a.
Arguments Raise {A} e.

(** One entry of the chat-completion [messages] argument. *)
Record ChatMessage := mkChatMessage {
  cm_role : string;
  cm_content : string
}.

(** What the Streamlit uploader hands over for one file. *)
Record UploadedFile := mkUploadedFile {
  name : string;
  data : string
}.

(** [load_single_document] result: [success] with [document], or not
    [success] with [error_message]. *)
Inductive LoadResult :=
| LoadOk (document : Document)
| LoadFailed (error_message : string).

(** Observable effects, in the order they happen. *)
Inductive Event :=
| StError (msg : string)            (* st.error / display_error *)
| StSuccess (msg : string)          (* st.success / display_success *)
| StWarning (msg : string)          (* st.warning / display_warning *)
| StInfo (msg : string)             (* st.info / display_info *)
| StatusInfo (msg : string)         (* status_container.info *)
| StatusError (msg : string)        (* status_container.error *)
| StatusSuccess (msg : string)      (* status_container.success *)
| StWrite (msg : string)            (* st.write *)
| StMarkdown (msg : string)         (* st.markdown *)
| StSubheader (msg : string)        (* st.subheader *)
| StDownloadButton (label data file_name : string)
| LogError (msg : string)           (* logger.error *)
| LlmRequest (messages : list ChatMessage)
| ChainRequest (query : string)
| TempCleanup                       (* file_handler.cleanup() *)
| StRerun.                          (* st.rerun() *)

(** ** Session state store *)

(** Modelled from the spec: [ui/state_manager.py] is not among the sources.
    The store is a registry of named collections (documents, chat messages,
    IEP artifacts, lesson-plan artifacts, query log), two further keys the
    handlers use ([documents_processed], [current_plan]) and the boolean
    health flags, created with empty collections and all flags false. *)
Record SessionState := mkSessionState {
  documents : list Document;
  messages : list Message;
  iep_results : list (gmap string string);
  lesson_plans : list (gmap string PyVal);
  rag_queries : list RagResponse;
  documents_processed : bool;
  current_plan : option (gmap string PyVal);
  system_state : gmap string bool
}.

Definition initial_session : SessionState :=
  {| documents := []; messages := []; iep_results := []; lesson_plans := [];
     rag_queries := []; documents_processed := false; current_plan := None;
     system_state :=
       {[ "llm_initialized" := false;
          "vector_store_initialized" := false;
          "chain_initialized" := false ]} |}.

(** The whole system a handler runs against: the session store, the entries
    of the vector index, the trace of effects so far, the wall clock and the
    randomness consumed by [uuid.uuid4()]. *)
Record Sys := mkSys {
  session : SessionState;
  index : list Document;
  trace : list Event;
  clock : nat;
  entropy : nat
}.

Definition initial_sys : Sys :=
  {| session := initial_session; index := []; trace := [];
     clock := 0; entropy := 0 |}.

(** ** The handler monad: state plus Python exceptions

    A raised exception keeps every mutation made before it, as in Python. *)
Definition M (A : Type) : Type := Sys → Res A * Sys.

Definition ret {A} (a : A) : M A := λ s, (Ok a, s).

Definition bind {A B} (m : M A) (k : A → M B) : M B := λ s,
  match m s with
  | (Ok a, s') => k a s'
  | (Raise e, s') => (Raise e, s')
  end.

Declare Scope handler_scope.
Delimit Scope handler_scope with H.
Notation "x ← y ; z" := (bind y (λ x, z))
  (at level 20, y at level 100, z at level 200, only parsing) : handler_scope.
Notation "x ;; z" := (bind x (λ _, z))
  (at level 100, z at level 200, only parsing, right associativity)
  : handler_scope.
Open Scope handler_scope.

Definition raise {A} (e : Exn) : M A := λ s, (Raise e, s).

Definition lift_res {A} (r : Res A) : M A := λ s, (r, s).

(** [try: body except Exception as e: handler e] *)
Definition try_except {A} (body : M A) (handler : Exn → M A) : M A := λ s,
  match body s with
  | (Ok a, s') => (Ok a, s')
  | (Raise e, s') => handler e s'
  end.

Definition emit (ev : Event) : M unit := λ s,
  (Ok tt, {| session := session s; index := index s;
             trace := trace s ++ [ev];
             clock := clock s; entropy := entropy s |}).

(** [datetime.now()]: reads the clock, which then moves on. *)
Definition now : M nat := λ s,
  (Ok (clock s), {| session := session s; index := index s; trace := trace s;
                    clock := S (clock s); entropy := entropy s |}).

(** Draws the randomness behind one [uuid.uuid4()] or one generation call. *)
Definition draw : M nat := λ s,
  (Ok (entropy s), {| session := session s; index := index s;
                      trace := trace s; clock := clock s;
                      entropy := S (entropy s) |}).

Definition get_index : M (list Document) := λ s, (Ok (index s), s).

Definition set_index (ix : list Document) : M unit := λ s,
  (Ok tt, {| session := session s; index := ix; trace := trace s;
             clock := clock s; entropy := entropy s |}).

Definition modify_session (f : SessionState → SessionState) : M unit := λ s,
  (Ok tt, {| session := f (session s); index := index s; trace := trace s;
             clock := clock s; entropy := entropy s |}).

(** A named entry of the store: how to read it and how to replace it. *)
Record Key (A : Type) := mkKey {
  kget : SessionState → A;
  kset : A → SessionState → SessionState
}.
Arguments kget {A} k s.
Arguments kset {A} k v s.

Definition K_documents : Key (list Document) :=
  mkKey _ documents (λ v s,
    {| documents := v; messages := messages s; iep_results := iep_results s;
       lesson_plans := lesson_plans s; rag_queries := rag_queries s;
       documents_processed := documents_processed s;
       current_plan := current_plan s; system_state := system_state s |}).

Definition K_messages : Key (list Message) :=
  mkKey _ messages (λ v s,
    {| documents := documents s; messages := v; iep_results := iep_results s;
       lesson_plans := lesson_plans s; rag_queries := rag_queries s;
       documents_processed := documents_processed s;
       current_plan := current_plan s; system_state := system_state s |}).

Definition K_iep_results : Key (list (gmap string string)) :=
  mkKey _ iep_results (λ v s,
    {| documents := documents s; messages := messages s; iep_results := v;
       lesson_plans := lesson_plans s; rag_queries := rag_queries s;
       documents_processed := documents_processed s;
       current_plan := current_plan s; system_state := system_state s |}).

Definition K_lesson_plans : Key (list (gmap string PyVal)) :=
  mkKey _ lesson_plans (λ v s,
    {| documents := documents s; messages := messages s;
       iep_results := iep_results s; lesson_plans := v;
       rag_queries := rag_queries s;
       documents_processed := documents_processed s;
       current_plan := current_plan s; system_state := system_state s |}).

Definition K_documents_processed : Key bool :=
  mkKey _ documents_processed (λ v s,
    {| documents := documents s; messages := messages s;
       iep_results := iep_results s; lesson_plans := lesson_plans s;
       rag_queries := rag_queries s; documents_processed := v;
       current_plan := current_plan s; system_state := system_state s |}).

Definition K_current_plan : Key (option (gmap string PyVal)) :=
  mkKey _ current_plan (λ v s,
    {| documents := documents s; messages := messages s;
       iep_results := iep_results s; lesson_plans := lesson_plans s;
       rag_queries := rag_queries s;
       documents_processed := documents_processed s;
       current_plan := v; system_state := system_state s |}).

Definition K_system_state : Key (gmap string bool) :=
  mkKey _ system_state (λ v s,
    {| documents := documents s; messages := messages s;
       iep_results := iep_results s; lesson_plans := lesson_plans s;
       rag_queries := rag_queries s;
       documents_processed := documents_processed s;
       current_plan := current_plan s; system_state := v |}).

(** Modelled from the spec: the operations of the absent state manager,
    [get(key, default)], [set(key, value)] (replace), [append(key, item)]
    (read-modify-write) and [update_system_state] with keyword flags (merge).  Every
    key the handlers name exists from session start, so the default of
    [get] is never taken and is not an argument here. *)
Definition sm_get {A} (k : Key A) : M A := λ s, (Ok (kget k (session s)), s).

Definition sm_set {A} (k : Key A) (v : A) : M unit :=
  modify_session (kset k v).

Definition sm_append {A} (k : Key (list A)) (item : A) : M unit :=
  modify_session (λ s, kset k (kget k s ++ [item]) s).

Definition update_system_state (flags : gmap string bool) : M unit :=
  modify_session (λ s, kset K_system_state (flags ∪ system_state s) s).

(** ** Injected collaborators *)

(** The embedding capability decides whether a text can be embedded. *)
Record VectorStore := mkVectorStore {
  embeds : string → bool
}.

(** [chat_completion(messages, temperature, max_tokens)]: a dictionary,
    [None], or a raised exception; the last argument is the randomness the
    generation consumes. *)
Record LlmClient := mkLlmClient {
  chat_completion :
    list ChatMessage → option Q → option nat → nat →
    Res (option (gmap string string))
}.

Record RagChain := mkRagChain {
  run : string → nat → Res (option RagResponse)
}.

Record IepPipeline := mkIepPipeline {
  generate_iep : Document → nat → Res (gmap string string)
}.

Record LessonPlanPipeline := mkLessonPlanPipeline {
  generate_lesson_plan :
    string → string → string → string → list string →
    list string → list string → list string → string → nat →
    Res (gmap string PyVal)
}.

(** The [app_components] dictionary; an absent key reads as [None]. *)
Record AppComponents := mkAppComponents {
  vector_store : option VectorStore;
  llm_client : option LlmClient;
  rag_chain : option RagChain;
  iep_pipeline : option IepPipeline;
  lesson_plan_pipeline : option LessonPlanPipeline
}.

(** What [validate_document_structure] extracts from a source document. *)
Record DocData := mkDocData {
  dd_content : string;
  dd_metadata : gmap string string
}.

(** The library and helper functions the handlers call and whose code is
    outside the sources. *)
Record Collaborators := mkCollaborators {
  (** [FileHandler.process_uploaded_file(file).temp_path] *)
  process_uploaded_file : UploadedFile → Res string;
  (** [DocumentLoader.load_single_document(path)] *)
  load_single_document : string → Res LoadResult;
  (** [datetime.isoformat()] of a clock reading *)
  isoformat : nat → string;
  (** [datetime.strftime('%Y%m%d')] of a clock reading *)
  strftime_ymd : nat → string;
  (** [str(uuid.uuid4())] from the randomness drawn *)
  uuid4 : nat → string;
  (** [utils.ui_validation.validate_response_structure] *)
  validate_response_structure : option RagResponse → bool * string;
  (** [utils.ui_validation.validate_document_structure] *)
  validate_document_structure : Document → bool * DocData
}.

(** Modelled from the spec: [core/embeddings/vector_store.py] is not among
    the sources.  [add_documents] is all-or-nothing: when the embedding of
    any document of the batch fails nothing is committed, the index keeps
    its prior entries and the call reports failure. *)
Definition add_documents (vs : VectorStore) (docs : list Document) : M bool :=
  ix ← get_index;
  if forallb (λ d, embeds vs (page_content d)) docs
  then set_index (ix ++ docs) ;; ret true
  else ret false.

(** Modelled from the spec: [clear_index] removes all entries and succeeds
    on an empty index as well. *)
Definition clear_index (vs : VectorStore) : M unit := set_index [].

(** ** Document ingestion and reset: [ui/components/sidebar.py] *)
Module Sidebar.
Section Handlers.
Context (env : Collaborators).

(** The three metadata assignments made before a document is registered;
    the id is built from the length of the registry at that moment. *)
Definition stamp (file : UploadedFile) (upload_time : nat)
    (registered : nat) (document : Document) : Document :=
  {| page_content := page_content document;
     metadata :=
       <["id" := "doc_" +:+ pretty registered]>
         (<["upload_time" := isoformat env upload_time]>
            (<["source" := name file]> (metadata document))) |}.

(** One iteration of [for file in uploaded_files]; the pair carries the
    loop variables [processing_success] and [documents_processed]. *)
Definition process_file (vs : VectorStore) (file : UploadedFile)
    (acc : bool * nat) : M (bool * nat) :=
  emit (StatusInfo ("Processing " +:+ name file +:+ "...")) ;;
  try_except
    (temp_path ← lift_res (process_uploaded_file env file);
     result ← lift_res (load_single_document env temp_path);
     match result with
     | LoadFailed error_message =>
         emit (StatusError ("Error processing " +:+ name file +:+ ": "
                            +:+ error_message)) ;;
         ret (false, snd acc)
     | LoadOk document =>
         upload_time ← now;
         docs ← sm_get K_documents;
         let document := stamp file upload_time (length docs) document in
         sm_append K_documents document ;;
         added ← add_documents vs [document];
         if added then
           emit (StatusSuccess ("Successfully processed " +:+ name file)) ;;
           ret (fst acc, S (snd acc))
         else
           emit (StatusError ("Error adding " +:+ name file
                              +:+ " to vector store")) ;;
           ret (false, snd acc)
     end)
    (λ e,
       match e with
       | FileHandlerError _ =>
           emit (StatusError ("Error handling " +:+ name file +:+ ": "
                              +:+ exn_str e)) ;;
           ret (false, snd acc)
       | _ =>
           emit (LogError ("Unexpected error processing " +:+ name file
                           +:+ ": " +:+ exn_str e)) ;;
           emit (StatusError ("Unexpected error processing "
                              +:+ name file)) ;;
           ret (false, snd acc)
       end).

Fixpoint process_files (vs : VectorStore) (files : list UploadedFile)
    (acc : bool * nat) : M (bool * nat) :=
  match files with
  | [] => ret acc
  | file :: rest => acc' ← process_file vs file acc; process_files vs rest acc'
  end.

Definition process_uploaded_files (uploaded_files : list UploadedFile)
    (app_components : AppComponents) : M unit :=
  match vector_store app_components with
  | None =>
      emit (StError "Vector store not initialized. Cannot process documents.")
  | Some vs =>
      emit (StWrite "### Processing Files") ;;
      acc ← process_files vs uploaded_files (true, 0);
      (if fst acc && (0 <? snd acc)%nat then
         sm_set K_documents_processed true ;;
         emit (StSuccess ("Successfully processed " +:+ pretty (snd acc)
                          +:+ " documents!")) ;;
         update_system_state {[ "vector_store_initialized" := true ]}
       else if (0 <? snd acc)%nat then
         emit (StWarning ("Processed " +:+ pretty (snd acc)
                          +:+ " documents with some errors."))
       else
         emit (StError "Failed to process any documents.")) ;;
      emit TempCleanup
  end.

Definition clear_documents (app_components : AppComponents) : M unit :=
  match vector_store app_components with
  | Some vs => clear_index vs
  | None => ret tt
  end ;;
  sm_set K_documents_processed false ;;
  sm_set K_documents [] ;;
  sm_set K_iep_results [] ;;
  sm_set K_lesson_plans [] ;;
  update_system_state {[ "vector_store_initialized" := false ]} ;;
  emit StRerun.

(** [render_file_upload]: a non-empty upload is processed; the clear
    button is offered, and acted on, only once documents are processed. *)
Definition render_file_upload (uploaded_files : list UploadedFile)
    (clear_clicked : bool) (app_components : AppComponents) : M unit :=
  match uploaded_files with
  | [] => ret tt
  | _ => process_uploaded_files uploaded_files app_components
  end ;;
  processed ← sm_get K_documents_processed;
  if processed && clear_clicked then clear_documents app_components
  else ret tt.

End Handlers.
End Sidebar.

(** ** Document listing: [ui/components/document_utils.py] *)
Module DocumentUtils.

(** The id [get_available_documents] lists for the document at position
    [i]: the stored one, else one built from the position. *)
Definition listed_id (i : nat) (doc : Document) : string :=
  default ("doc_" +:+ pretty i) (metadata doc !! "id").

Definition get_available_ids (state_docs : list Document) : list string :=
  imap listed_id state_docs.

Fixpoint find_document (doc_id : string) (docs : list Document)
    : option Document :=
  match docs with
  | [] => None
  | doc :: rest =>
      if bool_decide (metadata doc !! "id" = Some doc_id) then Some doc
      else find_document doc_id rest
  end.

Definition get_document_by_id (doc_id : string) : M (option Document) :=
  docs ← sm_get K_documents; ret (find_document doc_id docs).

(** [get_document_metadata]: the metadata of the document found, else the
    empty dictionary. *)
Definition get_document_metadata (doc_id : string) : M (gmap string string) :=
  doc ← get_document_by_id doc_id;
  ret (match doc with Some d => metadata d | None => ∅ end).

(** [format_document_preview(document, max_length)] *)
Definition format_document_preview (document : Document) (max_length : nat)
    : string :=
  let content := page_content document in
  if (max_length <? String.length content)%nat
  then Py.take max_length content +:+ "..."
  else content.

End DocumentUtils.

(** Shared small steps of the handlers. *)

(** [d[key]] on a dictionary: the value, or [KeyError]. *)
Definition getitem {V} (d : gmap string V) (key : string) : M V :=
  match d !! key with
  | Some v => ret v
  | None => raise (KeyError key)
  end.

Fixpoint emit_all (evs : list Event) : M unit :=
  match evs with
  | [] => ret tt
  | ev :: rest => emit ev ;; emit_all rest
  end.

(** The content of a generation response that passes
    [not response or "content" not in response]. *)
Definition checked_content (response : option (gmap string string))
    : option string :=
  match response with
  | None => None
  | Some d => if bool_decide (d = ∅) then None else d !! "content"
  end.

(** One generation call: the request is recorded, randomness is consumed,
    and the client answers or raises. *)
Definition call_llm (llm : LlmClient) (msgs : list ChatMessage)
    (temperature : option Q) (max_tokens : option nat)
    : M (option (gmap string string)) :=
  emit (LlmRequest msgs) ;;
  r ← draw;
  lift_res (chat_completion llm msgs temperature max_tokens r).

(** ** Chat: [ui/components/chat.py] *)
Module Chat.
Section Handlers.
Context (env : Collaborators).

Definition fallback_message : Message :=
  {| role := "assistant";
     content := "I can help answer questions about documents once they're uploaded. For now, I can assist with general educational questions.";
     sources := Some [] |}.

Definition chain_error_message : Message :=
  {| role := "assistant";
     content := "I encountered an error processing your question. Please try a different question or check if documents are properly loaded.";
     sources := Some [] |}.

Definition error_message : Message :=
  {| role := "assistant";
     content := "I encountered an error while processing your question. Please try again.";
     sources := Some [] |}.

(** What is written for the [i]-th source of an answer. *)
Definition source_events (i : nat) (doc : Document) : list Event :=
  let '(is_valid, doc_data) := validate_document_structure env doc in
  [ StWrite ("Source " +:+ pretty i +:+ ":");
    (if is_valid && Py.truthy (dd_content doc_data)
     then StWrite (dd_content doc_data)
     else StWrite "Source content unavailable");
    StWrite ("Source: "
             +:+ default "Unknown source" (dd_metadata doc_data !! "source"));
    StWrite "---" ].

Definition display_sources (srcs : list Document) : M unit :=
  emit_all (mjoin (imap (λ i doc, source_events (S i) doc) srcs)).

(** The inner [try] around the chain: run, validate, format. *)
Definition ask_chain (chain : RagChain) (prompt : string) : M Message :=
  try_except
    (emit (ChainRequest prompt) ;;
     r ← draw;
     response ← lift_res (run chain prompt r);
     let '(is_valid, error_msg) := validate_response_structure env response in
     if is_valid then
       match response with
       | None => raise (TypeError "'NoneType' object is not subscriptable")
       | Some resp =>
           match result resp with
           | None => raise (KeyError "result")
           | Some answer =>
               ret {| role := "assistant"; content := answer;
                      sources := Some (default [] (source_documents resp)) |}
           end
       end
     else raise (ValueError error_msg))
    (λ chain_error,
       emit (LogError ("Error in RAG chain: " +:+ exn_str chain_error)) ;;
       ret chain_error_message).

(** [prompt] is what [st.chat_input] returned on this run. *)
Definition handle_chat_input (prompt : option string)
    (app_components : AppComponents) : M unit :=
  if Py.truthy_opt prompt then
    let prompt := default "" prompt in
    sm_append K_messages {| role := "user"; content := prompt;
                            sources := None |} ;;
    emit (StMarkdown prompt) ;;
    try_except
      (message_data ←
         match rag_chain app_components with
         | None => ret fallback_message
         | Some chain => ask_chain chain prompt
         end;
       sm_append K_messages message_data ;;
       emit (StMarkdown (content message_data)) ;;
       match sources message_data with
       | Some (doc :: rest) => display_sources (doc :: rest)
       | _ => ret tt
       end)
      (λ e,
         emit (LogError ("Error generating response: " +:+ exn_str e)) ;;
         sm_append K_messages error_message ;;
         emit (StMarkdown (content error_message)))
  else ret tt.

End Handlers.
End Chat.

(** ** IEP generation: [ui/components/iep.py] *)
Module Iep.
Section Handlers.
Context (env : Collaborators).

Definition iep_messages (document : Document) : list ChatMessage :=
  [ {| cm_role := "system";
       cm_content := "You are an AI assistant that specializes in creating Individualized Education Programs (IEPs) for students with special needs." |};
    {| cm_role := "user";
       cm_content := "Based on the following document, create a comprehensive IEP with appropriate goals, accommodations, and services. Document content: " +:+ page_content document |} ].

Definition display_iep_content (iep_result : gmap string string) : M unit :=
  content ← getitem iep_result "content";
  source ← getitem iep_result "source";
  emit (StSubheader ("IEP for " +:+ source)) ;;
  emit (StMarkdown content) ;;
  source ← getitem iep_result "source";
  t ← now;
  emit (StDownloadButton "Download IEP as Text" content
          ("IEP_" +:+ Py.replace_char " " "_" source +:+ "_"
           +:+ strftime_ymd env t +:+ ".txt")).

Definition handle_iep_generation (selected_doc : gmap string string)
    (app_components : AppComponents) : M unit :=
  try_except
    (doc_id ← getitem selected_doc "id";
     document ← DocumentUtils.get_document_by_id doc_id;
     match document with
     | None => emit (StError "Could not retrieve document for processing.")
     | Some document =>
         match llm_client app_components with
         | None =>
             emit (StError "LLM client not initialized. Cannot generate IEP.")
         | Some llm =>
             response ← call_llm llm (iep_messages document) None None;
             match checked_content response with
             | None => emit (StError "Failed to generate IEP content.")
             | Some generated =>
                 u ← draw;
                 display_name ← getitem selected_doc "display_name";
                 source_id ← getitem selected_doc "id";
                 t ← now;
                 let iep_result : gmap string string :=
                   {[ "id" := uuid4 env u;
                      "source" := display_name;
                      "source_id" := source_id;
                      "content" := generated;
                      "timestamp" := isoformat env t ]} in
                 sm_append K_iep_results iep_result ;;
                 display_iep_content iep_result
             end
         end
     end)
    (λ e,
       emit (LogError ("Error generating IEP: " +:+ exn_str e)) ;;
       emit (StError ("Error generating IEP: " +:+ exn_str e))).

End Handlers.
End Iep.

(** ** Lesson plans: [ui/components/lesson_plan.py] *)

(** [next((iep for iep in iep_results if iep["id"] == selected_iep_id), None)]:
    the first artifact with that id; an artifact without an ["id"] key met
    before a match raises [KeyError]. *)
Fixpoint find_iep (selected_iep_id : string)
    (iep_results : list (gmap string string))
    : Res (option (gmap string string)) :=
  match iep_results with
  | [] => Ok None
  | iep :: rest =>
      match iep !! "id" with
      | None => Raise (KeyError "id")
      | Some i =>
          if bool_decide (i = selected_iep_id) then Ok (Some iep)
          else find_iep selected_iep_id rest
      end
  end.

(** Truth value of the artifact found: [None] and the empty dictionary are
    both false. *)
Definition found (selected_iep : option (gmap string string))
    : option (gmap string string) :=
  match selected_iep with
  | None => None
  | Some iep => if bool_decide (iep = ∅) then None else Some iep
  end.

(** [chr(10).join(f'- {x}' for x in l if x)] *)
Definition bullets (l : list string) : string :=
  Py.join Py.nl (map (λ x, "- " +:+ x) (filter (λ x, Is_true (Py.truthy x)) l)).

(** The prompt template, a triple-quoted f-string whose lines all carry the
    indentation [ind] of the source text around it. *)
Definition prompt_text (ind : string)
    (subject grade_level timeframe duration : string)
    (days_per_week goals_list materials_list accommodations_list : list string)
    (iep_content : string) : string :=
  Py.join Py.nl
    [ "";
      ind +:+ "Create a detailed " +:+ Py.lower timeframe +:+ " lesson plan for "
          +:+ subject +:+ " for " +:+ grade_level +:+ " students.";
      ind;
      ind +:+ "The plan should be based on the following IEP:";
      ind +:+ iep_content;
      ind;
      ind +:+ "Class details:";
      ind +:+ "- Subject: " +:+ subject;
      ind +:+ "- Grade Level: " +:+ grade_level;
      ind +:+ "- Duration: " +:+ duration;
      ind +:+ "- Schedule: "
          +:+ (if bool_decide (timeframe = "Weekly")
               then Py.join ", " days_per_week else "Daily");
      ind;
      ind +:+ "Learning Goals:";
      ind +:+ bullets goals_list;
      ind;
      ind +:+ "Materials Needed:";
      ind +:+ bullets materials_list;
      ind;
      ind +:+ "Additional Accommodations:";
      ind +:+ bullets accommodations_list;
      ind;
      ind +:+ "Please create a comprehensive lesson plan with:";
      ind +:+ "1. Learning objectives";
      ind +:+ "2. Detailed schedule/timeline";
      ind +:+ "3. Teaching strategies with specific IEP accommodations";
      ind +:+ "4. Assessment methods";
      ind +:+ "5. Resources and materials organization";
      ind;
      ind +:+ "Format the plan clearly with sections and bullet points where appropriate.";
      ind ].

Definition lesson_plan_system_prompt : string :=
  "You are an AI assistant specialized in creating educational lesson plans that accommodate students with special needs.".

(** The three text areas turned into lists. *)
Definition goals_of (specific_goals : string) : list string :=
  Py.split_lines (Py.strip specific_goals).

Definition lines_or_empty (text : string) : list string :=
  if Py.truthy text then Py.split_lines (Py.strip text) else [].

(** The choices of the "Schedule Type" radio. *)
Inductive Schedule := Daily | Weekly.

Definition schedule_str (t : Schedule) : string :=
  match t with Daily => "Daily" | Weekly => "Weekly" end.

(** The widget values of one run of the lesson-plan form.  [days_selected]
    is the value of the "Select Days" multiselect, shown for a weekly
    schedule only; [iep_choice] is the position chosen in the IEP select
    box; [generate_button] tells whether the form was submitted. *)
Record LessonPlanForm := mkLessonPlanForm {
  f_subject : string;
  f_grade_level : string;
  f_timeframe : Schedule;
  f_duration : string;
  days_selected : list string;
  f_specific_goals : string;
  f_materials : string;
  f_additional_accommodations : string;
  iep_choice : nat;
  generate_button : bool
}.

(** [st.selectbox(options)]: the chosen option; the first one when nothing
    else is chosen. *)
Definition selectbox (options : list string) (choice : nat) : option string :=
  match options !! choice with
  | Some o => Some o
  | None => head options
  end.

Fixpoint iep_ids (iep_results : list (gmap string string))
    : Res (list string) :=
  match iep_results with
  | [] => Ok []
  | iep :: rest =>
      match iep !! "id" with
      | None => Raise (KeyError "id")
      | Some i =>
          match iep_ids rest with
          | Ok l => Ok (i :: l)
          | Raise e => Raise e
          end
      end
  end.

Module LessonPlan.
Section Handlers.
Context (env : Collaborators).

Definition prepare_lesson_plan_prompt
    (subject grade_level timeframe duration : string)
    (days_per_week goals_list materials_list accommodations_list
       : list string)
    (selected_iep : gmap string string) : Res string :=
  match selected_iep !! "content" with
  | None => Raise (KeyError "content")
  | Some iep_content =>
      Ok (prompt_text "    " subject grade_level timeframe duration
            days_per_week goals_list materials_list accommodations_list
            iep_content)
  end.

Definition handle_lesson_plan_generation
    (subject grade_level timeframe duration : string)
    (days_per_week : list string)
    (specific_goals materials additional_accommodations : string)
    (selected_iep_id : string) (app_components : AppComponents) : M unit :=
  try_except
    (iep_results ← sm_get K_iep_results;
     selected_iep ← lift_res (find_iep selected_iep_id iep_results);
     match found selected_iep with
     | None => emit (StError "Selected IEP not found.")
     | Some selected_iep =>
         match llm_client app_components with
         | None =>
             emit (StError
               "LLM client not initialized. Cannot generate lesson plan.")
         | Some llm =>
             let goals_list := goals_of specific_goals in
             let materials_list := lines_or_empty materials in
             let accommodations_list :=
               lines_or_empty additional_accommodations in
             prompt ← lift_res
               (prepare_lesson_plan_prompt subject grade_level timeframe
                  duration days_per_week goals_list materials_list
                  accommodations_list selected_iep);
             response ← call_llm llm
               [ {| cm_role := "system";
                    cm_content := lesson_plan_system_prompt |};
                 {| cm_role := "user"; cm_content := prompt |} ]
               (Some (7 # 10)%Q) (Some 4000);
             match checked_content response with
             | None => emit (StError "Failed to generate lesson plan.")
             | Some generated =>
                 u ← draw;
                 iep_source ← getitem selected_iep "source";
                 t ← now;
                 let plan_data : gmap string PyVal :=
                   {[ "id" := VStr (uuid4 env u);
                      "subject" := VStr subject;
                      "grade_level" := VStr grade_level;
                      "duration" := VStr duration;
                      "timeframe" := VStr timeframe;
                      "days" := VList days_per_week;
                      "specific_goals" := VList goals_list;
                      "materials" := VList materials_list;
                      "additional_accommodations" :=
                        VList accommodations_list;
                      "content" := VStr generated;
                      "source_iep_id" := VStr selected_iep_id;
                      "source_iep_source" := VStr iep_source;
                      "timestamp" := VStr (isoformat env t) ]} in
                 sm_append K_lesson_plans plan_data ;;
                 sm_set K_current_plan (Some plan_data) ;;
                 emit (StSuccess "Lesson plan generated successfully!") ;;
                 emit StRerun
             end
         end
     end)
    (λ e,
       emit (LogError ("Error generating lesson plan: " +:+ exn_str e)) ;;
       emit (StError ("Error generating lesson plan: " +:+ exn_str e))).

(** The list handed on as [days_per_week]. *)
Definition form_days (form : LessonPlanForm) : list string :=
  match f_timeframe form with
  | Weekly => days_selected form
  | Daily => ["Daily"]
  end.

(** The required-field check made on submission. *)
Definition required_filled (form : LessonPlanForm)
    (selected_iep : option string) : bool :=
  Py.all [ Py.truthy (f_subject form); Py.truthy (f_grade_level form);
           Py.truthy (f_duration form); Py.truthy (f_specific_goals form);
           Py.truthy_opt selected_iep ].

Definition render_lesson_plan_form (form : LessonPlanForm)
    (app_components : AppComponents) : M unit :=
  let days_per_week := form_days form in
  iep_results ← sm_get K_iep_results;
  selected_iep ←
    match iep_results with
    | [] =>
        emit (StError "No IEPs available. Please generate an IEP first.") ;;
        ret None
    | _ =>
        options ← lift_res (iep_ids iep_results);
        ret (selectbox options (iep_choice form))
    end;
  emit (StMarkdown "*Required fields") ;;
  if generate_button form then
    if required_filled form selected_iep then
      handle_lesson_plan_generation
        (f_subject form) (f_grade_level form)
        (schedule_str (f_timeframe form)) (f_duration form) days_per_week
        (f_specific_goals form) (f_materials form)
        (f_additional_accommodations form)
        (default "" selected_iep) app_components
    else emit (StError "Please fill in all required fields.")
  else ret tt.

End Handlers.
End LessonPlan.

(** ** The same handlers in the single-file front end: [ui/app.py] *)
Module App.
Section Handlers.
Context (env : Collaborators).

(** No id is assigned here: only source and upload time. *)
Definition stamp (file : UploadedFile) (upload_time : nat)
    (document : Document) : Document :=
  {| page_content := page_content document;
     metadata :=
       <["upload_time" := isoformat env upload_time]>
         (<["source" := name file]> (metadata document)) |}.

Definition process_file (vs : VectorStore) (file : UploadedFile)
    (processing_success : bool) : M bool :=
  emit (StatusInfo ("Processing " +:+ name file +:+ "...")) ;;
  try_except
    (temp_path ← lift_res (process_uploaded_file env file);
     result ← lift_res (load_single_document env temp_path);
     match result with
     | LoadFailed error_message =>
         emit (StatusError ("Error processing " +:+ name file +:+ ": "
                            +:+ error_message)) ;;
         ret false
     | LoadOk document =>
         upload_time ← now;
         let document := stamp file upload_time document in
         sm_append K_documents document ;;
         add_documents vs [document] ;;
         emit (StatusSuccess ("Successfully processed " +:+ name file)) ;;
         ret processing_success
     end)
    (λ e,
       match e with
       | FileHandlerError _ =>
           emit (StatusError ("Error handling " +:+ name file +:+ ": "
                              +:+ exn_str e)) ;;
           ret false
       | _ =>
           emit (LogError ("Unexpected error processing " +:+ name file
                           +:+ ": " +:+ exn_str e)) ;;
           emit (StatusError ("Unexpected error processing "
                              +:+ name file)) ;;
           ret false
       end).

Fixpoint process_files (vs : VectorStore) (files : list UploadedFile)
    (processing_success : bool) : M bool :=
  match files with
  | [] => ret processing_success
  | file :: rest =>
      ok ← process_file vs file processing_success;
      process_files vs rest ok
  end.

Definition process_uploaded_files (uploaded_files : list UploadedFile)
    (app_components : AppComponents) : M unit :=
  match vector_store app_components with
  | None =>
      emit (StError "Vector store not initialized. Cannot process documents.")
  | Some vs =>
      already ← sm_get K_documents_processed;
      (if already then ret tt
       else
         emit (StWrite "### Processing Files") ;;
         ok ← process_files vs uploaded_files true;
         if ok then
           sm_set K_documents_processed true ;;
           emit (StSuccess "All documents processed successfully!") ;;
           update_system_state {[ "vector_store_initialized" := true ]}
         else
           emit (StError "Error processing some documents.")) ;;
      emit TempCleanup
  end.

Definition clear_documents (app_components : AppComponents) : M unit :=
  match vector_store app_components with
  | Some vs => clear_index vs
  | None => ret tt
  end ;;
  sm_set K_documents_processed false ;;
  sm_set K_documents [] ;;
  sm_set K_iep_results [] ;;
  sm_set K_lesson_plans [] ;;
  update_system_state {[ "vector_store_initialized" := false ]} ;;
  emit StRerun.

Definition fallback_message : Message :=
  {| role := "assistant";
     content := "I can help answer questions about documents once they're uploaded. For now, I can assist with general educational questions.";
     sources := Some [] |}.

Definition error_message : Message :=
  {| role := "assistant";
     content := "I encountered an error while processing your question. Please try again.";
     sources := Some [] |}.

Definition source_events (i : nat) (doc : Document) : list Event :=
  [ StWrite ("Source " +:+ pretty i +:+ ":");
    StWrite (page_content doc) ]
  ++ match metadata doc !! "source" with
     | Some src => if Py.truthy src then [StWrite ("Source: " +:+ src)] else []
     | None => []
     end
  ++ [ StWrite "---" ].

Definition display_sources (srcs : list Document) : M unit :=
  emit_all (mjoin (imap (λ i doc, source_events (S i) doc) srcs)).

(** The chat-input part of [create_chat_tab]. *)
Definition create_chat_tab (prompt : option string)
    (app_components : AppComponents) : M unit :=
  if Py.truthy_opt prompt then
    let prompt := default "" prompt in
    sm_append K_messages {| role := "user"; content := prompt;
                            sources := None |} ;;
    emit (StMarkdown prompt) ;;
    try_except
      (message_data ←
         match rag_chain app_components with
         | Some chain =>
             emit (ChainRequest prompt) ;;
             r ← draw;
             response ← lift_res (run chain prompt r);
             match response with
             | None =>
                 raise (TypeError "'NoneType' object is not subscriptable")
             | Some resp =>
                 match result resp with
                 | None => raise (KeyError "result")
                 | Some answer =>
                     ret {| role := "assistant"; content := answer;
                            sources :=
                              Some (default [] (source_documents resp)) |}
                 end
             end
         | None => ret fallback_message
         end;
       sm_append K_messages message_data ;;
       emit (StMarkdown (content message_data)) ;;
       match sources message_data with
       | Some (doc :: rest) => display_sources (doc :: rest)
       | _ => ret tt
       end)
      (λ e,
         emit (LogError ("Error generating response: " +:+ exn_str e)) ;;
         sm_append K_messages error_message ;;
         emit (StMarkdown (content error_message)))
  else ret tt.

Definition get_document_by_id (doc_id : string) : M (option Document) :=
  docs ← sm_get K_documents; ret (DocumentUtils.find_document doc_id docs).

(** The download button sits behind a [st.button] created in this very
    run, which therefore reads as not pressed. *)
Definition display_iep_content (iep_result : gmap string string) : M unit :=
  content ← getitem iep_result "content";
  source ← getitem iep_result "source";
  emit (StSubheader ("IEP for " +:+ source)) ;;
  emit (StMarkdown content).

Definition handle_iep_generation (selected_doc : gmap string string)
    (app_components : AppComponents) : M unit :=
  try_except
    (doc_id ← getitem selected_doc "id";
     document ← get_document_by_id doc_id;
     match document with
     | None => emit (StError "Could not retrieve document for processing.")
     | Some document =>
         match iep_pipeline app_components with
         | Some pipeline =>
             r ← draw;
             iep_result ← lift_res (generate_iep pipeline document r);
             sm_append K_iep_results iep_result ;;
             display_iep_content iep_result
         | None =>
             match llm_client app_components with
             | None =>
                 emit (StError
                   "LLM client not initialized. Cannot generate IEP.")
             | Some llm =>
                 response ← call_llm llm (Iep.iep_messages document)
                              None None;
                 match checked_content response with
                 | None => emit (StError "Failed to generate IEP content.")
                 | Some generated =>
                     u ← draw;
                     display_name ← getitem selected_doc "display_name";
                     source_id ← getitem selected_doc "id";
                     t ← now;
                     let iep_result : gmap string string :=
                       {[ "id" := uuid4 env u;
                          "source" := display_name;
                          "source_id" := source_id;
                          "content" := generated;
                          "timestamp" := isoformat env t ]} in
                     sm_append K_iep_results iep_result ;;
                     display_iep_content iep_result
                 end
             end
         end
     end)
    (λ e,
       emit (LogError ("Error generating IEP: " +:+ exn_str e)) ;;
       emit (StError ("Error generating IEP: " +:+ exn_str e))).

Definition handle_lesson_plan_generation
    (subject grade_level timeframe duration : string)
    (days_per_week : list string)
    (specific_goals materials additional_accommodations : string)
    (selected_iep_id : string) (app_components : AppComponents) : M unit :=
  try_except
    (iep_results ← sm_get K_iep_results;
     selected_iep ← lift_res (find_iep selected_iep_id iep_results);
     match found selected_iep with
     | None => emit (StError "Selected IEP not found.")
     | Some selected_iep =>
         let goals_list := goals_of specific_goals in
         let materials_list := lines_or_empty materials in
         let accommodations_list :=
           lines_or_empty additional_accommodations in
         let save (plan_data : gmap string PyVal) : M unit :=
           sm_append K_lesson_plans plan_data ;;
           sm_set K_current_plan (Some plan_data) ;;
           emit (StSuccess "Lesson plan generated successfully!") ;;
           emit StRerun in
         match lesson_plan_pipeline app_components with
         | Some pipeline =>
             iep_content ← getitem selected_iep "content";
             r ← draw;
             plan_data ← lift_res
               (generate_lesson_plan pipeline subject grade_level timeframe
                  duration days_per_week goals_list materials_list
                  accommodations_list iep_content r);
             iep_source ← getitem selected_iep "source";
             save (<["source_iep_source" := VStr iep_source]>
                     (<["source_iep_id" := VStr selected_iep_id]> plan_data))
         | None =>
             match llm_client app_components with
             | None =>
                 emit (StError
                   "LLM client not initialized. Cannot generate lesson plan.")
             | Some llm =>
                 iep_content ← getitem selected_iep "content";
                 let prompt :=
                   prompt_text "            " subject grade_level timeframe
                     duration days_per_week goals_list materials_list
                     accommodations_list iep_content in
                 response ← call_llm llm
                   [ {| cm_role := "system";
                        cm_content := lesson_plan_system_prompt |};
                     {| cm_role := "user"; cm_content := prompt |} ]
                   (Some (7 # 10)%Q) (Some 4000);
                 match checked_content response with
                 | None => emit (StError "Failed to generate lesson plan.")
                 | Some generated =>
                     u ← draw;
                     iep_source ← getitem selected_iep "source";
                     t ← now;
                     save
                       {[ "id" := VStr (uuid4 env u);
                          "subject" := VStr subject;
                          "grade_level" := VStr grade_level;
                          "duration" := VStr duration;
                          "timeframe" := VStr timeframe;
                          "days" := VList days_per_week;
                          "specific_goals" := VList goals_list;
                          "materials" := VList materials_list;
                          "additional_accommodations" :=
                            VList accommodations_list;
                          "content" := VStr generated;
                          "source_iep_id" := VStr selected_iep_id;
                          "source_iep_source" := VStr iep_source;
                          "timestamp" := VStr (isoformat env t) ]}
                 end
             end
         end
     end)
    (λ e,
       emit (LogError ("Error generating lesson plan: " +:+ exn_str e)) ;;
       emit (StError ("Error generating lesson plan: " +:+ exn_str e))).

(** The form part of [create_lesson_plan_tab]. *)
Definition create_lesson_plan_tab (form : LessonPlanForm)
    (app_components : AppComponents) : M unit :=
  let days_per_week :=
    match f_timeframe form with
    | Weekly => days_selected form
    | Daily => ["Daily"]
    end in
  iep_results ← sm_get K_iep_results;
  selected_iep ←
    match iep_results with
    | [] =>
        emit (StError "No IEPs available. Please generate an IEP first.") ;;
        ret None
    | _ =>
        options ← lift_res (iep_ids iep_results);
        ret (selectbox options (iep_choice form))
    end;
  emit (StMarkdown "*Required fields") ;;
  if generate_button form then
    if Py.all [ Py.truthy (f_subject form); Py.truthy (f_grade_level form);
                Py.truthy (f_duration form);
                Py.truthy (f_specific_goals form);
                Py.truthy_opt selected_iep ]
    then
      handle_lesson_plan_generation
        (f_subject form) (f_grade_level form)
        (schedule_str (f_timeframe form)) (f_duration form) days_per_week
        (f_specific_goals form) (f_materials form)
        (f_additional_accommodations form)
        (default "" selected_iep) app_components
    else emit (StError "Please fill in all required fields.")
  else ret tt.

(** The four lines of the status panel: three health flags, read with
    default [False], and whether any document is registered. *)
Definition status_components (st : SessionState) : list (string * bool) :=
  [ ("LLM Client", default false (system_state st !! "llm_initialized"));
    ("Vector Store",
     default false (system_state st !! "vector_store_initialized"));
    ("RAG Chain", default false (system_state st !! "chain_initialized"));
    ("Document Count", (0 <? length (documents st))%nat) ].

Definition status_line (c : string * bool) : Event :=
  if snd c then StSuccess ("✅ " +:+ fst c +:+ ": OK")
  else StError ("❌ " +:+ fst c +:+ ": Failed").

Definition display_system_status (app_components : AppComponents) : M unit :=
  st ← (λ s, (Ok (session s), s));
  emit (StWrite "### System Components Status") ;;
  emit_all (status_line <$> status_components st).

(** [create_sidebar]: the uploader, the clear button (offered once
    documents are processed) and the status panel.  Clearing ends in
    [st.rerun()], which abandons the rest of the run: the status panel is
    then not reached. *)
Definition create_sidebar (uploaded_files : list UploadedFile)
    (clear_clicked : bool) (app_components : AppComponents) : M unit :=
  match uploaded_files with
  | [] => ret tt
  | _ => process_uploaded_files uploaded_files app_components
  end ;;
  processed ← sm_get K_documents_processed;
  if processed && clear_clicked then clear_documents app_components
  else display_system_status app_components.

(** The icon shown for a document, by its type or the extension of its
    source name. *)
Definition icon_of (doc_type source : string) : string :=
  let lowered := Py.lower source in
  if bool_decide (doc_type = "pdf") || Py.endswith ".pdf" lowered then "📄"
  else if bool_decide (doc_type = "document")
          || Py.endswith ".docx" lowered || Py.endswith ".doc" lowered
  then "📝"
  else if bool_decide (doc_type = "spreadsheet")
          || Py.endswith ".csv" lowered || Py.endswith ".xlsx" lowered
  then "📊"
  else if bool_decide (doc_type = "data") || Py.endswith ".json" lowered
  then "📋"
  else "📄".

(** The entry listed for the document at position [i]. *)
Definition available_entry (i : nat) (doc : Document) : gmap string string :=
  let doc_id := default ("doc_" +:+ pretty i) (metadata doc !! "id") in
  let source := default "Untitled Document" (metadata doc !! "source") in
  let doc_type := default "unknown" (metadata doc !! "document_type") in
  {[ "id" := doc_id;
     "display_name" := icon_of doc_type source +:+ " " +:+ source;
     "source" := source ]}.

Definition get_available_documents : M (list (gmap string string)) :=
  state_docs ← sm_get K_documents;
  ret (imap available_entry state_docs).

(** One previously generated IEP, at position [i]. *)
Definition existing_iep (i : nat) (iep : gmap string string) : M unit :=
  emit (StMarkdown (default "No content available" (iep !! "content"))) ;;
  t ← now;
  emit (StDownloadButton
          ("Download IEP " +:+ pretty (S i))
          (default "" (iep !! "content"))
          ("IEP_" +:+ Py.replace_char " " "_" (default "unknown" (iep !! "source"))
           +:+ "_" +:+ strftime_ymd env t +:+ ".txt")).

Fixpoint existing_ieps (i : nat) (ieps : list (gmap string string)) : M unit :=
  match ieps with
  | [] => ret tt
  | iep :: rest => existing_iep i iep ;; existing_ieps (S i) rest
  end.

Definition display_existing_ieps : M unit :=
  iep_results ← sm_get K_iep_results;
  match iep_results with
  | [] => ret tt
  | _ =>
      emit (StMarkdown "### Previously Generated IEPs") ;;
      existing_ieps 0 iep_results
  end.

(** [create_iep_tab]: [doc_choice] is the position chosen in the document
    select box, [generate_clicked] the state of the "Generate IEP" button. *)
Definition create_iep_tab (doc_choice : nat) (generate_clicked : bool)
    (app_components : AppComponents) : M unit :=
  emit (StMarkdown "### Document Selection") ;;
  available_documents ← get_available_documents;
  match available_documents with
  | [] => emit (StInfo "No documents available. Please upload a document.")
  | first :: _ =>
      let selected_doc := default first (available_documents !! doc_choice) in
      if generate_clicked
      then handle_iep_generation selected_doc app_components
      else ret tt
  end ;;
  display_existing_ieps.

End Handlers.
End App.

(** ** The sidebar of the component front end, with its status panel *)
Module SidebarPanel.
Section Handlers.
Context (env : Collaborators).

(** [render_system_status]: the code of [display_system_status]. *)
Definition render_system_status (app_components : AppComponents) : M unit :=
  st ← (λ s, (Ok (session s), s));
  emit (StWrite "### System Components Status") ;;
  emit_all (App.status_line <$> App.status_components st).

(** [render_sidebar]: [render_file_upload], then the status panel unless
    clearing has ended the run with [st.rerun()]. *)
Definition render_sidebar (uploaded_files : list UploadedFile)
    (clear_clicked : bool) (app_components : AppComponents) : M unit :=
  match uploaded_files with
  | [] => ret tt
  | _ => Sidebar.process_uploaded_files env uploaded_files app_components
  end ;;
  processed ← sm_get K_documents_processed;
  if processed && clear_clicked then Sidebar.clear_documents app_components
  else render_system_status app_components.

End Handlers.
End SidebarPanel.

(** ** The chat tab around the chat input: [ui/components/chat.py] *)
Module ChatTab.
Section Handlers.
Context (env : Collaborators).

(** What [display_chat_history] writes for one stored message. *)
Definition history_events (message : Message) : list Event :=
  StMarkdown (content message)
  :: match sources message with
     | Some (doc :: rest) =>
         mjoin (imap (λ i d,
           let '(is_valid, doc_data) := validate_document_structure env d in
           [ StWrite ("Source " +:+ pretty (S i) +:+ ":");
             (if is_valid && Py.truthy (dd_content doc_data)
              then StWrite (dd_content doc_data)
              else StWrite "Source content unavailable");
             StWrite ("Source: "
                      +:+ default "Unknown source"
                            (dd_metadata doc_data !! "source"));
             StWrite "---" ]) (doc :: rest))
     | _ => []
     end.

Definition display_chat_history : M unit :=
  history ← sm_get K_messages;
  emit_all (mjoin (history_events <$> history)).

(** [render_chat_tab]: the history, the chat input, and the clear button,
    which is shown only while there are messages. *)
Definition render_chat_tab (prompt : option string) (clear_clicked : bool)
    (app_components : AppComponents) : M unit :=
  display_chat_history ;;
  Chat.handle_chat_input env prompt app_components ;;
  history ← sm_get K_messages;
  match history with
  | [] => ret tt
  | _ => if clear_clicked
         then sm_set K_messages [] ;; emit StRerun
         else ret tt
  end.

End Handlers.
End ChatTab.

(** ** Accommodation categories: [ui/components/visualization.py] *)
Module Visualization.

(** The keyword table, in the order of the dictionary. *)
Definition categories : list (string * list string) :=
  [ ("visual", ["visual"; "diagram"; "picture"; "image"; "chart"; "graph"]);
    ("audio", ["audio"; "sound"; "listen"; "verbal"; "speech"]);
    ("time", ["time"; "extended"; "additional"; "break"; "pause"]);
    ("physical", ["seat"; "position"; "move"; "stand"; "fidget"]);
    ("assistive", ["device"; "technology"; "computer"; "calculator"; "aid"]) ].

(** Iterating over a stored value: the elements of a list, the characters
    of a string. *)
Fixpoint chars (s : string) : list string :=
  match s with
  | EmptyString => []
  | String c s' => String c EmptyString :: chars s'
  end.

Definition iterate (v : option PyVal) : list string :=
  match v with
  | None => []
  | Some (VList l) => l
  | Some (VStr s) => chars s
  end.

(** The accommodations collected from the lesson plans: the non-empty
    entries of every plan's [additional_accommodations]. *)
Definition all_accommodations (lesson_plans : list (gmap string PyVal))
    : list string :=
  lesson_plans ≫= λ plan,
    List.filter Py.truthy (iterate (plan !! "additional_accommodations")).

(** The first category one of whose keywords occurs in the lowered text. *)
Fixpoint category_in (table : list (string * list string)) (lowered : string)
    : option string :=
  match table with
  | [] => None
  | (cat, keywords) :: rest =>
      if Py.any ((λ keyword, Py.contains keyword lowered) <$> keywords)
      then Some cat
      else category_in rest lowered
  end.

Definition category_of (accommodation : string) : option string :=
  category_in categories (Py.lower accommodation).

(** The counting loop: one step per accommodation, on the per-category
    counts and the count of the uncategorized ones. *)
Definition count_step (acc : gmap string nat * nat) (accommodation : string)
    : gmap string nat * nat :=
  match category_of accommodation with
  | Some cat => (<[cat := S (default 0 (fst acc !! cat))]> (fst acc), snd acc)
  | None => (fst acc, S (snd acc))
  end.

Definition category_counts (accommodations : list string) : gmap string nat :=
  let start : gmap string nat :=
    list_to_map ((λ c, (fst c, 0)) <$> categories) in
  let done := foldl count_step (start, 0) accommodations in
  <["other" := snd done]> (fst done).

End Visualization.

(** ** Vocabulary of the statements *)

(** The events a computation adds to the trace of [s]. *)
Definition said {A} (m : M A) (s : Sys) : list Event :=
  drop (length (trace s)) (trace (m s).2).

(** [s] with further events appended to its trace. *)
Definition with_events (evs : list Event) (s : Sys) : Sys :=
  {| session := session s; index := index s; trace := trace s ++ evs;
     clock := clock s; entropy := entropy s |}.

(** What the collaborators make of one uploaded file. *)
Inductive Outcome :=
| HandlerRaised (e : Exn)
| LoaderRaised (e : Exn)
| ExtractionFailed (error_message : string)
| Extracted (document : Document).

Definition outcome (env : Collaborators) (file : UploadedFile) : Outcome :=
  match process_uploaded_file env file with
  | Raise e => HandlerRaised e
  | Ok temp_path =>
      match load_single_document env temp_path with
      | Raise e => LoaderRaised e
      | Ok (LoadFailed error_message) => ExtractionFailed error_message
      | Ok (LoadOk document) => Extracted document
      end
  end.

(** [load_single_document] returns [success=False] for this file. *)
Definition fails_extraction (env : Collaborators) (file : UploadedFile)
    : bool :=
  match outcome env file with ExtractionFailed _ => true | _ => false end.

(** The file is extracted (and, where the caller checks it, indexed). *)
Definition extracted (env : Collaborators) (file : UploadedFile) : bool :=
  match outcome env file with Extracted _ => true | _ => false end.

Definition succeeds (env : Collaborators) (vs : VectorStore)
    (file : UploadedFile) : bool :=
  match outcome env file with
  | Extracted d => embeds vs (page_content d)
  | _ => false
  end.

(** How many elements of a list satisfy a test. *)
Definition count_where {A} (p : A → bool) (l : list A) : nat :=
  length (List.filter p l).

(** Per-file error reports are the [status_container.error] calls. *)
Definition is_file_error (ev : Event) : bool :=
  match ev with StatusError _ => true | _ => false end.

Definition file_errors (evs : list Event) : nat :=
  count_where is_file_error evs.

Definition b2n (b : bool) : nat := if b then 1 else 0.

(** Files taken up are announced by [status_container.info]. *)
Definition is_file_start (ev : Event) : bool :=
  match ev with StatusInfo _ => true | _ => false end.

Definition files_started (evs : list Event) : nat :=
  count_where is_file_start evs.

Definition is_error (ev : Event) : bool :=
  match ev with StError _ => true | _ => false end.

Definition is_cleanup (ev : Event) : bool :=
  match ev with TempCleanup => true | _ => false end.

Definition cleanups (evs : list Event) : nat :=
  count_where is_cleanup evs.

(** A generation response that is absent or has no content field. *)
Definition lacks_content (response : option (gmap string string)) : Prop :=
  match response with
  | None => True
  | Some d => d !! "content" = None
  end.

(** The id a registered document carries. *)
Definition doc_id (d : Document) : option string := metadata d !! "id".

(** Every document of the registry carries the id of its position. *)
Definition numbered (docs : list Document) : Prop :=
  ∀ i d, docs !! i = Some d → doc_id d = Some ("doc_" +:+ pretty i).

(** What a user does to the document registry during a session. *)
Inductive Action :=
| Upload (files : list UploadedFile)
| ClearDocuments.

Definition act (env : Collaborators) (app_components : AppComponents)
    (a : Action) : M unit :=
  match a with
  | Upload files => Sidebar.process_uploaded_files env files app_components
  | ClearDocuments => Sidebar.clear_documents app_components
  end.

Fixpoint run_session (env : Collaborators) (app_components : AppComponents)
    (history : list Action) : M unit :=
  match history with
  | [] => ret tt
  | a :: rest =>
      act env app_components a ;; run_session env app_components rest
  end.

(** The registry after a session history, started from the initial state. *)
Definition registry_after (env : Collaborators)
    (app_components : AppComponents) (history : list Action)
    : list Document :=
  documents (session (run_session env app_components history initial_sys).2).

(** Session-wide uniqueness of document ids: two documents registered at any
    two moments of one session and carrying the same id are the same
    document. *)
Definition ids_unique_in_session (env : Collaborators)
    (app_components : AppComponents) : Prop :=
  ∀ (history : list Action) (k1 k2 : nat) (d1 d2 : Document),
    d1 ∈ registry_after env app_components (take k1 history) →
    d2 ∈ registry_after env app_components (take k2 history) →
    doc_id d1 = doc_id d2 → d1 = d2.

(** The insertion policy: some flag on registered documents tells the
    unindexed ones from the indexed ones after every ingestion batch. *)
Definition insertion_policy (env : Collaborators) : Prop :=
  ∃ flagged_unindexed : Document → bool,
    ∀ (vs : VectorStore) (files : list UploadedFile) (d : Document),
      let s' := (Sidebar.process_uploaded_files env files
                   (mkAppComponents (Some vs) None None None None)
                   initial_sys).2 in
      d ∈ documents (session s') →
      ((d ∈ index s' ∧ flagged_unindexed d = false)
       ∨ (¬ (d ∈ index s') ∧ flagged_unindexed d = true)).

(** The generation requests among some events. *)
Definition requests (evs : list Event) : list (list ChatMessage) :=
  omap (λ ev, match ev with LlmRequest msgs => Some msgs | _ => None end) evs.

(** What is reported for a file whose handling raised [e]. *)
Definition raised_events (file : UploadedFile) (e : Exn) : list Event :=
  match e with
  | FileHandlerError _ =>
      [ StatusError ("Error handling " +:+ name file +:+ ": " +:+ exn_str e) ]
  | _ =>
      [ LogError ("Unexpected error processing " +:+ name file +:+ ": "
                  +:+ exn_str e);
        StatusError ("Unexpected error processing " +:+ name file) ]
  end.

(** [s] after an ingestion loop that registered [new_docs], indexed
    [new_idx] and reported [evs]; every registration reads the clock. *)
Definition ingested (new_docs new_idx : list Document) (evs : list Event)
    (s : Sys) : Sys :=
  {| session := kset K_documents (documents (session s) ++ new_docs)
                  (session s);
     index := index s ++ new_idx;
     trace := trace s ++ evs;
     clock := clock s + length new_docs;
     entropy := entropy s |}.

(** The message that closes a batch in the sidebar component. *)
Definition sidebar_summary (all_ok : bool) (processed : nat) : Event :=
  if all_ok && (0 <? processed)%nat then
    StSuccess ("Successfully processed " +:+ pretty processed +:+ " documents!")
  else if (0 <? processed)%nat then
    StWarning ("Processed " +:+ pretty processed
               +:+ " documents with some errors.")
  else StError "Failed to process any documents.".

(** Every entry of the index is a registered document. *)
Definition indexed_are_registered (s : Sys) : Prop :=
  ∀ d, d ∈ index s → d ∈ documents (session s).

(** Every stored artifact has an id and a source, as the ones the
    handlers create do. *)
Definition artifacts_labelled (s : Sys) : Prop :=
  ∀ iep, iep ∈ iep_results (session s) →
    is_Some (iep !! "id") ∧ is_Some (iep !! "source").


(** Closes a goal [∃ s' evs, m s = (Ok tt, s') ∧ trace s' = trace s ++ evs
    ∧ ¬ (ev ∈ evs)] once [m s] has been evaluated. *)
Ltac closes_quietly :=
  eexists _, _; split; [reflexivity|];
  split; [simpl; rewrite <- ?app_assoc; reflexivity|];
  let Hin := fresh "Hin" in
  intros Hin; simpl in Hin;
  repeat (apply elem_of_cons in Hin as [Hin|Hin]; [discriminate Hin|]);
  by apply elem_of_nil in Hin.

(** Settles the tests [b2n (bool_decide P)] of a counting goal. *)
Ltac settle_count :=
  repeat match goal with
         | |- context [b2n (@bool_decide ?P ?d)] =>
             first [ rewrite (@bool_decide_eq_true_2 P d) by done
                   | rewrite (@bool_decide_eq_false_2 P d) by congruence ]
         end.

(** One run of the component front end that can change the state store:
    the sidebar (with the files held by the uploader and the state of the
    clear button), the chat tab (with the prompt entered and the state of
    its clear button), a press on "Generate IEP" for an entry of the
    document select box, or the lesson-plan form. *)
Inductive Step :=
| SidebarStep (uploaded_files : list UploadedFile) (clear_clicked : bool)
| ChatStep (prompt : option string) (clear_clicked : bool)
| IepStep (selected_doc : gmap string string)
| LessonPlanStep (form : LessonPlanForm).

Definition step (env : Collaborators) (app_components : AppComponents)
    (a : Step) : M unit :=
  match a with
  | SidebarStep uploaded_files clear_clicked =>
      SidebarPanel.render_sidebar env uploaded_files clear_clicked
        app_components
  | ChatStep prompt clear_clicked =>
      ChatTab.render_chat_tab env prompt clear_clicked app_components
  | IepStep selected_doc =>
      Iep.handle_iep_generation env selected_doc app_components
  | LessonPlanStep form =>
      LessonPlan.render_lesson_plan_form env form app_components
  end.

(** The state after a sequence of runs.  The session state outlives a run
    that ends in an uncaught exception: the next run starts from the state
    reached. *)
Fixpoint after_steps (env : Collaborators) (app_components : AppComponents)
    (steps : list Step) (s : Sys) : Sys :=
  match steps with
  | [] => s
  | a :: rest =>
      after_steps env app_components rest (step env app_components a s).2
  end.

(** Every stored lesson plan names the id of a stored IEP as its source. *)
Definition plans_reference_ieps (st : SessionState) : Prop :=
  ∀ plan, plan ∈ lesson_plans st →
    ∃ iep id, iep ∈ iep_results st
              ∧ iep !! "id" = Some id
              ∧ plan !! "source_iep_id" = Some (VStr id).

(** Every stored IEP names the id of a registered document as its
    source. *)
Definition ieps_reference_documents (st : SessionState) : Prop :=
  ∀ iep, iep ∈ iep_results st →
    ∃ document id, document ∈ documents st
                   ∧ doc_id document = Some id
                   ∧ iep !! "source_id" = Some id.

(** ** Sample collaborators and inputs *)
Module Sample.

(** A loader that extracts every file but the ones named [broken.pdf]
    and a file handler that rejects the ones named [locked.txt]. *)
Definition env : Collaborators :=
  {| process_uploaded_file := λ file,
       if bool_decide (name file = "locked.txt")
       then Raise (FileHandlerError "cannot save upload")
       else Ok ("/tmp/" +:+ name file);
     load_single_document := λ temp_path,
       if bool_decide (temp_path = "/tmp/broken.pdf")
       then Ok (LoadFailed "unreadable PDF")
       else Ok (LoadOk {| page_content := "text of " +:+ temp_path;
                          metadata := ∅ |});
     isoformat := λ t, "2024-01-01T00:00:" +:+ pretty t;
     strftime_ymd := λ _, "20240101";
     uuid4 := λ r, "uuid-" +:+ pretty r;
     validate_response_structure := λ r,
       match r with
       | Some resp =>
           if bool_decide (is_Some (result resp)) then (true, "")
           else (false, "Response missing required 'result' field")
       | None => (false, "Response is None")
       end;
     validate_document_structure := λ doc,
       (true, {| dd_content := page_content doc;
                 dd_metadata := metadata doc |}) |}.

Definition indexing : VectorStore := {| embeds := λ _, true |}.
Definition failing : VectorStore := {| embeds := λ _, false |}.

(** A client that always answers, with numbered content. *)
Definition llm : LlmClient :=
  {| chat_completion := λ msgs _ _ r,
       Ok (Some {[ "content" := "generated #" +:+ pretty r ]}) |}.

(** A client whose answer has no content field. *)
Definition mute_llm : LlmClient :=
  {| chat_completion := λ msgs _ _ r, Ok (Some {[ "error" := "overloaded" ]}) |}.

Definition chain : RagChain :=
  {| run := λ query r,
       Ok (Some {| result := Some ("answer to " +:+ query);
                   source_documents := Some [] |}) |}.

Definition app (vs : VectorStore) (client : LlmClient) : AppComponents :=
  {| vector_store := Some vs; llm_client := Some client;
     rag_chain := Some chain; iep_pipeline := None;
     lesson_plan_pipeline := None |}.

Definition notes : UploadedFile := {| name := "notes.txt"; data := "a" |}.
Definition report : UploadedFile := {| name := "report.md"; data := "b" |}.
Definition broken : UploadedFile := {| name := "broken.pdf"; data := "c" |}.

Definition iep : gmap string string :=
  {[ "id" := "iep-1"; "source" := "notes.txt"; "source_id" := "doc_0";
     "content" := "Student reads at grade 2 level";
     "timestamp" := "2024-01-01T00:00:0" ]}.

(** A session in which one IEP has been generated. *)
Definition with_iep : Sys :=
  {| session := kset K_iep_results [iep] initial_session; index := [];
     trace := []; clock := 0; entropy := 0 |}.

(** [notes] as the sidebar registers it in a fresh session. *)
Definition registered_notes : Document :=
  {| page_content := "text of /tmp/notes.txt";
     metadata := {[ "source" := "notes.txt";
                    "upload_time" := "2024-01-01T00:00:0";
                    "id" := "doc_0" ]} |}.

Definition only_store (vs : VectorStore) : AppComponents :=
  {| vector_store := Some vs; llm_client := None; rag_chain := None;
     iep_pipeline := None; lesson_plan_pipeline := None |}.

Definition doc0 : Document :=
  {| page_content := "Student reads at grade 2 level";
     metadata := {[ "id" := "doc_0" ]} |}.

(** A session in which one document is registered and indexed. *)
Definition with_document : Sys :=
  {| session := kset K_documents [doc0] initial_session;
     index := [doc0]; trace := []; clock := 0; entropy := 0 |}.

(** The entry of the document select box for [doc0]. *)
Definition selected_doc : gmap string string :=
  {[ "id" := "doc_0"; "display_name" := "notes.txt" ]}.

(** A weekly form with every text field filled and no day selected. *)
Definition weekly_no_days : LessonPlanForm :=
  {| f_subject := "Reading"; f_grade_level := "3rd Grade";
     f_timeframe := Weekly; f_duration := "45 minutes";
     days_selected := [];
     f_specific_goals := "Improve reading fluency";
     f_materials := ""; f_additional_accommodations := "";
     iep_choice := 0; generate_button := true |}.

End Sample.

(** ** Basic facts about the handler monad *)

Lemma emit_all_run (evs : list Event) (s : Sys) :
  emit_all evs s = (Ok tt, with_events evs s).
Proof.
  revert s. induction evs as [|ev evs IH]; intros s.
  - destruct s. unfold with_events. simpl. by rewrite app_nil_r.
  - simpl. unfold bind, emit. rewrite IH. unfold with_events. simpl.
    by rewrite <- app_assoc.
Qed.

Lemma with_events_session (evs : list Event) (s : Sys) :
  session (with_events evs s) = session s.
Proof. reflexivity. Qed.

Lemma said_app {A} (m : M A) (s : Sys) (evs : list Event) :
  trace (m s).2 = trace s ++ evs → said m s = evs.
Proof. intros H. unfold said. rewrite H. by rewrite drop_app_length. Qed.

(** ** The reset action *)

(** C4. The clear-documents action, in the sidebar component and in the
    single-file front end alike, always completes and leaves the
    documents, IEP and lesson-plan collections empty and the
    vector-store-initialized health flag false, while the chat messages and
    the query log are exactly what they were. *)
Theorem clear_documents_cascade (app_components : AppComponents) (s : Sys) :
  ∃ s',
    Sidebar.clear_documents app_components s = (Ok tt, s')
    ∧ App.clear_documents app_components s = (Ok tt, s')
    ∧ documents (session s') = []
    ∧ iep_results (session s') = []
    ∧ lesson_plans (session s') = []
    ∧ system_state (session s') !! "vector_store_initialized" = Some false
    ∧ messages (session s') = messages (session s)
    ∧ rag_queries (session s') = rag_queries (session s).
Proof.
  unfold Sidebar.clear_documents, App.clear_documents.
  destruct (vector_store app_components) as [vs|];
    (eexists; split; [reflexivity|]; split; [reflexivity|]; simpl;
     repeat split; try reflexivity;
     apply lookup_union_Some_l, lookup_singleton_eq).
Qed.

(** ** Lesson-plan generation: referential integrity *)

Lemma find_iep_absent (selected_iep_id : string)
    (ieps : list (gmap string string)) :
  (∀ iep, iep ∈ ieps → iep !! "id" ≠ Some selected_iep_id) →
  find_iep selected_iep_id ieps = Ok None
  ∨ find_iep selected_iep_id ieps = Raise (KeyError "id").
Proof.
  induction ieps as [|iep rest IH]; intros Habs; simpl; [by left|].
  destruct (iep !! "id") as [i|] eqn:Hid; [|by right].
  case_bool_decide as Heq.
  - exfalso. apply (Habs iep); [by left|]. by rewrite Hid, Heq.
  - apply IH. intros iep' Hin. apply Habs. by right.
Qed.

Lemma find_iep_present (selected_iep_id : string)
    (ieps : list (gmap string string)) (iep : gmap string string) :
  find_iep selected_iep_id ieps = Ok (Some iep) →
  iep ∈ ieps ∧ iep !! "id" = Some selected_iep_id.
Proof.
  induction ieps as [|x rest IH]; simpl; [discriminate|].
  destruct (x !! "id") as [i|] eqn:Hid; [|discriminate].
  case_bool_decide as Heq.
  - intros [= <-]. split; [by left|]. by rewrite Hid, Heq.
  - intros H. destruct (IH H) as [Hin Hl]. split; [by right|done].
Qed.

(** C1. A lesson-plan request whose [source_iep_id] is the id of no IEP
    artifact of the [iep_results] collection ends, in both front ends, with
    an error shown to the user, without any generation request, and with
    the whole state store (the [lesson_plans] collection included) and the
    index exactly as before. *)
Theorem dangling_iep_reference_rejected (env : Collaborators)
    (subject grade_level timeframe duration : string)
    (days_per_week : list string)
    (specific_goals materials additional_accommodations : string)
    (selected_iep_id : string) (app_components : AppComponents) (s : Sys) :
  (∀ iep, iep ∈ iep_results (session s) → iep !! "id" ≠ Some selected_iep_id) →
  ∃ s' evs msg,
    LessonPlan.handle_lesson_plan_generation env subject grade_level
      timeframe duration days_per_week specific_goals materials
      additional_accommodations selected_iep_id app_components s = (Ok tt, s')
    ∧ App.handle_lesson_plan_generation env subject grade_level
        timeframe duration days_per_week specific_goals materials
        additional_accommodations selected_iep_id app_components s
      = (Ok tt, s')
    ∧ session s' = session s
    ∧ index s' = index s
    ∧ trace s' = trace s ++ evs
    ∧ last evs = Some (StError msg)
    ∧ (∀ msgs, LlmRequest msgs ∉ evs).
Proof.
  intros Habs.
  unfold LessonPlan.handle_lesson_plan_generation,
    App.handle_lesson_plan_generation.
  unfold try_except, bind, sm_get, lift_res. simpl.
  destruct (find_iep_absent _ _ Habs) as [-> | ->]; simpl.
  - eexists _, [_], _. repeat split; try reflexivity.
    intros msgs Hin. apply list_elem_of_singleton in Hin. discriminate.
  - unfold emit. simpl. eexists _, [_; _], _.
    split; [reflexivity|]. split; [reflexivity|]. simpl.
    repeat split; try reflexivity.
    + by rewrite <- app_assoc.
    + intros msgs Hin. repeat (apply elem_of_cons in Hin as [Hin|Hin];
        [discriminate|]). by apply elem_of_nil in Hin.
Qed.

Lemma dangling_iep_reference_rejected_witness :
  ∃ s' evs msg,
    LessonPlan.handle_lesson_plan_generation Sample.env "Reading" "3rd Grade"
      "Weekly" "45 minutes" ["Monday"] "Improve reading fluency" "" ""
      "iep-2" (Sample.app Sample.indexing Sample.llm) Sample.with_iep
    = (Ok tt, s')
    ∧ App.handle_lesson_plan_generation Sample.env "Reading" "3rd Grade"
        "Weekly" "45 minutes" ["Monday"] "Improve reading fluency" "" ""
        "iep-2" (Sample.app Sample.indexing Sample.llm) Sample.with_iep
      = (Ok tt, s')
    ∧ session s' = session Sample.with_iep
    ∧ index s' = index Sample.with_iep
    ∧ trace s' = trace Sample.with_iep ++ evs
    ∧ last evs = Some (StError msg)
    ∧ (∀ msgs, LlmRequest msgs ∉ evs).
Proof.
  apply dangling_iep_reference_rejected.
  intros iep Hin. apply list_elem_of_singleton in Hin. subst iep.
  vm_compute. discriminate.
Defined.

(** ** IEP generation: responses without content *)

Lemma checked_content_lacking (response : option (gmap string string)) :
  lacks_content response ↔ checked_content response = None.
Proof.
  destruct response as [d|]; simpl; [|done].
  case_bool_decide as He; [|done].
  subst d. split; [done|]. intros _. apply lookup_empty.
Qed.

(** C7. When the generation capability answers an IEP request with nothing
    or with a dictionary that has no content field, the handler shows
    "Failed to generate IEP content." and leaves the state store, hence the
    [iep_results] collection, untouched.  This is the handler of the IEP
    component, and the handler of the single-file front end whenever it
    calls the generation capability itself (no IEP pipeline installed). *)
Theorem missing_content_creates_no_iep (env : Collaborators)
    (selected_doc : gmap string string) (app_components : AppComponents)
    (s : Sys) (llm : LlmClient) (id : string) (document : Document)
    (response : option (gmap string string)) :
  selected_doc !! "id" = Some id →
  DocumentUtils.find_document id (documents (session s)) = Some document →
  llm_client app_components = Some llm →
  chat_completion llm (Iep.iep_messages document) None None (entropy s)
    = Ok response →
  lacks_content response →
  ∃ s',
    Iep.handle_iep_generation env selected_doc app_components s = (Ok tt, s')
    ∧ (iep_pipeline app_components = None →
       App.handle_iep_generation env selected_doc app_components s
       = (Ok tt, s'))
    ∧ session s' = session s
    ∧ iep_results (session s') = iep_results (session s)
    ∧ trace s' = trace s ++ [ LlmRequest (Iep.iep_messages document);
                              StError "Failed to generate IEP content." ].
Proof.
  intros Hid Hdoc Hllm Hresp Hlack.
  apply checked_content_lacking in Hlack.
  eexists. split; [|split].
  - unfold Iep.handle_iep_generation.
    unfold try_except, bind, getitem, DocumentUtils.get_document_by_id,
      call_llm, bind, sm_get, lift_res, ret.
    rewrite Hid. simpl. rewrite Hdoc, Hllm. simpl.
    rewrite Hresp, Hlack. reflexivity.
  - intros Hpipe. unfold App.handle_iep_generation.
    unfold try_except, bind, getitem, App.get_document_by_id,
      call_llm, bind, sm_get, lift_res, ret.
    rewrite Hid. simpl. rewrite Hdoc, Hpipe, Hllm. simpl.
    rewrite Hresp, Hlack. reflexivity.
  - simpl. repeat split. by rewrite <- app_assoc.
Qed.

Lemma missing_content_creates_no_iep_witness :
  ∃ s',
    Iep.handle_iep_generation Sample.env Sample.selected_doc
      (Sample.app Sample.indexing Sample.mute_llm) Sample.with_document
    = (Ok tt, s')
    ∧ (iep_pipeline (Sample.app Sample.indexing Sample.mute_llm) = None →
       App.handle_iep_generation Sample.env Sample.selected_doc
         (Sample.app Sample.indexing Sample.mute_llm) Sample.with_document
       = (Ok tt, s'))
    ∧ session s' = session Sample.with_document
    ∧ iep_results (session s') = iep_results (session Sample.with_document)
    ∧ trace s' = trace Sample.with_document
                 ++ [ LlmRequest (Iep.iep_messages Sample.doc0);
                      StError "Failed to generate IEP content." ].
Proof.
  apply (missing_content_creates_no_iep Sample.env Sample.selected_doc
           (Sample.app Sample.indexing Sample.mute_llm) Sample.with_document
           Sample.mute_llm "doc_0" Sample.doc0
           (Some {[ "error" := "overloaded" ]}));
    reflexivity.
Defined.

(** ** Chat: two entries per prompt *)

Lemma display_sources_run (env : Collaborators) (srcs : list Document)
    (s : Sys) :
  ∃ evs, Chat.display_sources env srcs s = (Ok tt, with_events evs s).
Proof. eexists. apply emit_all_run. Qed.

Lemma app_display_sources_run (srcs : list Document) (s : Sys) :
  ∃ evs, App.display_sources srcs s = (Ok tt, with_events evs s).
Proof. eexists. apply emit_all_run. Qed.

(** The inner [try] of the chat component always yields an assistant
    message and never touches the store. *)
Lemma ask_chain_total (env : Collaborators) (chain : RagChain)
    (prompt : string) (s : Sys) :
  ∃ reply s',
    Chat.ask_chain env chain prompt s = (Ok reply, s')
    ∧ session s' = session s
    ∧ role reply = "assistant".
Proof.
  unfold Chat.ask_chain, try_except, bind, emit, draw, lift_res. simpl.
  destruct (run chain prompt (entropy s)) as [response|e]; simpl;
    [|by eexists _, _].
  destruct (validate_response_structure env response) as [[] error_msg];
    simpl; [|by eexists _, _].
  destruct response as [resp|]; simpl; [|by eexists _, _].
  destruct (result resp) as [answer|]; simpl; by eexists _, _.
Qed.

Lemma chat_component_two_entries (env : Collaborators) (prompt : string)
    (app_components : AppComponents) (s : Sys) :
  prompt ≠ "" →
  ∃ s' reply,
    Chat.handle_chat_input env (Some prompt) app_components s = (Ok tt, s')
    ∧ messages (session s')
      = messages (session s)
        ++ [ {| role := "user"; content := prompt; sources := None |}; reply ]
    ∧ role reply = "assistant".
Proof.
  intros Hne. unfold Chat.handle_chat_input.
  destruct prompt as [|c prompt]; [done|]. simpl Py.truthy_opt. cbv iota.
  set (p := String c prompt). simpl default.
  unfold try_except, bind at 1 2. simpl.
  match goal with |- context [bind ?m _ ?s0] =>
    assert (∃ reply s1, m s0 = (Ok reply, s1)
                        ∧ session s1 = session s0
                        ∧ role reply = "assistant") as (reply & s1 & Hm & Hs & Hr)
  end.
  { destruct (rag_chain app_components) as [chain|].
    - apply ask_chain_total.
    - by eexists _, _. }
  unfold bind at 1. rewrite Hm. unfold bind, sm_append, modify_session, emit.
  simpl.
  assert (∀ srcs s2, ∃ s3,
            match srcs with
            | Some (doc :: rest) => Chat.display_sources env (doc :: rest)
            | _ => ret tt
            end s2 = (Ok tt, s3) ∧ session s3 = session s2) as Hshow.
  { intros [[|doc rest]|] s2; try by eexists.
    destruct (display_sources_run env (doc :: rest) s2) as [evs ->].
    by eexists. }
  match goal with |- context [match sources reply with _ => _ end ?s2] =>
    destruct (Hshow (sources reply) s2) as (s3 & Hd & Hs3)
  end.
  rewrite Hd. exists s3, reply. split; [done|]. split; [|done].
  rewrite Hs3. simpl. rewrite Hs. simpl. by rewrite <- app_assoc.
Qed.

Lemma app_chat_two_entries (prompt : string)
    (app_components : AppComponents) (s : Sys) :
  prompt ≠ "" →
  ∃ s' reply,
    App.create_chat_tab (Some prompt) app_components s = (Ok tt, s')
    ∧ messages (session s')
      = messages (session s)
        ++ [ {| role := "user"; content := prompt; sources := None |}; reply ]
    ∧ role reply = "assistant".
Proof.
  intros Hne. unfold App.create_chat_tab.
  destruct prompt as [|c prompt]; [done|]. simpl Py.truthy_opt. cbv iota.
  set (p := String c prompt). simpl default.
  unfold try_except, bind at 1 2. simpl.
  match goal with |- context [bind ?m _ ?s0] =>
    assert ((∃ reply s1, m s0 = (Ok reply, s1)
                         ∧ session s1 = session s0
                         ∧ role reply = "assistant")
            ∨ (∃ e s1, m s0 = (Raise e, s1) ∧ session s1 = session s0))
      as [(reply & s1 & Hm & Hs & Hr) | (e & s1 & Hm & Hs)]
  end.
  { destruct (rag_chain app_components) as [chain|]; [|left; by eexists _, _].
    unfold bind, emit, draw, lift_res, raise. simpl.
    destruct (run chain p (entropy s)) as [[resp|]|e]; simpl;
      [|right; by eexists _, _|right; by eexists _, _].
    destruct (result resp) as [answer|]; simpl;
      [left|right]; by eexists _, _. }
  - unfold bind at 1. rewrite Hm.
    unfold bind, sm_append, modify_session, emit. simpl.
    assert (∀ srcs s2, ∃ s3,
              match srcs with
              | Some (doc :: rest) => App.display_sources (doc :: rest)
              | _ => ret tt
              end s2 = (Ok tt, s3) ∧ session s3 = session s2) as Hshow.
    { intros [[|doc rest]|] s2; try by eexists.
      destruct (app_display_sources_run (doc :: rest) s2) as [evs ->].
      by eexists. }
    match goal with |- context [match sources reply with _ => _ end ?s2] =>
      destruct (Hshow (sources reply) s2) as (s3 & Hd & Hs3)
    end.
    rewrite Hd. exists s3, reply. split; [done|]. split; [|done].
    rewrite Hs3. simpl. rewrite Hs. simpl. by rewrite <- app_assoc.
  - unfold bind at 1. rewrite Hm.
    unfold bind, sm_append, modify_session, emit. simpl.
    eexists _, App.error_message. split; [done|]. split; [|done].
    simpl. rewrite Hs. simpl. by rewrite <- app_assoc.
Qed.

(** C10. Handling one non-empty chat prompt completes and appends exactly
    two entries to the [messages] collection: the user entry with the
    prompt, then one entry of role assistant.  This holds for the chat
    component and for the single-file front end, whatever the components
    are: no RAG chain, a chain that raises, a chain that returns nothing or
    a response that is invalid or has no result. *)
Theorem chat_prompt_appends_two_messages (env : Collaborators)
    (prompt : string) (app_components : AppComponents) (s : Sys) :
  prompt ≠ "" →
  (∃ s' reply,
     Chat.handle_chat_input env (Some prompt) app_components s = (Ok tt, s')
     ∧ messages (session s')
       = messages (session s)
         ++ [ {| role := "user"; content := prompt; sources := None |};
              reply ]
     ∧ role reply = "assistant")
  ∧ (∃ s' reply,
       App.create_chat_tab (Some prompt) app_components s = (Ok tt, s')
       ∧ messages (session s')
         = messages (session s)
           ++ [ {| role := "user"; content := prompt; sources := None |};
                reply ]
       ∧ role reply = "assistant").
Proof.
  intros Hne. split.
  - by apply chat_component_two_entries.
  - by apply app_chat_two_entries.
Qed.

Lemma chat_prompt_appends_two_messages_witness :
  (∃ s' reply,
     Chat.handle_chat_input Sample.env (Some "What is an IEP?")
       (mkAppComponents None None None None None) initial_sys = (Ok tt, s')
     ∧ messages (session s')
       = messages (session initial_sys)
         ++ [ {| role := "user"; content := "What is an IEP?";
                 sources := None |}; reply ]
     ∧ role reply = "assistant")
  ∧ (∃ s' reply,
       App.create_chat_tab (Some "What is an IEP?")
         (mkAppComponents None None None None None) initial_sys = (Ok tt, s')
       ∧ messages (session s')
         = messages (session initial_sys)
           ++ [ {| role := "user"; content := "What is an IEP?";
                   sources := None |}; reply ]
       ∧ role reply = "assistant").
Proof.
  apply (chat_prompt_appends_two_messages Sample.env "What is an IEP?").
  discriminate.
Defined.

(** ** Ingestion: one file *)

Lemma count_where_cons {A} (p : A → bool) (x : A) (l : list A) :
  count_where p (x :: l) = b2n (p x) + count_where p l.
Proof. unfold count_where. simpl. by destruct (p x). Qed.

Lemma count_where_app {A} (p : A → bool) (l1 l2 : list A) :
  count_where p (l1 ++ l2) = count_where p l1 + count_where p l2.
Proof. unfold count_where. by rewrite List.filter_app, length_app. Qed.

Lemma count_where_all {A} (p : A → bool) (l : list A) :
  Forall (λ x, p x = true) l → count_where p l = length l.
Proof.
  induction 1 as [|x l Hx _ IH]; [done|].
  rewrite count_where_cons, Hx, IH. done.
Qed.

Lemma count_where_none {A} (p : A → bool) (l : list A) :
  Forall (λ x, p x = false) l → count_where p l = 0.
Proof.
  induction 1 as [|x l Hx _ IH]; [done|].
  rewrite count_where_cons, Hx, IH. done.
Qed.

(** The loop body of the sidebar component, by what the collaborators make
    of the file. *)
Lemma sidebar_process_file_run (env : Collaborators) (vs : VectorStore)
    (file : UploadedFile) (acc : bool * nat) (s : Sys) :
  Sidebar.process_file env vs file acc s =
  let start := StatusInfo ("Processing " +:+ name file +:+ "...") in
  match outcome env file with
  | Extracted d =>
      let d' := Sidebar.stamp env file (clock s)
                  (length (documents (session s))) d in
      if embeds vs (page_content d) then
        (Ok (fst acc, S (snd acc)),
         {| session := kset K_documents (documents (session s) ++ [d'])
                         (session s);
            index := index s ++ [d'];
            trace := trace s
                     ++ [ start;
                          StatusSuccess ("Successfully processed "
                                         +:+ name file) ];
            clock := S (clock s); entropy := entropy s |})
      else
        (Ok (false, snd acc),
         {| session := kset K_documents (documents (session s) ++ [d'])
                         (session s);
            index := index s;
            trace := trace s
                     ++ [ start;
                          StatusError ("Error adding " +:+ name file
                                       +:+ " to vector store") ];
            clock := S (clock s); entropy := entropy s |})
  | ExtractionFailed error_message =>
      (Ok (false, snd acc),
       with_events [ start;
                     StatusError ("Error processing " +:+ name file +:+ ": "
                                  +:+ error_message) ] s)
  | HandlerRaised e | LoaderRaised e =>
      (Ok (false, snd acc), with_events (start :: raised_events file e) s)
  end.
Proof.
  unfold Sidebar.process_file, outcome, try_except, bind, emit, lift_res,
    with_events, raised_events.
  simpl.
  destruct (process_uploaded_file env file) as [temp_path|e]; simpl.
  - destruct (load_single_document env temp_path) as [[d|msg]|e]; simpl.
    + unfold add_documents, bind, get_index, set_index, ret. simpl.
      rewrite andb_true_r.
      destruct (embeds vs (page_content d)); simpl;
        by rewrite <- app_assoc.
    + by rewrite <- app_assoc.
    + destruct e; simpl; by rewrite <- !app_assoc.
  - destruct e; simpl; by rewrite <- !app_assoc.
Qed.

Lemma sidebar_process_file_summary (env : Collaborators) (vs : VectorStore)
    (file : UploadedFile) (acc : bool * nat) (s : Sys) :
  ∃ s' evs,
    Sidebar.process_file env vs file acc s
    = (Ok (fst acc && succeeds env vs file,
           snd acc + b2n (succeeds env vs file)), s')
    ∧ trace s' = trace s ++ evs
    ∧ files_started evs = 1
    ∧ file_errors evs = b2n (negb (succeeds env vs file))
    ∧ cleanups evs = 0
    ∧ length (documents (session s'))
      = length (documents (session s)) + b2n (extracted env file).
Proof.
  rewrite sidebar_process_file_run. unfold succeeds, extracted.
  destruct acc as [ok n]. cbv zeta.
  destruct (outcome env file) as [e|e|msg|d]; simpl.
  - rewrite andb_false_r, Nat.add_0_r.
    eexists _, _. split; [reflexivity|]. split; [reflexivity|].
    rewrite Nat.add_0_r. by destruct e.
  - rewrite andb_false_r, Nat.add_0_r.
    eexists _, _. split; [reflexivity|]. split; [reflexivity|].
    rewrite Nat.add_0_r. by destruct e.
  - rewrite andb_false_r, Nat.add_0_r.
    eexists _, _. split; [reflexivity|]. split; [reflexivity|].
    by rewrite Nat.add_0_r.
  - destruct (embeds vs (page_content d)); simpl.
    + rewrite andb_true_r, Nat.add_1_r.
      eexists _, _. split; [reflexivity|]. split; [reflexivity|].
      simpl. by rewrite length_app.
    + rewrite andb_false_r, Nat.add_0_r.
      eexists _, _. split; [reflexivity|]. split; [reflexivity|].
      simpl. by rewrite length_app.
Qed.

(** ** Ingestion: the whole batch *)

(** The loop of the sidebar component over any batch: it never raises,
    takes up every file, reports one error per file that does not succeed,
    registers every extracted document and counts the succeeding files. *)
Lemma sidebar_process_files_summary (env : Collaborators) (vs : VectorStore)
    (files : list UploadedFile) (acc : bool * nat) (s : Sys) :
  ∃ s' evs,
    Sidebar.process_files env vs files acc s
    = (Ok (fst acc && forallb (succeeds env vs) files,
           snd acc + count_where (succeeds env vs) files), s')
    ∧ trace s' = trace s ++ evs
    ∧ files_started evs = length files
    ∧ file_errors evs = count_where (λ f, negb (succeeds env vs f)) files
    ∧ cleanups evs = 0
    ∧ length (documents (session s'))
      = length (documents (session s)) + count_where (extracted env) files.
Proof.
  revert acc s. induction files as [|file rest IH]; intros acc s.
  - exists s, []. simpl. unfold ret.
    rewrite andb_true_r, app_nil_r, !Nat.add_0_r. by destruct acc.
  - simpl. unfold bind.
    destruct (sidebar_process_file_summary env vs file acc s)
      as (s1 & evs1 & -> & Ht1 & Hs1 & He1 & Hc1 & Hd1).
    destruct (IH (fst acc && succeeds env vs file,
                  snd acc + b2n (succeeds env vs file)) s1)
      as (s2 & evs2 & -> & Ht2 & Hs2 & He2 & Hc2 & Hd2).
    exists s2, (evs1 ++ evs2). simpl.
    rewrite !count_where_cons, andb_assoc, Nat.add_assoc.
    split; [done|]. split; [by rewrite Ht2, Ht1, app_assoc|].
    unfold files_started, file_errors, cleanups in *.
    rewrite !count_where_app.
    rewrite Hs1, Hs2, He1, He2, Hc1, Hc2, Hd2, Hd1.
    repeat split; lia.
Qed.

(** The loop body of the single-file front end: an extracted document is
    registered and reported as processed whether or not the index took
    it. *)
Lemma app_process_file_run (env : Collaborators) (vs : VectorStore)
    (file : UploadedFile) (processing_success : bool) (s : Sys) :
  App.process_file env vs file processing_success s =
  let start := StatusInfo ("Processing " +:+ name file +:+ "...") in
  match outcome env file with
  | Extracted d =>
      let d' := App.stamp env file (clock s) d in
      (Ok processing_success,
       {| session := kset K_documents (documents (session s) ++ [d'])
                       (session s);
          index := if embeds vs (page_content d) then index s ++ [d']
                   else index s;
          trace := trace s
                   ++ [ start;
                        StatusSuccess ("Successfully processed "
                                       +:+ name file) ];
          clock := S (clock s); entropy := entropy s |})
  | ExtractionFailed error_message =>
      (Ok false,
       with_events [ start;
                     StatusError ("Error processing " +:+ name file +:+ ": "
                                  +:+ error_message) ] s)
  | HandlerRaised e | LoaderRaised e =>
      (Ok false, with_events (start :: raised_events file e) s)
  end.
Proof.
  unfold App.process_file, outcome, try_except, bind, emit, lift_res,
    with_events, raised_events.
  simpl.
  destruct (process_uploaded_file env file) as [temp_path|e]; simpl.
  - destruct (load_single_document env temp_path) as [[d|msg]|e]; simpl.
    + unfold add_documents, bind, get_index, set_index, ret. simpl.
      rewrite andb_true_r.
      destruct (embeds vs (page_content d)); simpl;
        by rewrite <- app_assoc.
    + by rewrite <- app_assoc.
    + destruct e; simpl; by rewrite <- !app_assoc.
  - destruct e; simpl; by rewrite <- !app_assoc.
Qed.

Lemma app_process_file_summary (env : Collaborators) (vs : VectorStore)
    (file : UploadedFile) (ok : bool) (s : Sys) :
  ∃ s' evs,
    App.process_file env vs file ok s = (Ok (ok && extracted env file), s')
    ∧ trace s' = trace s ++ evs
    ∧ files_started evs = 1
    ∧ file_errors evs = b2n (negb (extracted env file))
    ∧ cleanups evs = 0
    ∧ length (documents (session s'))
      = length (documents (session s)) + b2n (extracted env file).
Proof.
  rewrite app_process_file_run. unfold extracted. cbv zeta.
  destruct (outcome env file) as [e|e|msg|d]; simpl.
  - rewrite andb_false_r.
    eexists _, _. split; [reflexivity|]. split; [reflexivity|].
    rewrite Nat.add_0_r. by destruct e.
  - rewrite andb_false_r.
    eexists _, _. split; [reflexivity|]. split; [reflexivity|].
    rewrite Nat.add_0_r. by destruct e.
  - rewrite andb_false_r.
    eexists _, _. split; [reflexivity|]. split; [reflexivity|].
    by rewrite Nat.add_0_r.
  - rewrite andb_true_r.
    eexists _, _. split; [reflexivity|]. split; [reflexivity|].
    simpl. by rewrite length_app.
Qed.

Lemma app_process_files_summary (env : Collaborators) (vs : VectorStore)
    (files : list UploadedFile) (ok : bool) (s : Sys) :
  ∃ s' evs,
    App.process_files env vs files ok s
    = (Ok (ok && forallb (extracted env) files), s')
    ∧ trace s' = trace s ++ evs
    ∧ files_started evs = length files
    ∧ file_errors evs = count_where (λ f, negb (extracted env f)) files
    ∧ cleanups evs = 0
    ∧ length (documents (session s'))
      = length (documents (session s)) + count_where (extracted env) files.
Proof.
  revert ok s. induction files as [|file rest IH]; intros ok s.
  - exists s, []. simpl. unfold ret.
    by rewrite andb_true_r, app_nil_r, !Nat.add_0_r.
  - simpl. unfold bind.
    destruct (app_process_file_summary env vs file ok s)
      as (s1 & evs1 & -> & Ht1 & Hs1 & He1 & Hc1 & Hd1).
    destruct (IH (ok && extracted env file) s1)
      as (s2 & evs2 & -> & Ht2 & Hs2 & He2 & Hc2 & Hd2).
    exists s2, (evs1 ++ evs2). simpl.
    rewrite !count_where_cons, andb_assoc.
    split; [done|]. split; [by rewrite Ht2, Ht1, app_assoc|].
    unfold files_started, file_errors, cleanups in *.
    rewrite !count_where_app.
    rewrite Hs1, Hs2, He1, He2, Hc1, Hc2, Hd2, Hd1.
    repeat split; lia.
Qed.

Lemma sidebar_batch_then_cleanup (env : Collaborators)
    (files : list UploadedFile) (app_components : AppComponents)
    (vs : VectorStore) (s : Sys) :
  vector_store app_components = Some vs →
  ∃ s' evs,
    Sidebar.process_uploaded_files env files app_components s = (Ok tt, s')
    ∧ trace s' = trace s ++ evs ++ [TempCleanup]
    ∧ cleanups evs = 0
    ∧ files_started evs = length files
    ∧ file_errors evs = count_where (λ f, negb (succeeds env vs f)) files
    ∧ length (documents (session s'))
      = length (documents (session s)) + count_where (extracted env) files.
Proof.
  intros Hvs. unfold Sidebar.process_uploaded_files. rewrite Hvs.
  unfold bind at 1. unfold emit at 1.
  unfold bind at 1.
  match goal with |- context [Sidebar.process_files env vs files ?a ?s0] =>
    destruct (sidebar_process_files_summary env vs files a s0)
      as (s1 & evs1 & -> & Ht & Hs & He & Hc & Hd)
  end.
  simpl in Ht, Hd. simpl fst. simpl snd.
  destruct (forallb (succeeds env vs) files);
    destruct (0 <? count_where (succeeds env vs) files)%nat; simpl;
    unfold bind, emit, sm_set, update_system_state, modify_session; simpl;
    (eexists _, (StWrite "### Processing Files" :: evs1 ++ [_]);
     split; [reflexivity|];
     split; [simpl; by rewrite Ht, <- !app_assoc|];
     unfold cleanups, files_started, file_errors in *;
     rewrite !count_where_cons, !count_where_app, !count_where_cons,
       Hc, Hs, He;
     simpl; rewrite Hd; unfold count_where; simpl; repeat split; lia).
Qed.

Lemma app_batch_then_cleanup (env : Collaborators)
    (files : list UploadedFile) (app_components : AppComponents)
    (vs : VectorStore) (s : Sys) :
  vector_store app_components = Some vs →
  ∃ s' evs,
    App.process_uploaded_files env files app_components s = (Ok tt, s')
    ∧ trace s' = trace s ++ evs ++ [TempCleanup]
    ∧ cleanups evs = 0
    ∧ if documents_processed (session s)
      then evs = [] ∧ session s' = session s
      else files_started evs = length files
           ∧ file_errors evs
             = count_where (λ f, negb (extracted env f)) files
           ∧ length (documents (session s'))
             = length (documents (session s))
               + count_where (extracted env) files.
Proof.
  intros Hvs. unfold App.process_uploaded_files. rewrite Hvs.
  unfold bind at 1. unfold sm_get at 1. simpl.
  destruct (documents_processed (session s)) eqn:Hp.
  - unfold bind, ret, emit. simpl. exists (with_events [TempCleanup] s), [].
    repeat split; done.
  - unfold bind at 1. unfold bind at 1. unfold emit at 1.
    unfold bind at 1.
    match goal with |- context [App.process_files env vs files ?a ?s0] =>
      destruct (app_process_files_summary env vs files a s0)
        as (s1 & evs1 & -> & Ht & Hs & He & Hc & Hd)
    end.
    simpl in Ht, Hd. simpl andb.
    destruct (forallb (extracted env) files); simpl;
      unfold bind, emit, sm_set, update_system_state, modify_session; simpl;
      (eexists _, (StWrite "### Processing Files" :: evs1 ++ [_]);
       split; [reflexivity|];
       split; [simpl; by rewrite Ht, <- !app_assoc|];
       unfold cleanups, files_started, file_errors in *;
       rewrite !count_where_cons, !count_where_app, !count_where_cons,
         Hc, Hs, He;
       simpl; rewrite Hd; unfold count_where; simpl; repeat split; lia).
Qed.

(** C8. Every call of the ingestion handler completes, and whenever it gets
    as far as creating a file handler (a vector store is installed) the
    last thing it does is the one call of [cleanup()], after every file of
    the batch has been taken up, whatever the collaborators made of each
    file.  The only other exit is taken before any file handler exists:
    without a vector store the handler reports that and changes nothing.
    In the single-file front end a batch that is skipped because documents
    were already processed is followed by the cleanup as well. *)
Theorem cleanup_after_every_batch (env : Collaborators)
    (files : list UploadedFile) (app_components : AppComponents) (s : Sys) :
  (∃ s' evs,
     Sidebar.process_uploaded_files env files app_components s = (Ok tt, s')
     ∧ trace s' = trace s ++ evs
     ∧ match vector_store app_components with
       | Some _ =>
           ∃ batch, evs = batch ++ [TempCleanup]
                    ∧ cleanups batch = 0
                    ∧ files_started batch = length files
       | None =>
           evs = [StError
                    "Vector store not initialized. Cannot process documents."]
           ∧ session s' = session s
       end)
  ∧ (∃ s' evs,
       App.process_uploaded_files env files app_components s = (Ok tt, s')
       ∧ trace s' = trace s ++ evs
       ∧ match vector_store app_components with
         | Some _ =>
             ∃ batch, evs = batch ++ [TempCleanup]
                      ∧ cleanups batch = 0
                      ∧ files_started batch
                        = if documents_processed (session s) then 0
                          else length files
         | None =>
             evs = [StError
                      "Vector store not initialized. Cannot process documents."]
             ∧ session s' = session s
         end).
Proof.
  split.
  - destruct (vector_store app_components) as [vs|] eqn:Hvs.
    + destruct (sidebar_batch_then_cleanup env files app_components vs s Hvs)
        as (s' & batch & Hrun & Ht & Hc & Hs & _).
      exists s', (batch ++ [TempCleanup]). repeat split; [done..|].
      by exists batch.
    + unfold Sidebar.process_uploaded_files. rewrite Hvs.
      by eexists _, _.
  - destruct (vector_store app_components) as [vs|] eqn:Hvs.
    + destruct (app_batch_then_cleanup env files app_components vs s Hvs)
        as (s' & batch & Hrun & Ht & Hc & Hrest).
      exists s', (batch ++ [TempCleanup]). repeat split; [done..|].
      exists batch. repeat split; [done|].
      destruct (documents_processed (session s)).
      * by destruct Hrest as [-> _].
      * by destruct Hrest as [-> _].
    + unfold App.process_uploaded_files. rewrite Hvs.
      by eexists _, _.
Qed.

(** ** Partial batch failure *)

Lemma fails_extraction_not_extracted (env : Collaborators)
    (vs : VectorStore) (file : UploadedFile) :
  fails_extraction env file = true →
  extracted env file = false ∧ succeeds env vs file = false.
Proof.
  unfold fails_extraction, extracted, succeeds.
  by destruct (outcome env file).
Qed.

Lemma succeeds_extracted (env : Collaborators) (vs : VectorStore)
    (file : UploadedFile) :
  succeeds env vs file = true → extracted env file = true.
Proof. unfold extracted, succeeds. by destruct (outcome env file). Qed.

(** Counts over a batch with one failing file among succeeding ones. *)
Lemma count_one_bad {A} (good : A → bool) (before after : list A) (bad : A) :
  Forall (λ x, good x = true) before →
  Forall (λ x, good x = true) after →
  good bad = false →
  count_where good (before ++ bad :: after) = length before + length after
  ∧ count_where (λ x, negb (good x)) (before ++ bad :: after) = 1.
Proof.
  intros Hb Ha Hbad.
  rewrite !count_where_app, !count_where_cons, Hbad.
  rewrite (count_where_all good before Hb), (count_where_all good after Ha).
  rewrite (count_where_none (λ x, negb (good x)) before),
    (count_where_none (λ x, negb (good x)) after).
  - simpl. lia.
  - eapply Forall_impl; [exact Ha|]. by intros x ->.
  - eapply Forall_impl; [exact Hb|]. by intros x ->.
Qed.

(** C2. In a batch of N files of which exactly one fails extraction
    ([load_single_document] answers [success=False]) while the others
    succeed, the handler takes up all N files, reports exactly one per-file
    error, and the [documents] collection grows by exactly N-1.  In the
    sidebar component a file succeeds when it is extracted and indexed; in
    the single-file front end, whose loop runs only while documents are not
    yet marked processed, when it is extracted. *)
Theorem one_failed_file_of_batch (env : Collaborators) (vs : VectorStore)
    (app_components : AppComponents) (before after : list UploadedFile)
    (bad : UploadedFile) (s : Sys) :
  vector_store app_components = Some vs →
  fails_extraction env bad = true →
  (Forall (λ f, succeeds env vs f = true) before →
   Forall (λ f, succeeds env vs f = true) after →
   ∃ s' evs,
     Sidebar.process_uploaded_files env (before ++ bad :: after)
       app_components s = (Ok tt, s')
     ∧ trace s' = trace s ++ evs
     ∧ files_started evs = length (before ++ bad :: after)
     ∧ file_errors evs = 1
     ∧ length (documents (session s'))
       = length (documents (session s))
         + (length (before ++ bad :: after) - 1))
  ∧ (documents_processed (session s) = false →
     Forall (λ f, extracted env f = true) before →
     Forall (λ f, extracted env f = true) after →
     ∃ s' evs,
       App.process_uploaded_files env (before ++ bad :: after)
         app_components s = (Ok tt, s')
       ∧ trace s' = trace s ++ evs
       ∧ files_started evs = length (before ++ bad :: after)
       ∧ file_errors evs = 1
       ∧ length (documents (session s'))
         = length (documents (session s))
           + (length (before ++ bad :: after) - 1)).
Proof.
  intros Hvs Hbad.
  destruct (fails_extraction_not_extracted env vs bad Hbad) as [Hne Hns].
  split.
  - intros Hb Ha.
    destruct (sidebar_batch_then_cleanup env (before ++ bad :: after)
                app_components vs s Hvs)
      as (s' & batch & Hrun & Ht & Hc & Hs & He & Hd).
    destruct (count_one_bad (succeeds env vs) before after bad Hb Ha Hns)
      as [_ Hone].
    destruct (count_one_bad (extracted env) before after bad) as [Hext _];
      [eapply Forall_impl; [exact Hb|]; apply succeeds_extracted
      |eapply Forall_impl; [exact Ha|]; apply succeeds_extracted
      |done|].
    exists s', (batch ++ [TempCleanup]).
    unfold files_started, file_errors in *.
    rewrite !count_where_app, Hs, He, Hone, Hd, Hext.
    rewrite length_app. simpl. unfold count_where. simpl.
    repeat split; [done|done|lia..].
  - intros Hp Hb Ha.
    destruct (app_batch_then_cleanup env (before ++ bad :: after)
                app_components vs s Hvs)
      as (s' & batch & Hrun & Ht & Hc & Hrest).
    rewrite Hp in Hrest. destruct Hrest as (Hs & He & Hd).
    destruct (count_one_bad (extracted env) before after bad Hb Ha Hne)
      as [Hext Hone].
    exists s', (batch ++ [TempCleanup]).
    unfold files_started, file_errors in *.
    rewrite !count_where_app, Hs, He, Hone, Hd, Hext.
    rewrite length_app. simpl. unfold count_where. simpl.
    repeat split; [done|done|lia..].
Qed.

Lemma one_failed_file_of_batch_witness :
  (∃ s' evs,
     Sidebar.process_uploaded_files Sample.env
       [Sample.notes; Sample.broken; Sample.report]
       (Sample.app Sample.indexing Sample.llm) initial_sys = (Ok tt, s')
     ∧ trace s' = trace initial_sys ++ evs
     ∧ files_started evs = 3
     ∧ file_errors evs = 1
     ∧ length (documents (session s')) = 2)
  ∧ (∃ s' evs,
       App.process_uploaded_files Sample.env
         [Sample.notes; Sample.broken; Sample.report]
         (Sample.app Sample.indexing Sample.llm) initial_sys = (Ok tt, s')
       ∧ trace s' = trace initial_sys ++ evs
       ∧ files_started evs = 3
       ∧ file_errors evs = 1
       ∧ length (documents (session s')) = 2).
Proof.
  destruct (one_failed_file_of_batch Sample.env Sample.indexing
              (Sample.app Sample.indexing Sample.llm)
              [Sample.notes] [Sample.report] Sample.broken initial_sys
              eq_refl eq_refl) as [Hsidebar Happ].
  split.
  - apply Hsidebar; repeat constructor.
  - apply Happ; repeat constructor.
Defined.

(** ** Failed index insertion *)

Lemma sample_insertion_failed :
  documents (session (Sidebar.process_uploaded_files Sample.env [Sample.notes]
                        (Sample.only_store Sample.failing) initial_sys).2)
  = [Sample.registered_notes]
  ∧ index (Sidebar.process_uploaded_files Sample.env [Sample.notes]
             (Sample.only_store Sample.failing) initial_sys).2 = [].
Proof. split; vm_compute; reflexivity. Qed.

Lemma sample_insertion_succeeded :
  documents (session (Sidebar.process_uploaded_files Sample.env [Sample.notes]
                        (Sample.only_store Sample.indexing) initial_sys).2)
  = [Sample.registered_notes]
  ∧ index (Sidebar.process_uploaded_files Sample.env [Sample.notes]
             (Sample.only_store Sample.indexing) initial_sys).2
    = [Sample.registered_notes].
Proof. split; vm_compute; reflexivity. Qed.

(** C3, as stated, fails.  Uploading [notes.txt] to a store whose embedding
    fails leaves the document in the registry and out of the index, stored
    exactly as after a successful insertion, so that no flag on registered
    documents can tell the unindexed ones from the indexed ones. *)
Lemma failed_insertion_left_inconsistent :
  Sample.registered_notes
    ∈ documents (session (Sidebar.process_uploaded_files Sample.env
                            [Sample.notes]
                            (Sample.only_store Sample.failing)
                            initial_sys).2)
  ∧ ¬ (Sample.registered_notes
         ∈ index (Sidebar.process_uploaded_files Sample.env [Sample.notes]
                    (Sample.only_store Sample.failing) initial_sys).2)
  ∧ ¬ insertion_policy Sample.env.
Proof.
  destruct sample_insertion_failed as [Hfd Hfi].
  destruct sample_insertion_succeeded as [Hsd Hsi].
  split; [rewrite Hfd; by left|].
  split; [rewrite Hfi; apply not_elem_of_nil|].
  intros [flagged Hpolicy].
  pose proof (Hpolicy Sample.failing [Sample.notes] Sample.registered_notes)
    as Hf.
  pose proof (Hpolicy Sample.indexing [Sample.notes] Sample.registered_notes)
    as Hs.
  cbv zeta in Hf, Hs.
  change (mkAppComponents (Some Sample.failing) None None None None)
    with (Sample.only_store Sample.failing) in Hf.
  change (mkAppComponents (Some Sample.indexing) None None None None)
    with (Sample.only_store Sample.indexing) in Hs.
  rewrite Hfd, Hfi in Hf. rewrite Hsd, Hsi in Hs.
  destruct Hf as [[Hin _]|[_ Hflag]]; [by left| |].
  - by apply elem_of_nil in Hin.
  - destruct Hs as [[_ Hclear]|[Hout _]]; [by left| |].
    + congruence.
    + apply Hout. by left.
Qed.

(** C3, amended.  In the sidebar component a document that is extracted
    but whose index insertion fails stays registered: it is appended to the
    [documents] collection exactly as it would be had the insertion
    succeeded (with source, upload time and positional id, and nothing
    marking it unindexed), the index keeps its prior entries, the per-file
    error "Error adding <name> to vector store" is reported, and the file
    makes [processing_success] false without being counted as processed. *)
Theorem failed_insertion_keeps_document (env : Collaborators)
    (vs : VectorStore) (file : UploadedFile) (acc : bool * nat) (s : Sys)
    (d : Document) :
  outcome env file = Extracted d →
  embeds vs (page_content d) = false →
  ∃ s',
    Sidebar.process_file env vs file acc s = (Ok (false, snd acc), s')
    ∧ documents (session s')
      = documents (session s)
        ++ [Sidebar.stamp env file (clock s)
              (length (documents (session s))) d]
    ∧ index s' = index s
    ∧ trace s'
      = trace s
        ++ [ StatusInfo ("Processing " +:+ name file +:+ "...");
             StatusError ("Error adding " +:+ name file
                          +:+ " to vector store") ]
    ∧ ∀ vs', embeds vs' (page_content d) = true →
        documents (session (Sidebar.process_file env vs' file acc s).2)
        = documents (session s').
Proof.
  intros Hout Hemb. rewrite sidebar_process_file_run, Hout. cbv zeta.
  rewrite Hemb. eexists. split; [reflexivity|]. simpl.
  repeat split. intros vs' Hemb'.
  rewrite sidebar_process_file_run, Hout. cbv zeta. by rewrite Hemb'.
Qed.

Lemma failed_insertion_keeps_document_witness :
  ∃ s',
    Sidebar.process_file Sample.env Sample.failing Sample.notes (true, 0)
      initial_sys = (Ok (false, 0), s')
    ∧ documents (session s')
      = documents (session initial_sys)
        ++ [Sidebar.stamp Sample.env Sample.notes (clock initial_sys)
              (length (documents (session initial_sys)))
              {| page_content := "text of /tmp/notes.txt"; metadata := ∅ |}]
    ∧ index s' = index initial_sys
    ∧ trace s'
      = trace initial_sys
        ++ [ StatusInfo ("Processing " +:+ name Sample.notes +:+ "...");
             StatusError ("Error adding " +:+ name Sample.notes
                          +:+ " to vector store") ]
    ∧ ∀ vs', embeds vs' "text of /tmp/notes.txt" = true →
        documents (session (Sidebar.process_file Sample.env vs' Sample.notes
                              (true, 0) initial_sys).2)
        = documents (session s').
Proof.
  apply (failed_insertion_keeps_document Sample.env Sample.failing
           Sample.notes (true, 0) initial_sys
           {| page_content := "text of /tmp/notes.txt"; metadata := ∅ |});
    reflexivity.
Defined.

(** ** Document identifiers *)

Lemma numbered_nil : numbered [].
Proof. intros i d H. by rewrite lookup_nil in H. Qed.

Lemma numbered_stamp (env : Collaborators) (file : UploadedFile) (t : nat)
    (d : Document) (docs : list Document) :
  numbered docs →
  numbered (docs ++ [Sidebar.stamp env file t (length docs) d]).
Proof.
  intros Hn i x Hi.
  destruct (decide (i < length docs)) as [Hlt|Hge].
  - rewrite lookup_app_l in Hi by done. by apply Hn.
  - rewrite lookup_app_r in Hi by lia.
    destruct (i - length docs) as [|k] eqn:Hk; simpl in Hi; [|done].
    injection Hi as <-. unfold doc_id, Sidebar.stamp. simpl.
    rewrite lookup_insert_eq. do 3 f_equal. lia.
Qed.

Lemma numbered_ids_distinct (docs : list Document) :
  numbered docs → NoDup (doc_id <$> docs).
Proof.
  intros Hn. apply NoDup_alt. intros i j x Hi Hj.
  rewrite list_lookup_fmap in Hi, Hj.
  destruct (docs !! i) as [di|] eqn:Hdi; [|done].
  destruct (docs !! j) as [dj|] eqn:Hdj; [|done].
  simpl in Hi, Hj. apply Hn in Hdi. apply Hn in Hdj. unfold doc_id in *.
  rewrite Hdi in Hi. rewrite Hdj in Hj. rewrite <- Hj in Hi.
  simpl in Hi. injection Hi as Hi. change (pretty i = pretty j) in Hi.
  by apply (inj pretty) in Hi.
Qed.

Lemma sidebar_process_file_numbered (env : Collaborators) (vs : VectorStore)
    (file : UploadedFile) (acc : bool * nat) (s : Sys) :
  ∃ acc' s',
    Sidebar.process_file env vs file acc s = (Ok acc', s')
    ∧ (numbered (documents (session s)) →
       numbered (documents (session s'))).
Proof.
  rewrite sidebar_process_file_run. cbv zeta.
  destruct (outcome env file) as [e|e|msg|d];
    [by eexists _, _..|].
  destruct (embeds vs (page_content d));
    (eexists _, _; split; [reflexivity|]; simpl; apply numbered_stamp).
Qed.

Lemma sidebar_process_files_numbered (env : Collaborators) (vs : VectorStore)
    (files : list UploadedFile) (acc : bool * nat) (s : Sys) :
  ∃ acc' s',
    Sidebar.process_files env vs files acc s = (Ok acc', s')
    ∧ (numbered (documents (session s)) →
       numbered (documents (session s'))).
Proof.
  revert acc s. induction files as [|file rest IH]; intros acc s.
  - by eexists _, _.
  - simpl. unfold bind.
    destruct (sidebar_process_file_numbered env vs file acc s)
      as (acc1 & s1 & -> & H1).
    destruct (IH acc1 s1) as (acc2 & s2 & -> & H2).
    eexists _, _. split; [reflexivity|]. auto.
Qed.

Lemma sidebar_upload_numbered (env : Collaborators)
    (files : list UploadedFile) (app_components : AppComponents) (s : Sys) :
  ∃ s',
    Sidebar.process_uploaded_files env files app_components s = (Ok tt, s')
    ∧ (numbered (documents (session s)) →
       numbered (documents (session s'))).
Proof.
  unfold Sidebar.process_uploaded_files.
  destruct (vector_store app_components) as [vs|];
    [|eexists; split; [reflexivity|done]].
  unfold bind at 1. unfold emit at 1. unfold bind at 1.
  match goal with |- context [Sidebar.process_files env vs files ?a ?s0] =>
    destruct (sidebar_process_files_numbered env vs files a s0)
      as (acc' & s1 & -> & Hn)
  end.
  simpl in Hn.
  destruct (fst acc' && (0 <? snd acc')%nat); [|destruct (0 <? snd acc')%nat];
    unfold bind, emit, sm_set, update_system_state, modify_session; simpl;
    (eexists; split; [reflexivity|done]).
Qed.

Lemma sidebar_clear_documents_empties (app_components : AppComponents)
    (s : Sys) :
  ∃ s', Sidebar.clear_documents app_components s = (Ok tt, s')
        ∧ documents (session s') = [].
Proof.
  unfold Sidebar.clear_documents.
  destruct (vector_store app_components); by eexists.
Qed.

(** C9, as stated, fails.  In one session [notes.txt] is uploaded, the
    documents are cleared, and [report.md] is uploaded: both documents were
    registered under the id [doc_0], although they are different
    documents. *)
Lemma document_id_reused_after_clear :
  ¬ ids_unique_in_session Sample.env (Sample.only_store Sample.indexing).
Proof.
  intros Huniq.
  pose proof (Huniq [ Upload [Sample.notes]; ClearDocuments;
                      Upload [Sample.report] ] 1 3
                Sample.registered_notes
                {| page_content := "text of /tmp/report.md";
                   metadata := {[ "source" := "report.md";
                                  "upload_time" := "2024-01-01T00:00:1";
                                  "id" := "doc_0" ]} |}) as H.
  assert (Sample.registered_notes
          = {| page_content := "text of /tmp/report.md";
               metadata := {[ "source" := "report.md";
                              "upload_time" := "2024-01-01T00:00:1";
                              "id" := "doc_0" ]} |}) as Heq; [|discriminate].
  apply H.
  - assert (registry_after Sample.env (Sample.only_store Sample.indexing)
              (take 1 [ Upload [Sample.notes]; ClearDocuments;
                        Upload [Sample.report] ])
            = [Sample.registered_notes]) as ->
      by (vm_compute; reflexivity).
    by left.
  - match goal with |- ?d ∈ _ =>
      assert (registry_after Sample.env (Sample.only_store Sample.indexing)
                (take 3 [ Upload [Sample.notes]; ClearDocuments;
                          Upload [Sample.report] ])
              = [d]) as ->
        by (vm_compute; reflexivity)
    end.
    by left.
  - vm_compute. reflexivity.
Qed.

(** C9, amended.  The sidebar gives every document it registers the id
    [doc_<n>], where n is the length of the registry at that moment.
    Through any sequence of uploads and clear-documents actions, started
    from a registry in which every document carries the id of its position
    (the empty one, in a new session), every action completes, every
    registered document still carries the id of its position, and the ids
    of the documents in the registry are pairwise distinct; clearing the
    registry restarts the numbering. *)
Theorem document_ids_follow_position (env : Collaborators)
    (app_components : AppComponents) (history : list Action) (s : Sys) :
  numbered (documents (session s)) →
  ∃ s',
    run_session env app_components history s = (Ok tt, s')
    ∧ numbered (documents (session s'))
    ∧ NoDup (doc_id <$> documents (session s')).
Proof.
  revert s. induction history as [|a rest IH]; intros s Hn.
  - exists s. split; [done|]. split; [done|].
    by apply numbered_ids_distinct.
  - simpl. unfold bind.
    assert (∃ s1, act env app_components a s = (Ok tt, s1)
                  ∧ numbered (documents (session s1))) as (s1 & -> & Hn1).
    { destruct a as [files|]; simpl.
      - destruct (sidebar_upload_numbered env files app_components s)
          as (s1 & Hrun & H1).
        exists s1. auto.
      - destruct (sidebar_clear_documents_empties app_components s)
          as (s1 & Hrun & Hdocs).
        exists s1. split; [done|]. rewrite Hdocs. apply numbered_nil. }
    by apply IH.
Qed.

Lemma document_ids_follow_position_witness :
  ∃ s',
    run_session Sample.env (Sample.only_store Sample.indexing)
      [ Upload [Sample.notes; Sample.broken]; ClearDocuments;
        Upload [Sample.report; Sample.notes] ] initial_sys = (Ok tt, s')
    ∧ numbered (documents (session s'))
    ∧ NoDup (doc_id <$> documents (session s')).
Proof.
  apply (document_ids_follow_position Sample.env
           (Sample.only_store Sample.indexing)
           [ Upload [Sample.notes; Sample.broken]; ClearDocuments;
             Upload [Sample.report; Sample.notes] ] initial_sys).
  simpl. apply numbered_nil.
Defined.

(** ** Lesson-plan prompt assembly *)

(** The template on a small request, against the text of the f-string. *)
Example prompt_of_sample_request :
  LessonPlan.prepare_lesson_plan_prompt "Reading" "3rd Grade" "Weekly"
    "45 minutes" ["Monday"; "Friday"] ["Improve reading fluency"; ""; "Spell"]
    [] ["Extra time"] Sample.iep
  = Ok "
    Create a detailed weekly lesson plan for Reading for 3rd Grade students.
    
    The plan should be based on the following IEP:
    Student reads at grade 2 level
    
    Class details:
    - Subject: Reading
    - Grade Level: 3rd Grade
    - Duration: 45 minutes
    - Schedule: Monday, Friday
    
    Learning Goals:
    - Improve reading fluency
- Spell
    
    Materials Needed:
    
    
    Additional Accommodations:
    - Extra time
    
    Please create a comprehensive lesson plan with:
    1. Learning objectives
    2. Detailed schedule/timeline
    3. Teaching strategies with specific IEP accommodations
    4. Assessment methods
    5. Resources and materials organization
    
    Format the plan clearly with sections and bullet points where appropriate.
    ".
Proof. vm_compute. reflexivity. Qed.

(** C5. Prompt assembly is a function of the request parameters and of the
    content of the selected IEP alone: two calls that agree on subject,
    grade level, timeframe, duration, days, goals, materials and
    accommodations, and whose IEP artifacts have the same content, return
    the same outcome, byte for byte, whatever else the two artifacts hold
    (id, source, timestamp). *)
Theorem prompt_assembly_deterministic
    (subject grade_level timeframe duration : string)
    (days_per_week goals_list materials_list accommodations_list
       : list string)
    (iep1 iep2 : gmap string string) :
  iep1 !! "content" = iep2 !! "content" →
  LessonPlan.prepare_lesson_plan_prompt subject grade_level timeframe
    duration days_per_week goals_list materials_list accommodations_list iep1
  = LessonPlan.prepare_lesson_plan_prompt subject grade_level timeframe
      duration days_per_week goals_list materials_list accommodations_list
      iep2.
Proof.
  intros Hcontent. unfold LessonPlan.prepare_lesson_plan_prompt.
  by rewrite Hcontent.
Qed.

Lemma prompt_assembly_deterministic_witness :
  LessonPlan.prepare_lesson_plan_prompt "Reading" "3rd Grade" "Daily"
    "45 minutes" ["Daily"] ["Improve reading fluency"] [] [] Sample.iep
  = LessonPlan.prepare_lesson_plan_prompt "Reading" "3rd Grade" "Daily"
      "45 minutes" ["Daily"] ["Improve reading fluency"] [] []
      (<["id" := "iep-7"]> (<["timestamp" := "2025-05-05"]> Sample.iep)).
Proof.
  apply (prompt_assembly_deterministic "Reading" "3rd Grade" "Daily"
           "45 minutes" ["Daily"] ["Improve reading fluency"] [] []
           Sample.iep
           (<["id" := "iep-7"]> (<["timestamp" := "2025-05-05"]> Sample.iep))).
  vm_compute. reflexivity.
Defined.

Lemma found_present (selected_iep_id : string)
    (ieps : list (gmap string string)) (iep : gmap string string) :
  find_iep selected_iep_id ieps = Ok (Some iep) → iep ≠ ∅.
Proof.
  intros H. apply find_iep_present in H as [_ Hid].
  intros ->. by rewrite lookup_empty in Hid.
Qed.

(** What the lesson-plan handler of the component asks of the generation
    capability: nothing, or one request built from the parameters and the
    content of the selected IEP. *)
Lemma lesson_plan_requests (env : Collaborators)
    (subject grade_level timeframe duration : string)
    (days_per_week : list string)
    (specific_goals materials additional_accommodations : string)
    (selected_iep_id : string) (app_components : AppComponents) (s : Sys)
    (iep : gmap string string) :
  find_iep selected_iep_id (iep_results (session s)) = Ok (Some iep) →
  requests (said (LessonPlan.handle_lesson_plan_generation env subject
                    grade_level timeframe duration days_per_week
                    specific_goals materials additional_accommodations
                    selected_iep_id app_components) s)
  = match llm_client app_components, iep !! "content" with
    | Some _, Some iep_content =>
        [ [ {| cm_role := "system"; cm_content := lesson_plan_system_prompt |};
            {| cm_role := "user";
               cm_content :=
                 prompt_text "    " subject grade_level timeframe duration
                   days_per_week (goals_of specific_goals)
                   (lines_or_empty materials)
                   (lines_or_empty additional_accommodations) iep_content |} ] ]
    | _, _ => []
    end.
Proof.
  intros Hfind. pose proof (found_present _ _ _ Hfind) as Hfound.
  unfold said, LessonPlan.handle_lesson_plan_generation.
  unfold try_except, bind, sm_get, lift_res, found. simpl.
  rewrite Hfind. simpl. rewrite (bool_decide_eq_false_2 _ Hfound).
  destruct (llm_client app_components) as [llm|];
    [|simpl; by rewrite drop_app_length].
  unfold LessonPlan.prepare_lesson_plan_prompt.
  destruct (iep !! "content") as [iep_content|] eqn:Hc;
    [|simpl; by rewrite <- app_assoc, drop_app_length].
  unfold call_llm, bind, emit, draw, lift_res. simpl.
  destruct (chat_completion llm _ _ _ _) as [response|e]; simpl;
    [|by rewrite <- !app_assoc, drop_app_length].
  destruct (checked_content response) as [generated|]; simpl;
    [|by rewrite <- !app_assoc, drop_app_length].
  unfold getitem. destruct (iep !! "source") as [src|]; simpl;
    by rewrite <- !app_assoc, drop_app_length.
Qed.

(** The request sent for a lesson plan does not depend on the session, the
    clock or the randomness the call is made in. *)
Lemma lesson_plan_request_independent_of_state (env : Collaborators)
    (subject grade_level timeframe duration : string)
    (days_per_week : list string)
    (specific_goals materials additional_accommodations : string)
    (selected_iep_id : string) (app_components : AppComponents)
    (s1 s2 : Sys) (iep1 iep2 : gmap string string) :
  find_iep selected_iep_id (iep_results (session s1)) = Ok (Some iep1) →
  find_iep selected_iep_id (iep_results (session s2)) = Ok (Some iep2) →
  iep1 !! "content" = iep2 !! "content" →
  requests (said (LessonPlan.handle_lesson_plan_generation env subject
                    grade_level timeframe duration days_per_week
                    specific_goals materials additional_accommodations
                    selected_iep_id app_components) s1)
  = requests (said (LessonPlan.handle_lesson_plan_generation env subject
                      grade_level timeframe duration days_per_week
                      specific_goals materials additional_accommodations
                      selected_iep_id app_components) s2).
Proof.
  intros H1 H2 Hc.
  rewrite (lesson_plan_requests _ _ _ _ _ _ _ _ _ _ _ _ _ H1).
  rewrite (lesson_plan_requests _ _ _ _ _ _ _ _ _ _ _ _ _ H2).
  by rewrite Hc.
Qed.

(** ** Lesson-plan form: the days field *)

(** A daily request hands on exactly [["Daily"]]. *)
Lemma daily_form_days (form : LessonPlanForm) :
  f_timeframe form = Daily → LessonPlan.form_days form = ["Daily"].
Proof. unfold LessonPlan.form_days. by intros ->. Qed.

(** The required-field check does not look at the days. *)
Lemma required_filled_ignores_days (form : LessonPlanForm)
    (days : list string) (selected_iep : option string) :
  LessonPlan.required_filled
    {| f_subject := f_subject form; f_grade_level := f_grade_level form;
       f_timeframe := f_timeframe form; f_duration := f_duration form;
       days_selected := days;
       f_specific_goals := f_specific_goals form;
       f_materials := f_materials form;
       f_additional_accommodations := f_additional_accommodations form;
       iep_choice := iep_choice form;
       generate_button := generate_button form |} selected_iep
  = LessonPlan.required_filled form selected_iep.
Proof. reflexivity. Qed.

(** C6, at the failing input.  A weekly request with every text field
    filled, an existing IEP selected and no day selected passes the
    required-field check in both front ends: no error is shown and a
    lesson plan whose [days] list is empty is appended to [lesson_plans]. *)
Theorem weekly_plan_without_days_is_stored :
  ((LessonPlan.render_lesson_plan_form Sample.env Sample.weekly_no_days
      (Sample.app Sample.indexing Sample.llm) Sample.with_iep).1 = Ok tt
   ∧ (λ plan : gmap string PyVal, (plan !! "timeframe", plan !! "days"))
       <$> lesson_plans
             (session (LessonPlan.render_lesson_plan_form Sample.env
                         Sample.weekly_no_days
                         (Sample.app Sample.indexing Sample.llm)
                         Sample.with_iep).2)
     = [ (Some (VStr "Weekly"), Some (VList [])) ]
   ∧ count_where is_error
       (trace (LessonPlan.render_lesson_plan_form Sample.env
                 Sample.weekly_no_days
                 (Sample.app Sample.indexing Sample.llm)
                 Sample.with_iep).2) = 0)
  ∧ ((App.create_lesson_plan_tab Sample.env Sample.weekly_no_days
        (Sample.app Sample.indexing Sample.llm) Sample.with_iep).1 = Ok tt
     ∧ (λ plan : gmap string PyVal, (plan !! "timeframe", plan !! "days"))
         <$> lesson_plans
               (session (App.create_lesson_plan_tab Sample.env
                           Sample.weekly_no_days
                           (Sample.app Sample.indexing Sample.llm)
                           Sample.with_iep).2)
       = [ (Some (VStr "Weekly"), Some (VList [])) ]
     ∧ count_where is_error
         (trace (App.create_lesson_plan_tab Sample.env
                   Sample.weekly_no_days
                   (Sample.app Sample.indexing Sample.llm)
                   Sample.with_iep).2) = 0).
Proof. repeat split; vm_compute; reflexivity. Qed.

(** Whatever the handler of the component does, the [lesson_plans]
    collection is left as it was or gains one plan that stores the days it
    was handed. *)
Lemma handler_stores_days (env : Collaborators)
    (subject grade_level timeframe duration : string)
    (days_per_week : list string)
    (specific_goals materials additional_accommodations : string)
    (selected_iep_id : string) (app_components : AppComponents) (s : Sys) :
  ∃ r s',
    LessonPlan.handle_lesson_plan_generation env subject grade_level
      timeframe duration days_per_week specific_goals materials
      additional_accommodations selected_iep_id app_components s = (r, s')
    ∧ (lesson_plans (session s') = lesson_plans (session s)
       ∨ ∃ plan, lesson_plans (session s') = lesson_plans (session s) ++ [plan]
                 ∧ plan !! "days" = Some (VList days_per_week)).
Proof.
  unfold LessonPlan.handle_lesson_plan_generation.
  unfold try_except, bind, sm_get, lift_res. simpl.
  destruct (find_iep selected_iep_id (iep_results (session s)))
    as [selected|e]; simpl; [|eexists _, _; split; [reflexivity|by left]].
  destruct (found selected) as [iep|]; simpl;
    [|eexists _, _; split; [reflexivity|by left]].
  destruct (llm_client app_components) as [llm|]; simpl;
    [|eexists _, _; split; [reflexivity|by left]].
  destruct (LessonPlan.prepare_lesson_plan_prompt _ _ _ _ _ _ _ _ _)
    as [prompt|e]; simpl; [|eexists _, _; split; [reflexivity|by left]].
  unfold call_llm, bind, emit, draw, lift_res. simpl.
  destruct (chat_completion llm _ _ _ _) as [response|e]; simpl;
    [|eexists _, _; split; [reflexivity|by left]].
  destruct (checked_content response) as [generated|]; simpl;
    [|eexists _, _; split; [reflexivity|by left]].
  unfold getitem. destruct (iep !! "source") as [src|]; simpl;
    [|eexists _, _; split; [reflexivity|by left]].
  eexists _, _. split; [reflexivity|]. right. simpl.
  eexists. split; [reflexivity|]. reflexivity.
Qed.

(** The part of C6 that holds: for a daily schedule the form hands on, and
    any plan it stores records, exactly [["Daily"]]. *)
Lemma daily_plan_stores_daily (env : Collaborators) (form : LessonPlanForm)
    (app_components : AppComponents) (s : Sys) :
  f_timeframe form = Daily →
  ∃ r s',
    LessonPlan.render_lesson_plan_form env form app_components s = (r, s')
    ∧ (lesson_plans (session s') = lesson_plans (session s)
       ∨ ∃ plan, lesson_plans (session s') = lesson_plans (session s) ++ [plan]
                 ∧ plan !! "days" = Some (VList ["Daily"])).
Proof.
  intros Hdaily. unfold LessonPlan.render_lesson_plan_form.
  rewrite (daily_form_days form Hdaily).
  unfold bind at 1. unfold sm_get at 1. unfold bind at 1.
  match goal with |- context [let (_, _) := ?m s in _] => set (sel := m) end.
  assert (∃ r1 s1, sel s = (r1, s1) ∧ session s1 = session s)
    as (r1 & s1 & -> & Hs1).
  { subst sel. simpl.
    destruct (iep_results (session s)) as [|iep rest]; [by eexists _, _|].
    unfold bind, lift_res.
    destruct (iep_ids (iep :: rest)); by eexists _, _. }
  destruct r1 as [selected_iep|e]; [|eexists _, _; split; [reflexivity|left; by rewrite Hs1]].
  unfold bind at 1. unfold emit at 1.
  destruct (generate_button form);
    [|eexists _, _; split; [reflexivity|left; simpl; by rewrite Hs1]].
  destruct (LessonPlan.required_filled form selected_iep);
    [|eexists _, _; split; [reflexivity|left; simpl; by rewrite Hs1]].
  match goal with |- context [LessonPlan.handle_lesson_plan_generation
                                ?e ?a ?b ?c ?d ?days ?f ?g ?h ?i ?app ?s0] =>
    destruct (handler_stores_days e a b c d days f g h i app s0)
      as (r & s' & -> & Hplans)
  end.
  simpl in Hplans. rewrite Hs1 in Hplans. by eexists _, _.
Qed.

(** In a registry numbered by position the listing shows the stored ids,
    which are the positional ones it would fall back on. *)
Lemma listed_ids_of_numbered (docs : list Document) (i : nat) (d : Document) :
  numbered docs → docs !! i = Some d →
  DocumentUtils.listed_id i d = "doc_" +:+ pretty i.
Proof.
  intros Hn Hi. unfold DocumentUtils.listed_id.
  apply Hn in Hi. unfold doc_id in Hi. by rewrite Hi.
Qed.


(** * Further properties of the handlers *)

(** ** Ingestion: the state after a batch *)

Lemma session_eta (st : SessionState) :
  kset K_documents (documents st) st = st.
Proof. by destruct st. Qed.

Lemma ingested_nothing (s : Sys) : ingested [] [] [] s = s.
Proof.
  destruct s as [[] ix tr c e]. unfold ingested. simpl.
  by rewrite !app_nil_r, Nat.add_0_r.
Qed.

Lemma ingested_twice (docs1 idx1 docs2 idx2 : list Document)
    (evs1 evs2 : list Event) (s : Sys) :
  ingested docs2 idx2 evs2 (ingested docs1 idx1 evs1 s)
  = ingested (docs1 ++ docs2) (idx1 ++ idx2) (evs1 ++ evs2) s.
Proof.
  unfold ingested. simpl.
  by rewrite <- !app_assoc, length_app, Nat.add_assoc.
Qed.

Lemma with_events_ingested (evs : list Event) (s : Sys) :
  with_events evs s = ingested [] [] evs s.
Proof.
  destruct s as [[] ix tr c e]. unfold with_events, ingested. simpl.
  by rewrite !app_nil_r, Nat.add_0_r.
Qed.

(** One file in the sidebar component registers at most one document and
    indexes it or not. *)
Lemma sidebar_process_file_effect (env : Collaborators) (vs : VectorStore)
    (file : UploadedFile) (acc : bool * nat) (s : Sys) :
  ∃ acc' new_docs new_idx evs,
    Sidebar.process_file env vs file acc s
    = (Ok acc', ingested new_docs new_idx evs s)
    ∧ new_idx `sublist_of` new_docs
    ∧ Forall (λ d, embeds vs (page_content d) = true) new_idx.
Proof.
  rewrite sidebar_process_file_run. cbv zeta.
  destruct (outcome env file) as [e|e|msg|d].
  - rewrite with_events_ingested. by eexists _, [], [], _.
  - rewrite with_events_ingested. by eexists _, [], [], _.
  - rewrite with_events_ingested. by eexists _, [], [], _.
  - destruct (embeds vs (page_content d)) eqn:Hemb.
    + eexists _, [_], [_], _. unfold ingested. rewrite Nat.add_1_r.
      split; [reflexivity|]. split; [done|]. by repeat constructor.
    + eexists _, [_], [], _. unfold ingested.
      rewrite Nat.add_1_r, app_nil_r.
      split; [reflexivity|]. split; [|done]. apply sublist_nil_l.
Qed.

Lemma sidebar_process_files_effect (env : Collaborators) (vs : VectorStore)
    (files : list UploadedFile) (acc : bool * nat) (s : Sys) :
  ∃ acc' new_docs new_idx evs,
    Sidebar.process_files env vs files acc s
    = (Ok acc', ingested new_docs new_idx evs s)
    ∧ new_idx `sublist_of` new_docs
    ∧ Forall (λ d, embeds vs (page_content d) = true) new_idx.
Proof.
  revert acc s. induction files as [|file rest IH]; intros acc s.
  - simpl. unfold ret. eexists _, [], [], []. by rewrite ingested_nothing.
  - simpl. unfold bind.
    destruct (sidebar_process_file_effect env vs file acc s)
      as (acc1 & docs1 & idx1 & evs1 & -> & Hsub1 & Hemb1).
    destruct (IH acc1 (ingested docs1 idx1 evs1 s))
      as (acc2 & docs2 & idx2 & evs2 & -> & Hsub2 & Hemb2).
    rewrite ingested_twice. eexists _, _, _, _. split; [reflexivity|].
    split; [by apply sublist_app|by apply Forall_app].
Qed.

Lemma app_process_file_effect (env : Collaborators) (vs : VectorStore)
    (file : UploadedFile) (ok : bool) (s : Sys) :
  ∃ ok' new_docs new_idx evs,
    App.process_file env vs file ok s
    = (Ok ok', ingested new_docs new_idx evs s)
    ∧ new_idx `sublist_of` new_docs.
Proof.
  rewrite app_process_file_run. cbv zeta.
  destruct (outcome env file) as [e|e|msg|d].
  - rewrite with_events_ingested. by eexists _, [], [], _.
  - rewrite with_events_ingested. by eexists _, [], [], _.
  - rewrite with_events_ingested. by eexists _, [], [], _.
  - destruct (embeds vs (page_content d)) eqn:Hemb.
    + eexists _, [_], [_], _. unfold ingested. rewrite Nat.add_1_r.
      split; [reflexivity|done].
    + eexists _, [_], [], _. unfold ingested.
      rewrite Nat.add_1_r, app_nil_r.
      split; [reflexivity|]. apply sublist_nil_l.
Qed.

Lemma app_process_files_effect (env : Collaborators) (vs : VectorStore)
    (files : list UploadedFile) (ok : bool) (s : Sys) :
  ∃ ok' new_docs new_idx evs,
    App.process_files env vs files ok s
    = (Ok ok', ingested new_docs new_idx evs s)
    ∧ new_idx `sublist_of` new_docs.
Proof.
  revert ok s. induction files as [|file rest IH]; intros ok s.
  - simpl. unfold ret. eexists _, [], [], []. by rewrite ingested_nothing.
  - simpl. unfold bind.
    destruct (app_process_file_effect env vs file ok s)
      as (ok1 & docs1 & idx1 & evs1 & -> & Hsub1).
    destruct (IH ok1 (ingested docs1 idx1 evs1 s))
      as (ok2 & docs2 & idx2 & evs2 & -> & Hsub2).
    rewrite ingested_twice. eexists _, _, _, _. split; [reflexivity|].
    by apply sublist_app.
Qed.

(** What a batch can change: documents are appended, index entries are
    appended, and nothing else of the collections moves. *)
Lemma sidebar_upload_effect (env : Collaborators)
    (files : list UploadedFile) (app_components : AppComponents) (s : Sys) :
  ∃ s' new_docs new_idx,
    Sidebar.process_uploaded_files env files app_components s = (Ok tt, s')
    ∧ documents (session s') = documents (session s) ++ new_docs
    ∧ index s' = index s ++ new_idx
    ∧ new_idx `sublist_of` new_docs
    ∧ messages (session s') = messages (session s)
    ∧ iep_results (session s') = iep_results (session s)
    ∧ lesson_plans (session s') = lesson_plans (session s)
    ∧ rag_queries (session s') = rag_queries (session s)
    ∧ current_plan (session s') = current_plan (session s).
Proof.
  unfold Sidebar.process_uploaded_files.
  destruct (vector_store app_components) as [vs|].
  - unfold bind at 1. unfold emit at 1. unfold bind at 1.
    match goal with |- context [Sidebar.process_files env vs files ?a ?s0] =>
      destruct (sidebar_process_files_effect env vs files a s0)
        as (acc' & new_docs & new_idx & evs & -> & Hsub & _)
    end.
    destruct (fst acc' && (0 <? snd acc')%nat);
      [|destruct (0 <? snd acc')%nat];
      unfold bind, emit, sm_set, update_system_state, modify_session; simpl;
      (eexists _, new_docs, new_idx; split; [reflexivity|]; by repeat split).
  - exists (with_events
              [StError
                 "Vector store not initialized. Cannot process documents."] s),
      [], [].
    rewrite !app_nil_r. by repeat split.
Qed.

Lemma app_upload_effect (env : Collaborators)
    (files : list UploadedFile) (app_components : AppComponents) (s : Sys) :
  ∃ s' new_docs new_idx,
    App.process_uploaded_files env files app_components s = (Ok tt, s')
    ∧ documents (session s') = documents (session s) ++ new_docs
    ∧ index s' = index s ++ new_idx
    ∧ new_idx `sublist_of` new_docs
    ∧ messages (session s') = messages (session s)
    ∧ iep_results (session s') = iep_results (session s)
    ∧ lesson_plans (session s') = lesson_plans (session s)
    ∧ rag_queries (session s') = rag_queries (session s)
    ∧ current_plan (session s') = current_plan (session s).
Proof.
  unfold App.process_uploaded_files.
  destruct (vector_store app_components) as [vs|].
  - unfold bind at 1. unfold sm_get at 1. simpl.
    destruct (documents_processed (session s)).
    + exists (with_events [TempCleanup] s), [], [].
      rewrite !app_nil_r. by repeat split.
    + unfold bind at 1. unfold bind at 1. unfold emit at 1. unfold bind at 1.
      match goal with |- context [App.process_files env vs files ?a ?s0] =>
        destruct (app_process_files_effect env vs files a s0)
          as (ok' & new_docs & new_idx & evs & -> & Hsub)
      end.
      destruct ok';
        unfold bind, emit, sm_set, update_system_state, modify_session; simpl;
        (eexists _, new_docs, new_idx; split; [reflexivity|];
         by repeat split).
  - exists (with_events
              [StError
                 "Vector store not initialized. Cannot process documents."] s),
      [], [].
    rewrite !app_nil_r. by repeat split.
Qed.

(** X1.  An upload batch touches the documents only.  In both front ends
    the upload handler completes and leaves the messages, the IEP results,
    the lesson plans, the RAG queries and the current plan as they were;
    the document registry and the index keep their entries and can only
    grow at the end. *)
Theorem ingestion_touches_documents_only (env : Collaborators)
    (files : list UploadedFile) (app_components : AppComponents) (s : Sys) :
  (∃ s',
     Sidebar.process_uploaded_files env files app_components s = (Ok tt, s')
     ∧ messages (session s') = messages (session s)
     ∧ iep_results (session s') = iep_results (session s)
     ∧ lesson_plans (session s') = lesson_plans (session s)
     ∧ rag_queries (session s') = rag_queries (session s)
     ∧ current_plan (session s') = current_plan (session s)
     ∧ documents (session s) `prefix_of` documents (session s')
     ∧ index s `prefix_of` index s')
  ∧ (∃ s',
       App.process_uploaded_files env files app_components s = (Ok tt, s')
       ∧ messages (session s') = messages (session s)
       ∧ iep_results (session s') = iep_results (session s)
       ∧ lesson_plans (session s') = lesson_plans (session s)
       ∧ rag_queries (session s') = rag_queries (session s)
       ∧ current_plan (session s') = current_plan (session s)
       ∧ documents (session s) `prefix_of` documents (session s')
       ∧ index s `prefix_of` index s').
Proof.
  split.
  - destruct (sidebar_upload_effect env files app_components s)
      as (s' & new_docs & new_idx & Hrun & Hd & Hi & _ & Hrest).
    exists s'. rewrite Hd, Hi.
    destruct Hrest as (? & ? & ? & ? & ?).
    repeat split; try done; by apply prefix_app_r.
  - destruct (app_upload_effect env files app_components s)
      as (s' & new_docs & new_idx & Hrun & Hd & Hi & _ & Hrest).
    exists s'. rewrite Hd, Hi.
    destruct Hrest as (? & ? & ? & ? & ?).
    repeat split; try done; by apply prefix_app_r.
Qed.

(** X2.  How a batch ends in the sidebar component.  With a vector store
    installed the handler completes; its last two reports are the summary
    (success when every file succeeded and at least one was processed, a
    warning when only some did, an error when none did) and the cleanup of
    the temporary files.  [documents_processed] and the
    [vector_store_initialized] flag are set exactly in the success case and
    otherwise stay as they were. *)
Theorem sidebar_batch_outcome (env : Collaborators)
    (files : list UploadedFile) (app_components : AppComponents)
    (vs : VectorStore) (s : Sys) :
  vector_store app_components = Some vs →
  ∃ s' evs,
    Sidebar.process_uploaded_files env files app_components s = (Ok tt, s')
    ∧ trace s'
      = trace s ++ evs
        ++ [ sidebar_summary (forallb (succeeds env vs) files)
               (count_where (succeeds env vs) files);
             TempCleanup ]
    ∧ documents_processed (session s')
      = (forallb (succeeds env vs) files
         && (0 <? count_where (succeeds env vs) files)%nat)
        || documents_processed (session s)
    ∧ system_state (session s')
      = if forallb (succeeds env vs) files
           && (0 <? count_where (succeeds env vs) files)%nat
        then {[ "vector_store_initialized" := true ]} ∪ system_state (session s)
        else system_state (session s).
Proof.
  intros Hvs. unfold Sidebar.process_uploaded_files. rewrite Hvs.
  unfold bind at 1. unfold emit at 1. unfold bind at 1.
  match goal with |- context [Sidebar.process_files env vs files ?a ?s0] =>
    destruct (sidebar_process_files_summary env vs files a s0)
      as (s1 & evs1 & Hrun & Ht & _);
    destruct (sidebar_process_files_effect env vs files a s0)
      as (acc' & new_docs & new_idx & evs & Hrun' & _)
  end.
  rewrite Hrun' in Hrun. injection Hrun as -> <-. rewrite Hrun'.
  simpl fst. simpl snd. unfold sidebar_summary.
  destruct (forallb (succeeds env vs) files);
    destruct (0 <? count_where (succeeds env vs) files)%nat; simpl;
    unfold bind, emit, sm_set, update_system_state, modify_session; simpl;
    (eexists _, (StWrite "### Processing Files" :: evs);
     split; [reflexivity|]; simpl;
     split; [by rewrite <- !app_assoc|done]).
Qed.

Lemma sidebar_batch_outcome_witness :
  ∃ s' evs,
    Sidebar.process_uploaded_files Sample.env [Sample.notes; Sample.broken]
      (Sample.only_store Sample.indexing) initial_sys = (Ok tt, s')
    ∧ trace s'
      = trace initial_sys ++ evs
        ++ [ sidebar_summary
               (forallb (succeeds Sample.env Sample.indexing)
                  [Sample.notes; Sample.broken])
               (count_where (succeeds Sample.env Sample.indexing)
                  [Sample.notes; Sample.broken]);
             TempCleanup ]
    ∧ documents_processed (session s')
      = (forallb (succeeds Sample.env Sample.indexing)
           [Sample.notes; Sample.broken]
         && (0 <? count_where (succeeds Sample.env Sample.indexing)
                    [Sample.notes; Sample.broken])%nat)
        || documents_processed (session initial_sys)
    ∧ system_state (session s')
      = if forallb (succeeds Sample.env Sample.indexing)
             [Sample.notes; Sample.broken]
           && (0 <? count_where (succeeds Sample.env Sample.indexing)
                      [Sample.notes; Sample.broken])%nat
        then {[ "vector_store_initialized" := true ]}
             ∪ system_state (session initial_sys)
        else system_state (session initial_sys).
Proof.
  apply (sidebar_batch_outcome Sample.env [Sample.notes; Sample.broken]
           (Sample.only_store Sample.indexing) Sample.indexing initial_sys).
  reflexivity.
Defined.

Lemma sidebar_clear_documents_effect (app_components : AppComponents)
    (vs : VectorStore) (s : Sys) :
  vector_store app_components = Some vs →
  ∃ s', Sidebar.clear_documents app_components s = (Ok tt, s')
        ∧ documents (session s') = [] ∧ index s' = [].
Proof.
  intros Hvs. unfold Sidebar.clear_documents. rewrite Hvs. by eexists.
Qed.

(** X3.  Through uploads and clears of the sidebar component, with a vector
    store installed, the index never holds a document that is not
    registered: if that holds before a session history, the history
    completes and it holds after it. *)
Theorem indexed_documents_stay_registered (env : Collaborators)
    (app_components : AppComponents) (vs : VectorStore)
    (history : list Action) (s : Sys) :
  vector_store app_components = Some vs →
  indexed_are_registered s →
  ∃ s',
    run_session env app_components history s = (Ok tt, s')
    ∧ indexed_are_registered s'.
Proof.
  intros Hvs. revert s. induction history as [|a rest IH]; intros s Hinv.
  - by exists s.
  - simpl. unfold bind.
    assert (∃ s1, act env app_components a s = (Ok tt, s1)
                  ∧ indexed_are_registered s1) as (s1 & -> & Hinv1).
    { destruct a as [files|]; simpl.
      - destruct (sidebar_upload_effect env files app_components s)
          as (s1 & new_docs & new_idx & Hrun & Hd & Hi & Hsub & _).
        exists s1. split; [done|]. intros d. rewrite Hd, Hi.
        rewrite !elem_of_app. intros [Hin|Hin]; [left; by apply Hinv|].
        right. by eapply elem_of_sublist.
      - destruct (sidebar_clear_documents_effect app_components vs s Hvs)
          as (s1 & Hrun & Hd & Hi).
        exists s1. split; [done|]. intros d. rewrite Hi.
        intros Hin. by apply elem_of_nil in Hin. }
    by apply IH.
Qed.

Lemma indexed_documents_stay_registered_witness :
  ∃ s',
    run_session Sample.env (Sample.only_store Sample.failing)
      [ Upload [Sample.notes; Sample.broken]; ClearDocuments;
        Upload [Sample.report] ] initial_sys = (Ok tt, s')
    ∧ indexed_are_registered s'.
Proof.
  apply (indexed_documents_stay_registered Sample.env
           (Sample.only_store Sample.failing) Sample.failing
           [ Upload [Sample.notes; Sample.broken]; ClearDocuments;
             Upload [Sample.report] ] initial_sys).
  - reflexivity.
  - intros d Hin. by apply elem_of_nil in Hin.
Defined.

(** X4.  The single-file front end takes a batch up once.  Started with
    [documents_processed] unset, the upload handler sets it exactly when
    every file of the batch was extracted; once it is set, any further call
    (the uploader hands the files over on every run) changes neither the
    state store nor the index and only cleans the temporary files up. *)
Theorem app_upload_runs_once (env : Collaborators)
    (files : list UploadedFile) (app_components : AppComponents)
    (vs : VectorStore) (s : Sys) :
  vector_store app_components = Some vs →
  documents_processed (session s) = false →
  ∃ s1,
    App.process_uploaded_files env files app_components s = (Ok tt, s1)
    ∧ documents_processed (session s1) = forallb (extracted env) files
    ∧ (forallb (extracted env) files = true →
       ∀ again, ∃ s2,
         App.process_uploaded_files env again app_components s1 = (Ok tt, s2)
         ∧ session s2 = session s1
         ∧ index s2 = index s1
         ∧ trace s2 = trace s1 ++ [TempCleanup]).
Proof.
  intros Hvs Hp.
  assert (∃ s1,
            App.process_uploaded_files env files app_components s = (Ok tt, s1)
            ∧ documents_processed (session s1) = forallb (extracted env) files)
    as (s1 & Hrun & Hflag).
  { unfold App.process_uploaded_files. rewrite Hvs.
    unfold bind at 1. unfold sm_get at 1. simpl. rewrite Hp.
    unfold bind at 1. unfold bind at 1. unfold emit at 1. unfold bind at 1.
    match goal with |- context [App.process_files env vs files ?a ?s0] =>
      destruct (app_process_files_summary env vs files a s0)
        as (s1 & evs1 & Hrun & _);
      destruct (app_process_files_effect env vs files a s0)
        as (ok' & new_docs & new_idx & evs & Hrun' & _)
    end.
    rewrite Hrun' in Hrun. injection Hrun as -> <-. rewrite Hrun'.
    simpl andb.
    destruct (forallb (extracted env) files);
      unfold bind, emit, sm_set, update_system_state, modify_session; simpl;
      (eexists; split; [reflexivity|]; simpl; done). }
  exists s1. split; [done|]. split; [done|].
  intros Hall again. rewrite Hall in Hflag.
  unfold App.process_uploaded_files. rewrite Hvs.
  unfold bind, sm_get, emit, ret. simpl. rewrite Hflag.
  by eexists.
Qed.

Lemma app_upload_runs_once_witness :
  ∃ s1,
    App.process_uploaded_files Sample.env [Sample.notes; Sample.report]
      (Sample.only_store Sample.indexing) initial_sys = (Ok tt, s1)
    ∧ documents_processed (session s1)
      = forallb (extracted Sample.env) [Sample.notes; Sample.report]
    ∧ (forallb (extracted Sample.env) [Sample.notes; Sample.report] = true →
       ∀ again, ∃ s2,
         App.process_uploaded_files Sample.env again
           (Sample.only_store Sample.indexing) s1 = (Ok tt, s2)
         ∧ session s2 = session s1
         ∧ index s2 = index s1
         ∧ trace s2 = trace s1 ++ [TempCleanup]).
Proof.
  apply (app_upload_runs_once Sample.env [Sample.notes; Sample.report]
           (Sample.only_store Sample.indexing) Sample.indexing initial_sys);
    reflexivity.
Defined.

(** X5.  The sidebar component has no such guard: handing the same batch
    over on two runs registers every extracted document twice. *)
Theorem sidebar_upload_registers_again (env : Collaborators)
    (files : list UploadedFile) (app_components : AppComponents)
    (vs : VectorStore) (s : Sys) :
  vector_store app_components = Some vs →
  ∃ s1 s2,
    Sidebar.process_uploaded_files env files app_components s = (Ok tt, s1)
    ∧ Sidebar.process_uploaded_files env files app_components s1 = (Ok tt, s2)
    ∧ length (documents (session s1))
      = length (documents (session s)) + count_where (extracted env) files
    ∧ length (documents (session s2))
      = length (documents (session s))
        + 2 * count_where (extracted env) files.
Proof.
  intros Hvs.
  destruct (sidebar_batch_then_cleanup env files app_components vs s Hvs)
    as (s1 & evs1 & Hrun1 & _ & _ & _ & _ & Hd1).
  destruct (sidebar_batch_then_cleanup env files app_components vs s1 Hvs)
    as (s2 & evs2 & Hrun2 & _ & _ & _ & _ & Hd2).
  exists s1, s2. repeat split; [done..|]. lia.
Qed.

Lemma sidebar_upload_registers_again_witness :
  ∃ s1 s2,
    Sidebar.process_uploaded_files Sample.env [Sample.notes; Sample.broken]
      (Sample.only_store Sample.indexing) initial_sys = (Ok tt, s1)
    ∧ Sidebar.process_uploaded_files Sample.env [Sample.notes; Sample.broken]
        (Sample.only_store Sample.indexing) s1 = (Ok tt, s2)
    ∧ length (documents (session s1))
      = length (documents (session initial_sys))
        + count_where (extracted Sample.env) [Sample.notes; Sample.broken]
    ∧ length (documents (session s2))
      = length (documents (session initial_sys))
        + 2 * count_where (extracted Sample.env)
                [Sample.notes; Sample.broken].
Proof.
  apply (sidebar_upload_registers_again Sample.env
           [Sample.notes; Sample.broken]
           (Sample.only_store Sample.indexing) Sample.indexing initial_sys).
  reflexivity.
Defined.

(** ** Looking documents up by id *)

Lemma find_document_first (id : string) (docs : list Document) :
  match DocumentUtils.find_document id docs with
  | Some d =>
      ∃ before after,
        docs = before ++ d :: after
        ∧ doc_id d = Some id
        ∧ Forall (λ x, doc_id x ≠ Some id) before
  | None => Forall (λ x, doc_id x ≠ Some id) docs
  end.
Proof.
  induction docs as [|doc rest IH]; simpl; [done|].
  case_bool_decide as Hid.
  - by exists [], rest.
  - destruct (DocumentUtils.find_document id rest) as [d|].
    + destruct IH as (before & after & -> & Hd & Hnone).
      exists (doc :: before), after. repeat split; [done|]. by constructor.
    + by constructor.
Qed.

(** X6.  [get_document_by_id], in both front ends, reads the registry
    without changing anything and answers with the first registered
    document whose stored id is the one asked for, or with nothing exactly
    when no registered document stores that id. *)
Theorem get_document_by_id_first_match (id : string) (s : Sys) :
  ∃ found_doc,
    DocumentUtils.get_document_by_id id s = (Ok found_doc, s)
    ∧ App.get_document_by_id id s = (Ok found_doc, s)
    ∧ match found_doc with
      | Some d =>
          ∃ before after,
            documents (session s) = before ++ d :: after
            ∧ doc_id d = Some id
            ∧ Forall (λ x, doc_id x ≠ Some id) before
      | None => Forall (λ x, doc_id x ≠ Some id) (documents (session s))
      end.
Proof.
  exists (DocumentUtils.find_document id (documents (session s))).
  split; [done|]. split; [done|]. apply find_document_first.
Qed.

Lemma find_document_numbered (docs : list Document) (i : nat) (d : Document) :
  numbered docs → docs !! i = Some d →
  DocumentUtils.find_document ("doc_" +:+ pretty i) docs = Some d.
Proof.
  intros Hn Hi.
  pose proof (find_document_first ("doc_" +:+ pretty i) docs) as Hf.
  destruct (DocumentUtils.find_document ("doc_" +:+ pretty i) docs) as [x|].
  - destruct Hf as (before & after & Hdocs & Hx & _).
    assert (docs !! length before = Some x) as Hpos.
    { rewrite Hdocs. by rewrite list_lookup_middle. }
    pose proof (Hn _ _ Hpos) as Hx'. rewrite Hx in Hx'.
    simpl in Hx'. injection Hx' as Hx'.
    change (pretty i = pretty (length before)) in Hx'.
    apply (inj pretty) in Hx'. subst i. congruence.
  - exfalso. rewrite Forall_forall in Hf.
    apply (Hf d); [by eapply list_elem_of_lookup_2|by apply Hn].
Qed.

(** X7.  Whatever the sidebar component registers can be listed and fetched
    back: after a batch on a registry numbered by position, the id listed
    for the document at each position is [doc_<position>], and
    [get_document_by_id] and [get_document_metadata] on that id return that
    very document and its metadata. *)
Theorem registered_documents_are_retrievable (env : Collaborators)
    (files : list UploadedFile) (app_components : AppComponents) (s : Sys) :
  numbered (documents (session s)) →
  ∃ s',
    Sidebar.process_uploaded_files env files app_components s = (Ok tt, s')
    ∧ ∀ i d,
        documents (session s') !! i = Some d →
        DocumentUtils.listed_id i d = "doc_" +:+ pretty i
        ∧ DocumentUtils.get_document_by_id (DocumentUtils.listed_id i d) s'
          = (Ok (Some d), s')
        ∧ DocumentUtils.get_document_metadata (DocumentUtils.listed_id i d) s'
          = (Ok (metadata d), s').
Proof.
  intros Hn.
  destruct (sidebar_upload_numbered env files app_components s)
    as (s' & Hrun & Hn').
  exists s'. split; [done|]. intros i d Hi.
  pose proof (listed_ids_of_numbered _ _ _ (Hn' Hn) Hi) as Hl.
  pose proof (find_document_numbered _ _ _ (Hn' Hn) Hi) as Hf.
  rewrite Hl. split; [done|].
  unfold DocumentUtils.get_document_metadata,
    DocumentUtils.get_document_by_id, bind, sm_get, ret. simpl.
  by rewrite Hf.
Qed.

Lemma registered_documents_are_retrievable_witness :
  ∃ s',
    Sidebar.process_uploaded_files Sample.env
      [Sample.notes; Sample.broken; Sample.report]
      (Sample.only_store Sample.failing) initial_sys = (Ok tt, s')
    ∧ ∀ i d,
        documents (session s') !! i = Some d →
        DocumentUtils.listed_id i d = "doc_" +:+ pretty i
        ∧ DocumentUtils.get_document_by_id (DocumentUtils.listed_id i d) s'
          = (Ok (Some d), s')
        ∧ DocumentUtils.get_document_metadata (DocumentUtils.listed_id i d) s'
          = (Ok (metadata d), s').
Proof.
  apply (registered_documents_are_retrievable Sample.env
           [Sample.notes; Sample.broken; Sample.report]
           (Sample.only_store Sample.failing) initial_sys).
  simpl. apply numbered_nil.
Defined.

(** ** The single-file front end registers documents without ids *)

Lemma app_stamp_keeps_id (env : Collaborators) (file : UploadedFile)
    (t : nat) (d : Document) :
  doc_id (App.stamp env file t d) = doc_id d.
Proof.
  unfold doc_id, App.stamp. simpl.
  by rewrite !lookup_insert_ne.
Qed.

Lemma app_process_files_no_ids (env : Collaborators) (vs : VectorStore)
    (files : list UploadedFile) (ok : bool) (s : Sys) :
  (∀ file d, outcome env file = Extracted d → doc_id d = None) →
  Forall (λ d, doc_id d = None) (documents (session s)) →
  ∃ ok' s',
    App.process_files env vs files ok s = (Ok ok', s')
    ∧ Forall (λ d, doc_id d = None) (documents (session s')).
Proof.
  intros Hloader. revert ok s.
  induction files as [|file rest IH]; intros ok s Hnone.
  - by eexists _, _.
  - simpl. unfold bind. rewrite app_process_file_run. cbv zeta.
    destruct (outcome env file) as [e|e|msg|d] eqn:Hout;
      [by apply IH..|].
    apply IH. simpl. apply Forall_app. split; [done|].
    constructor; [|done].
    rewrite app_stamp_keeps_id. by eapply Hloader.
Qed.

Lemma app_upload_no_ids (env : Collaborators) (files : list UploadedFile)
    (app_components : AppComponents) (s : Sys) :
  (∀ file d, outcome env file = Extracted d → doc_id d = None) →
  Forall (λ d, doc_id d = None) (documents (session s)) →
  ∃ s',
    App.process_uploaded_files env files app_components s = (Ok tt, s')
    ∧ Forall (λ d, doc_id d = None) (documents (session s')).
Proof.
  intros Hloader Hnone. unfold App.process_uploaded_files.
  destruct (vector_store app_components) as [vs|];
    [|eexists; split; [reflexivity|done]].
  unfold bind at 1. unfold sm_get at 1. simpl.
  destruct (documents_processed (session s));
    [eexists; split; [reflexivity|done]|].
  unfold bind at 1. unfold bind at 1. unfold emit at 1. unfold bind at 1.
  match goal with |- context [App.process_files env vs files ?a ?s0] =>
    destruct (app_process_files_no_ids env vs files a s0 Hloader)
      as (ok' & s1 & -> & Hnone1); [done|]
  end.
  destruct ok';
    unfold bind, emit, sm_set, update_system_state, modify_session; simpl;
    (eexists; split; [reflexivity|done]).
Qed.

Lemma find_document_no_ids (id : string) (docs : list Document) :
  Forall (λ d, doc_id d = None) docs →
  DocumentUtils.find_document id docs = None.
Proof.
  induction 1 as [|d rest Hd _ IH]; simpl; [done|].
  unfold doc_id in Hd. rewrite Hd. by case_bool_decide.
Qed.

Lemma app_existing_ieps_run (env : Collaborators) (i : nat)
    (ieps : list (gmap string string)) (s : Sys) :
  ∃ s' evs,
    App.existing_ieps env i ieps s = (Ok tt, s')
    ∧ session s' = session s
    ∧ index s' = index s
    ∧ entropy s' = entropy s
    ∧ trace s' = trace s ++ evs.
Proof.
  revert i s. induction ieps as [|iep rest IH]; intros i s.
  - exists s, []. by rewrite app_nil_r.
  - simpl. unfold bind at 1. unfold App.existing_iep, bind, emit, now. simpl.
    match goal with |- context [App.existing_ieps env (S i) rest ?s0] =>
      destruct (IH (S i) s0) as (s' & evs & -> & Hs & Hi & He & Ht)
    end.
    eexists _, (_ :: _ :: evs). split; [reflexivity|].
    simpl in *. repeat split; try done.
    by rewrite Ht, <- !app_assoc.
Qed.

Lemma app_display_existing_ieps_run (env : Collaborators) (s : Sys) :
  ∃ s' evs,
    App.display_existing_ieps env s = (Ok tt, s')
    ∧ session s' = session s
    ∧ index s' = index s
    ∧ entropy s' = entropy s
    ∧ trace s' = trace s ++ evs.
Proof.
  unfold App.display_existing_ieps, bind, sm_get. simpl.
  destruct (iep_results (session s)) as [|iep rest].
  - exists s, []. by rewrite app_nil_r.
  - unfold emit.
    match goal with |- context [App.existing_ieps env 0 ?l ?s0] =>
      destruct (app_existing_ieps_run env 0 l s0)
        as (s' & evs & -> & Hs & Hi & He & Ht)
    end.
    eexists _, (_ :: evs). split; [reflexivity|].
    simpl in *. repeat split; try done. by rewrite Ht, <- app_assoc.
Qed.

Lemma available_entry_id (i : nat) (doc : Document) :
  App.available_entry i doc !! "id" = Some (DocumentUtils.listed_id i doc).
Proof. unfold App.available_entry. cbv zeta. by rewrite lookup_insert_eq. Qed.

(** X8.  In the single-file front end an uploaded document cannot be used
    for IEP generation: the upload handler stores no id, the IEP tab lists
    the document under the positional id [doc_<i>], and the lookup by that
    id finds nothing.  Provided the loader itself puts no id into the
    metadata, pressing "Generate IEP" after any upload, for any choice of
    document, answers "Could not retrieve document for processing.",
    without a generation request (no randomness is consumed) and with the
    state store and the index unchanged. *)
Theorem app_uploaded_document_cannot_be_retrieved (env : Collaborators)
    (files : list UploadedFile) (app_components : AppComponents) (s : Sys) :
  (∀ file d, outcome env file = Extracted d → doc_id d = None) →
  Forall (λ d, doc_id d = None) (documents (session s)) →
  ∃ s1,
    App.process_uploaded_files env files app_components s = (Ok tt, s1)
    ∧ ∀ doc_choice,
        documents (session s1) ≠ [] →
        ∃ s2 evs,
          App.create_iep_tab env doc_choice true app_components s1
          = (Ok tt, s2)
          ∧ session s2 = session s1
          ∧ index s2 = index s1
          ∧ entropy s2 = entropy s1
          ∧ trace s2
            = trace s1
              ++ StMarkdown "### Document Selection"
                 :: StError "Could not retrieve document for processing."
                 :: evs.
Proof.
  intros Hloader Hnone.
  destruct (app_upload_no_ids env files app_components s Hloader Hnone)
    as (s1 & Hrun & Hnone1).
  exists s1. split; [done|]. intros doc_choice Hdocs.
  unfold App.create_iep_tab, App.get_available_documents.
  unfold bind at 1. unfold emit at 1.
  unfold bind at 1. unfold bind at 1. unfold sm_get at 1, ret at 1.
  simpl.
  destruct (documents (session s1)) as [|d0 rest] eqn:Hreg; [done|].
  simpl imap.
  assert (∃ i d, default (App.available_entry 0 d0)
                   ((App.available_entry 0 d0
                     :: imap (App.available_entry ∘ S) rest) !! doc_choice)
                 = App.available_entry i d) as (i & d & ->).
  { change (App.available_entry 0 d0 :: imap (App.available_entry ∘ S) rest)
      with (imap App.available_entry (d0 :: rest)).
    rewrite list_lookup_imap.
    destruct ((d0 :: rest) !! doc_choice) as [d|]; simpl; by eexists _, _. }
  unfold bind at 1. unfold App.handle_iep_generation.
  unfold try_except, bind at 1. unfold getitem. rewrite available_entry_id.
  unfold ret at 1. unfold bind at 1.
  unfold App.get_document_by_id, bind, sm_get, ret. simpl.
  rewrite Hreg, (find_document_no_ids _ (d0 :: rest) Hnone1). simpl.
  match goal with |- context [App.display_existing_ieps env ?s0] =>
    destruct (app_display_existing_ieps_run env s0)
      as (s2 & evs & -> & Hs & Hi & He & Ht)
  end.
  exists s2, evs. split; [done|]. simpl in *.
  repeat split; try done. by rewrite Ht, <- !app_assoc.
Qed.

Lemma app_uploaded_document_cannot_be_retrieved_witness :
  ∃ s1,
    App.process_uploaded_files Sample.env [Sample.notes; Sample.report]
      (Sample.app Sample.indexing Sample.llm) initial_sys = (Ok tt, s1)
    ∧ ∀ doc_choice,
        documents (session s1) ≠ [] →
        ∃ s2 evs,
          App.create_iep_tab Sample.env doc_choice true
            (Sample.app Sample.indexing Sample.llm) s1
          = (Ok tt, s2)
          ∧ session s2 = session s1
          ∧ index s2 = index s1
          ∧ entropy s2 = entropy s1
          ∧ trace s2
            = trace s1
              ++ StMarkdown "### Document Selection"
                 :: StError "Could not retrieve document for processing."
                 :: evs.
Proof.
  apply (app_uploaded_document_cannot_be_retrieved Sample.env
           [Sample.notes; Sample.report]
           (Sample.app Sample.indexing Sample.llm) initial_sys).
  - intros file d. unfold outcome, Sample.env. simpl.
    case_bool_decide; [discriminate|].
    case_bool_decide; [discriminate|].
    by intros [= <-].
  - constructor.
Defined.

(** ** IEP generation: what is stored *)

Lemma iep_artifact_fields (a b c d e : string) :
  ({[ "id" := a; "source" := b; "source_id" := c; "content" := d;
      "timestamp" := e ]} : gmap string string) !! "content" = Some d
  ∧ ({[ "id" := a; "source" := b; "source_id" := c; "content" := d;
        "timestamp" := e ]} : gmap string string) !! "source" = Some b
  ∧ ({[ "id" := a; "source" := b; "source_id" := c; "content" := d;
        "timestamp" := e ]} : gmap string string) !! "source_id" = Some c.
Proof. repeat split; by simplify_map_eq. Qed.

Lemma display_iep_content_run (env : Collaborators)
    (iep : gmap string string) (generated source : string) (s : Sys) :
  iep !! "content" = Some generated →
  iep !! "source" = Some source →
  Iep.display_iep_content env iep s
  = (Ok tt,
     {| session := session s; index := index s;
        trace := trace s
                 ++ [ StSubheader ("IEP for " +:+ source);
                      StMarkdown generated;
                      StDownloadButton "Download IEP as Text" generated
                        ("IEP_" +:+ Py.replace_char " " "_" source +:+ "_"
                         +:+ strftime_ymd env (clock s) +:+ ".txt") ];
        clock := S (clock s); entropy := entropy s |}).
Proof.
  intros Hc Hs. unfold Iep.display_iep_content, bind, getitem, emit, now, ret.
  rewrite Hc, Hs. simpl. by rewrite <- !app_assoc.
Qed.

(** X9.  When the selected document is registered, an LLM client is
    installed and its response has content, the IEP component appends
    exactly one artifact to [iep_results]: a fresh id, the display name of
    the selected entry as source, the id of the selected document as
    [source_id], the generated content and the time of creation.  Nothing
    else of the state store changes, and the content is shown with a
    download button. *)
Theorem iep_generation_stores_artifact (env : Collaborators)
    (selected_doc : gmap string string) (app_components : AppComponents)
    (s : Sys) (llm : LlmClient) (id display_name generated : string)
    (document : Document) (response : option (gmap string string)) :
  selected_doc !! "id" = Some id →
  selected_doc !! "display_name" = Some display_name →
  DocumentUtils.find_document id (documents (session s)) = Some document →
  llm_client app_components = Some llm →
  chat_completion llm (Iep.iep_messages document) None None (entropy s)
    = Ok response →
  checked_content response = Some generated →
  ∃ s',
    Iep.handle_iep_generation env selected_doc app_components s = (Ok tt, s')
    ∧ session s'
      = kset K_iep_results
          (iep_results (session s)
           ++ [ {[ "id" := uuid4 env (S (entropy s));
                   "source" := display_name;
                   "source_id" := id;
                   "content" := generated;
                   "timestamp" := isoformat env (clock s) ]} ])
          (session s)
    ∧ index s' = index s
    ∧ trace s'
      = trace s
        ++ [ LlmRequest (Iep.iep_messages document);
             StSubheader ("IEP for " +:+ display_name);
             StMarkdown generated;
             StDownloadButton "Download IEP as Text" generated
               ("IEP_" +:+ Py.replace_char " " "_" display_name +:+ "_"
                +:+ strftime_ymd env (S (clock s)) +:+ ".txt") ].
Proof.
  intros Hid Hname Hdoc Hllm Hresp Hcontent.
  destruct (iep_artifact_fields (uuid4 env (S (entropy s))) display_name id
              generated (isoformat env (clock s))) as (Hc & Hs & _).
  pose proof (display_iep_content_run env _ generated display_name
                {| session :=
                     kset K_iep_results
                       (iep_results (session s)
                        ++ [ {[ "id" := uuid4 env (S (entropy s));
                                "source" := display_name;
                                "source_id" := id;
                                "content" := generated;
                                "timestamp" := isoformat env (clock s) ]} ])
                       (session s);
                   index := index s;
                   trace := trace s ++ [LlmRequest (Iep.iep_messages document)];
                   clock := S (clock s);
                   entropy := S (S (entropy s)) |} Hc Hs) as Hshow.
  unfold Iep.handle_iep_generation.
  unfold try_except, bind, getitem, DocumentUtils.get_document_by_id,
    call_llm, bind, sm_get, sm_append, modify_session, emit, draw, now,
    lift_res, ret.
  rewrite Hid, Hname. cbn [kget K_documents session entropy].
  rewrite Hdoc, Hllm. cbn [session entropy index trace clock].
  rewrite Hresp, Hcontent.
  cbn [session entropy index trace clock kget kset K_iep_results].
  cbn [session entropy index trace clock kget kset K_iep_results] in Hshow.
  rewrite Hshow.
  eexists. split; [reflexivity|]. cbn [session index trace].
  repeat split. by rewrite <- app_assoc.
Qed.

Lemma iep_generation_stores_artifact_witness :
  ∃ s',
    Iep.handle_iep_generation Sample.env Sample.selected_doc
      (Sample.app Sample.indexing Sample.llm) Sample.with_document
    = (Ok tt, s')
    ∧ session s'
      = kset K_iep_results
          (iep_results (session Sample.with_document)
           ++ [ {[ "id" := uuid4 Sample.env (S (entropy Sample.with_document));
                   "source" := "notes.txt";
                   "source_id" := "doc_0";
                   "content" := "generated #0";
                   "timestamp" :=
                     isoformat Sample.env (clock Sample.with_document) ]} ])
          (session Sample.with_document)
    ∧ index s' = index Sample.with_document
    ∧ trace s'
      = trace Sample.with_document
        ++ [ LlmRequest (Iep.iep_messages Sample.doc0);
             StSubheader ("IEP for " +:+ "notes.txt");
             StMarkdown "generated #0";
             StDownloadButton "Download IEP as Text" "generated #0"
               ("IEP_" +:+ Py.replace_char " " "_" "notes.txt" +:+ "_"
                +:+ strftime_ymd Sample.env (S (clock Sample.with_document))
                +:+ ".txt") ].
Proof.
  apply (iep_generation_stores_artifact Sample.env Sample.selected_doc
           (Sample.app Sample.indexing Sample.llm) Sample.with_document
           Sample.llm "doc_0" "notes.txt" "generated #0" Sample.doc0
           (Some {[ "content" := "generated #0" ]}));
    reflexivity.
Defined.

(** What one run of the IEP handler of the component does to the state. *)
Lemma iep_component_effect (env : Collaborators)
    (selected_doc : gmap string string) (app_components : AppComponents)
    (s : Sys) :
  ∃ s',
    Iep.handle_iep_generation env selected_doc app_components s = (Ok tt, s')
    ∧ index s' = index s
    ∧ (session s' = session s
       ∨ ∃ iep document id,
           session s'
           = kset K_iep_results (iep_results (session s) ++ [iep]) (session s)
           ∧ selected_doc !! "id" = Some id
           ∧ document ∈ documents (session s)
           ∧ doc_id document = Some id
           ∧ iep !! "source_id" = Some id
           ∧ is_Some (iep !! "content")).
Proof.
  unfold Iep.handle_iep_generation.
  unfold try_except, bind, getitem, DocumentUtils.get_document_by_id,
    call_llm, bind, sm_get, sm_append, modify_session, emit, draw, now,
    lift_res, ret, raise.
  destruct (selected_doc !! "id") as [id|] eqn:Hid;
    [|eexists; split; [reflexivity|]; split; [done|by left]].
  cbn [kget K_documents session entropy].
  pose proof (find_document_first id (documents (session s))) as Hfound.
  destruct (DocumentUtils.find_document id (documents (session s)))
    as [document|];
    [|eexists; split; [reflexivity|]; split; [done|by left]].
  destruct (llm_client app_components) as [llm|];
    [|eexists; split; [reflexivity|]; split; [done|by left]].
  cbn [session entropy index trace clock].
  destruct (chat_completion llm (Iep.iep_messages document) None None
              (entropy s)) as [response|e];
    [|eexists; split; [reflexivity|]; split; [done|by left]].
  destruct (checked_content response) as [generated|];
    [|eexists; split; [reflexivity|]; split; [done|by left]].
  destruct (selected_doc !! "display_name") as [display_name|];
    [|eexists; split; [reflexivity|]; split; [done|by left]].
  destruct (iep_artifact_fields (uuid4 env (S (entropy s))) display_name id
              generated (isoformat env (clock s))) as (Hc & Hs & Hsid).
  cbn [session entropy index trace clock kget kset K_iep_results].
  match goal with |- context [Iep.display_iep_content env ?iep ?s0] =>
    rewrite (display_iep_content_run env iep generated display_name s0 Hc Hs)
  end.
  eexists. split; [reflexivity|]. split; [done|]. right.
  destruct Hfound as (before & after & Hdocs & Hdid & _).
  eexists _, document, id. cbn [session].
  repeat split; try done.
  rewrite Hdocs. apply elem_of_app. right. by left.
Qed.

(** X10.  The IEP component never raises and has one effect at most: either
    the state store is exactly as before, or [iep_results] has gained one
    artifact, whose [source_id] is the id of the selected entry and of a
    document registered at that moment and which carries content.  The
    index is never touched. *)
Theorem iep_generation_effect (env : Collaborators)
    (selected_doc : gmap string string) (app_components : AppComponents)
    (s : Sys) :
  ∃ s',
    Iep.handle_iep_generation env selected_doc app_components s = (Ok tt, s')
    ∧ index s' = index s
    ∧ (session s' = session s
       ∨ ∃ iep document id,
           session s'
           = kset K_iep_results (iep_results (session s) ++ [iep]) (session s)
           ∧ selected_doc !! "id" = Some id
           ∧ document ∈ documents (session s)
           ∧ doc_id document = Some id
           ∧ iep !! "source_id" = Some id
           ∧ is_Some (iep !! "content")).
Proof. apply iep_component_effect. Qed.

(** ** Lesson plans: what is stored *)

(** What one run of the lesson-plan handler of the component does to the
    state. *)
Lemma lesson_plan_component_effect (env : Collaborators)
    (subject grade_level timeframe duration : string)
    (days_per_week : list string)
    (specific_goals materials additional_accommodations : string)
    (selected_iep_id : string) (app_components : AppComponents) (s : Sys) :
  ∃ s',
     LessonPlan.handle_lesson_plan_generation env subject grade_level
       timeframe duration days_per_week specific_goals materials
       additional_accommodations selected_iep_id app_components s
     = (Ok tt, s')
     ∧ index s' = index s
     ∧ (session s' = session s
        ∨ ∃ plan iep,
            session s'
            = kset K_current_plan (Some plan)
                (kset K_lesson_plans (lesson_plans (session s) ++ [plan])
                   (session s))
            ∧ iep ∈ iep_results (session s)
            ∧ iep !! "id" = Some selected_iep_id
            ∧ plan !! "source_iep_id" = Some (VStr selected_iep_id)
            ∧ plan !! "days" = Some (VList days_per_week)
            ∧ is_Some (plan !! "content")).
Proof.
  unfold LessonPlan.handle_lesson_plan_generation.
  unfold try_except, bind, sm_get, lift_res. simpl.
  destruct (find_iep selected_iep_id (iep_results (session s)))
    as [selected|e] eqn:Hfind; simpl;
    [|eexists; split; [reflexivity|]; split; [done|by left]].
  destruct selected as [iep|]; simpl;
    [|eexists; split; [reflexivity|]; split; [done|by left]].
  apply find_iep_present in Hfind as [Hin Hid].
  case_bool_decide; simpl;
    [eexists; split; [reflexivity|]; split; [done|by left]|].
  destruct (llm_client app_components) as [llm|]; simpl;
    [|eexists; split; [reflexivity|]; split; [done|by left]].
  destruct (LessonPlan.prepare_lesson_plan_prompt _ _ _ _ _ _ _ _ _)
    as [prompt|e]; simpl;
    [|eexists; split; [reflexivity|]; split; [done|by left]].
  unfold call_llm, bind, emit, draw, lift_res. simpl.
  destruct (chat_completion llm _ _ _ _) as [response|e]; simpl;
    [|eexists; split; [reflexivity|]; split; [done|by left]].
  destruct (checked_content response) as [generated|]; simpl;
    [|eexists; split; [reflexivity|]; split; [done|by left]].
  unfold getitem. destruct (iep !! "source") as [src|]; simpl;
    [|eexists; split; [reflexivity|]; split; [done|by left]].
  eexists. split; [reflexivity|]. split; [done|]. right. simpl.
  eexists _, iep. split; [reflexivity|].
  repeat split; done.
Qed.

(** The same for the single-file front end, whose plan may come from a
    pipeline. *)
Lemma lesson_plan_app_effect (env : Collaborators)
    (subject grade_level timeframe duration : string)
    (days_per_week : list string)
    (specific_goals materials additional_accommodations : string)
    (selected_iep_id : string) (app_components : AppComponents) (s : Sys) :
  ∃ s',
       App.handle_lesson_plan_generation env subject grade_level
         timeframe duration days_per_week specific_goals materials
         additional_accommodations selected_iep_id app_components s
       = (Ok tt, s')
       ∧ index s' = index s
       ∧ (session s' = session s
          ∨ ∃ plan iep,
              session s'
              = kset K_current_plan (Some plan)
                  (kset K_lesson_plans (lesson_plans (session s) ++ [plan])
                     (session s))
              ∧ iep ∈ iep_results (session s)
              ∧ iep !! "id" = Some selected_iep_id
              ∧ plan !! "source_iep_id" = Some (VStr selected_iep_id)).
Proof.
  unfold App.handle_lesson_plan_generation.
  unfold try_except, bind, sm_get, lift_res. simpl.
  destruct (find_iep selected_iep_id (iep_results (session s)))
    as [selected|e] eqn:Hfind; simpl;
    [|eexists; split; [reflexivity|]; split; [done|by left]].
  destruct selected as [iep|]; simpl;
    [|eexists; split; [reflexivity|]; split; [done|by left]].
  apply find_iep_present in Hfind as [Hin Hid].
  case_bool_decide; simpl;
    [eexists; split; [reflexivity|]; split; [done|by left]|].
  unfold getitem.
  destruct (lesson_plan_pipeline app_components) as [pipeline|]; simpl.
  + destruct (iep !! "content") as [iep_content|]; simpl;
      [|eexists; split; [reflexivity|]; split; [done|by left]].
    unfold bind, draw, lift_res. simpl.
    destruct (generate_lesson_plan pipeline _ _ _ _ _ _ _ _ _ _)
      as [plan_data|e]; simpl;
      [|eexists; split; [reflexivity|]; split; [done|by left]].
    destruct (iep !! "source") as [src|]; simpl;
      [|eexists; split; [reflexivity|]; split; [done|by left]].
    eexists. split; [reflexivity|]. split; [done|]. right. simpl.
    eexists _, iep. split; [reflexivity|].
    repeat split; try done.
    by rewrite lookup_insert_ne, lookup_insert_eq.
  + destruct (llm_client app_components) as [llm|]; simpl;
      [|eexists; split; [reflexivity|]; split; [done|by left]].
    destruct (iep !! "content") as [iep_content|]; simpl;
      [|eexists; split; [reflexivity|]; split; [done|by left]].
    unfold call_llm, bind, emit, draw, lift_res. simpl.
    destruct (chat_completion llm _ _ _ _) as [response|e]; simpl;
      [|eexists; split; [reflexivity|]; split; [done|by left]].
    destruct (checked_content response) as [generated|]; simpl;
      [|eexists; split; [reflexivity|]; split; [done|by left]].
    destruct (iep !! "source") as [src|]; simpl;
      [|eexists; split; [reflexivity|]; split; [done|by left]].
    eexists. split; [reflexivity|]. split; [done|]. right. simpl.
    eexists _, iep. split; [reflexivity|].
    repeat split; done.
Qed.

(** X11.  Referential integrity at creation.  The lesson-plan handler never
    raises and has one effect at most: either the state store is exactly as
    before, or one plan has been appended to [lesson_plans] and made the
    [current_plan].  That plan's [source_iep_id] is the id asked for, an
    artifact with that id is in [iep_results] at that moment, and (in the
    component, which builds the plan itself) the plan records the days it
    was handed and carries content.  The index is never touched. *)
Theorem lesson_plan_references_existing_iep (env : Collaborators)
    (subject grade_level timeframe duration : string)
    (days_per_week : list string)
    (specific_goals materials additional_accommodations : string)
    (selected_iep_id : string) (app_components : AppComponents) (s : Sys) :
  (∃ s',
     LessonPlan.handle_lesson_plan_generation env subject grade_level
       timeframe duration days_per_week specific_goals materials
       additional_accommodations selected_iep_id app_components s
     = (Ok tt, s')
     ∧ index s' = index s
     ∧ (session s' = session s
        ∨ ∃ plan iep,
            session s'
            = kset K_current_plan (Some plan)
                (kset K_lesson_plans (lesson_plans (session s) ++ [plan])
                   (session s))
            ∧ iep ∈ iep_results (session s)
            ∧ iep !! "id" = Some selected_iep_id
            ∧ plan !! "source_iep_id" = Some (VStr selected_iep_id)
            ∧ plan !! "days" = Some (VList days_per_week)
            ∧ is_Some (plan !! "content")))
  ∧ (∃ s',
       App.handle_lesson_plan_generation env subject grade_level
         timeframe duration days_per_week specific_goals materials
         additional_accommodations selected_iep_id app_components s
       = (Ok tt, s')
       ∧ index s' = index s
       ∧ (session s' = session s
          ∨ ∃ plan iep,
              session s'
              = kset K_current_plan (Some plan)
                  (kset K_lesson_plans (lesson_plans (session s) ++ [plan])
                     (session s))
              ∧ iep ∈ iep_results (session s)
              ∧ iep !! "id" = Some selected_iep_id
              ∧ plan !! "source_iep_id" = Some (VStr selected_iep_id))).
Proof.
  split; [apply lesson_plan_component_effect|apply lesson_plan_app_effect].
Qed.

(** X12.  With the referenced IEP present (with content and source), an LLM
    client installed and a response that has content, the lesson-plan
    component stores the plan: the request parameters as given, the goals,
    materials and accommodations split into lines, the generated content,
    the id and source of the IEP, a fresh id and the creation time.  The
    same plan becomes the current plan, success is reported and the run is
    restarted. *)
Theorem lesson_plan_generation_stores_plan (env : Collaborators)
    (subject grade_level timeframe duration : string)
    (days_per_week : list string)
    (specific_goals materials additional_accommodations : string)
    (selected_iep_id : string) (app_components : AppComponents) (s : Sys)
    (iep : gmap string string) (iep_content iep_source generated : string)
    (llm : LlmClient) (response : option (gmap string string)) :
  find_iep selected_iep_id (iep_results (session s)) = Ok (Some iep) →
  iep !! "content" = Some iep_content →
  iep !! "source" = Some iep_source →
  llm_client app_components = Some llm →
  chat_completion llm
    [ {| cm_role := "system"; cm_content := lesson_plan_system_prompt |};
      {| cm_role := "user";
         cm_content :=
           prompt_text "    " subject grade_level timeframe duration
             days_per_week (goals_of specific_goals)
             (lines_or_empty materials)
             (lines_or_empty additional_accommodations) iep_content |} ]
    (Some (7 # 10)%Q) (Some 4000) (entropy s) = Ok response →
  checked_content response = Some generated →
  ∃ s' plan,
    LessonPlan.handle_lesson_plan_generation env subject grade_level
      timeframe duration days_per_week specific_goals materials
      additional_accommodations selected_iep_id app_components s
    = (Ok tt, s')
    ∧ plan
      = {[ "id" := VStr (uuid4 env (S (entropy s)));
           "subject" := VStr subject;
           "grade_level" := VStr grade_level;
           "duration" := VStr duration;
           "timeframe" := VStr timeframe;
           "days" := VList days_per_week;
           "specific_goals" := VList (goals_of specific_goals);
           "materials" := VList (lines_or_empty materials);
           "additional_accommodations" :=
             VList (lines_or_empty additional_accommodations);
           "content" := VStr generated;
           "source_iep_id" := VStr selected_iep_id;
           "source_iep_source" := VStr iep_source;
           "timestamp" := VStr (isoformat env (clock s)) ]}
    ∧ session s'
      = kset K_current_plan (Some plan)
          (kset K_lesson_plans (lesson_plans (session s) ++ [plan])
             (session s))
    ∧ said (LessonPlan.handle_lesson_plan_generation env subject grade_level
              timeframe duration days_per_week specific_goals materials
              additional_accommodations selected_iep_id app_components) s
      = [ LlmRequest
            [ {| cm_role := "system";
                 cm_content := lesson_plan_system_prompt |};
              {| cm_role := "user";
                 cm_content :=
                   prompt_text "    " subject grade_level timeframe duration
                     days_per_week (goals_of specific_goals)
                     (lines_or_empty materials)
                     (lines_or_empty additional_accommodations)
                     iep_content |} ];
          StSuccess "Lesson plan generated successfully!";
          StRerun ].
Proof.
  intros Hfind Hcontent Hsource Hllm Hresp Hgen.
  pose proof (found_present _ _ _ Hfind) as Hfound.
  unfold said, LessonPlan.handle_lesson_plan_generation.
  unfold try_except, bind, sm_get, lift_res, found. simpl.
  rewrite Hfind. simpl. rewrite (bool_decide_eq_false_2 _ Hfound), Hllm.
  unfold LessonPlan.prepare_lesson_plan_prompt. rewrite Hcontent.
  unfold call_llm, bind, emit, draw, lift_res. simpl.
  rewrite Hresp. simpl. rewrite Hgen.
  unfold getitem. rewrite Hsource. simpl.
  eexists _, _. split; [reflexivity|]. split; [reflexivity|].
  split; [reflexivity|]. by rewrite <- !app_assoc, drop_app_length.
Qed.

Lemma lesson_plan_generation_stores_plan_witness :
  ∃ s' plan,
    LessonPlan.handle_lesson_plan_generation Sample.env "Reading" "3rd Grade"
      "Weekly" "45 minutes" ["Monday"; "Wednesday"; "Friday"]
      "Improve reading fluency" "" "" "iep-1"
      (Sample.app Sample.indexing Sample.llm) Sample.with_iep
    = (Ok tt, s')
    ∧ plan
      = {[ "id" := VStr (uuid4 Sample.env (S (entropy Sample.with_iep)));
           "subject" := VStr "Reading";
           "grade_level" := VStr "3rd Grade";
           "duration" := VStr "45 minutes";
           "timeframe" := VStr "Weekly";
           "days" := VList ["Monday"; "Wednesday"; "Friday"];
           "specific_goals" := VList (goals_of "Improve reading fluency");
           "materials" := VList (lines_or_empty "");
           "additional_accommodations" := VList (lines_or_empty "");
           "content" := VStr "generated #0";
           "source_iep_id" := VStr "iep-1";
           "source_iep_source" := VStr "notes.txt";
           "timestamp" := VStr (isoformat Sample.env (clock Sample.with_iep)) ]}
    ∧ session s'
      = kset K_current_plan (Some plan)
          (kset K_lesson_plans
             (lesson_plans (session Sample.with_iep) ++ [plan])
             (session Sample.with_iep))
    ∧ said (LessonPlan.handle_lesson_plan_generation Sample.env "Reading"
              "3rd Grade" "Weekly" "45 minutes"
              ["Monday"; "Wednesday"; "Friday"] "Improve reading fluency"
              "" "" "iep-1" (Sample.app Sample.indexing Sample.llm))
         Sample.with_iep
      = [ LlmRequest
            [ {| cm_role := "system";
                 cm_content := lesson_plan_system_prompt |};
              {| cm_role := "user";
                 cm_content :=
                   prompt_text "    " "Reading" "3rd Grade" "Weekly"
                     "45 minutes" ["Monday"; "Wednesday"; "Friday"]
                     (goals_of "Improve reading fluency")
                     (lines_or_empty "") (lines_or_empty "")
                     "Student reads at grade 2 level" |} ];
          StSuccess "Lesson plan generated successfully!";
          StRerun ].
Proof.
  apply (lesson_plan_generation_stores_plan Sample.env "Reading" "3rd Grade"
           "Weekly" "45 minutes" ["Monday"; "Wednesday"; "Friday"]
           "Improve reading fluency" "" "" "iep-1"
           (Sample.app Sample.indexing Sample.llm) Sample.with_iep
           Sample.iep "Student reads at grade 2 level" "notes.txt"
           "generated #0" Sample.llm
           (Some {[ "content" := "generated #0" ]}));
    reflexivity.
Defined.

(** ** The lesson-plan form *)

Lemma iep_ids_total (ieps : list (gmap string string)) :
  (∀ iep, iep ∈ ieps → is_Some (iep !! "id")) →
  ∃ ids, iep_ids ieps = Ok ids ∧ length ids = length ieps.
Proof.
  induction ieps as [|iep rest IH]; intros Hall; simpl; [by exists []|].
  destruct (Hall iep) as [i ->]; [by left|].
  destruct IH as (ids & -> & Hlen); [intros x Hx; apply Hall; by right|].
  exists (i :: ids). simpl. by rewrite Hlen.
Qed.

Lemma iep_ids_find (ieps : list (gmap string string)) (ids : list string)
    (id : string) :
  iep_ids ieps = Ok ids → id ∈ ids →
  ∃ iep, find_iep id ieps = Ok (Some iep).
Proof.
  revert ids. induction ieps as [|iep rest IH]; intros ids; simpl.
  - intros [= <-] Hin. by apply elem_of_nil in Hin.
  - destruct (iep !! "id") as [i|]; [|discriminate].
    destruct (iep_ids rest) as [l|e] eqn:Hrest; [|discriminate].
    intros [= <-] Hin. case_bool_decide as Heq; [by eexists|].
    apply elem_of_cons in Hin as [->|Hin]; [done|].
    by apply (IH l).
Qed.

Lemma selectbox_elem_of (options : list string) (choice : nat) (o : string) :
  selectbox options choice = Some o → o ∈ options.
Proof.
  unfold selectbox. destruct (options !! choice) as [x|] eqn:Hx.
  - intros [= <-]. by eapply list_elem_of_lookup_2.
  - destruct options as [|x rest]; simpl; [discriminate|].
    intros [= <-]. by left.
Qed.

Lemma selectbox_none (options : list string) (choice : nat) :
  selectbox options choice = None → options = [].
Proof.
  unfold selectbox. destruct (options !! choice); [discriminate|].
  by destruct options.
Qed.

(** What both front ends make of a submitted form that lacks a required
    entry. *)
Lemma incomplete_form_run (env : Collaborators)
    (form : LessonPlanForm) (app_components : AppComponents) (s : Sys) :
  generate_button form = true →
  artifacts_labelled s →
  f_subject form = "" ∨ f_grade_level form = "" ∨ f_duration form = ""
  ∨ f_specific_goals form = "" ∨ iep_results (session s) = [] →
  let notice :=
    (if bool_decide (iep_results (session s) = [])
     then [StError "No IEPs available. Please generate an IEP first."]
     else [])
    ++ [ StMarkdown "*Required fields";
         StError "Please fill in all required fields." ] in
  LessonPlan.render_lesson_plan_form env form app_components s
  = (Ok tt, with_events notice s)
  ∧ App.create_lesson_plan_tab env form app_components s
    = (Ok tt, with_events notice s).
Proof.
  intros Hbtn Hlab Hmissing notice. subst notice.
  unfold LessonPlan.render_lesson_plan_form, App.create_lesson_plan_tab,
    LessonPlan.required_filled.
  rewrite Hbtn. unfold bind, sm_get, emit, ret, lift_res, with_events.
  cbn [kget K_iep_results session trace index clock entropy].
  destruct (iep_results (session s)) as [|iep rest] eqn:Hieps.
  - rewrite bool_decide_eq_true_2 by done.
    cbn [Py.truthy_opt Py.all forallb id].
    rewrite !andb_false_r. simpl. by rewrite <- !app_assoc.
  - rewrite bool_decide_eq_false_2 by done.
    destruct (iep_ids_total (iep :: rest)) as (ids & Hids & Hlen).
    { intros x Hx. apply Hlab. by rewrite Hieps. }
    rewrite Hids. cbn [trace session index clock entropy].
    assert (Py.all [ Py.truthy (f_subject form); Py.truthy (f_grade_level form);
                     Py.truthy (f_duration form);
                     Py.truthy (f_specific_goals form);
                     Py.truthy_opt (selectbox ids (iep_choice form)) ] = false)
      as ->.
    { destruct Hmissing as [->|[->|[->|[->|?]]]]; [..|done];
        cbn [Py.all forallb id Py.truthy]; by rewrite ?andb_false_r. }
    simpl. by rewrite <- !app_assoc.
Qed.

(** X13.  A submitted lesson-plan form with an empty required field
    (subject, grade level, duration or learning goals), or submitted while
    no IEP exists, is turned down in both front ends: the run completes,
    its last report is "Please fill in all required fields.", no generation
    request is made, and the state store, the index, the clock and the
    randomness are as before.  The stored artifacts are taken to carry an
    id and a source, as the ones the handlers create do: the select box
    reads both. *)
Theorem incomplete_form_is_rejected (env : Collaborators)
    (form : LessonPlanForm) (app_components : AppComponents) (s : Sys) :
  generate_button form = true →
  artifacts_labelled s →
  f_subject form = "" ∨ f_grade_level form = "" ∨ f_duration form = ""
  ∨ f_specific_goals form = "" ∨ iep_results (session s) = [] →
  (∃ evs,
     LessonPlan.render_lesson_plan_form env form app_components s
     = (Ok tt, with_events evs s)
     ∧ last evs = Some (StError "Please fill in all required fields.")
     ∧ requests evs = [])
  ∧ (∃ evs,
       App.create_lesson_plan_tab env form app_components s
       = (Ok tt, with_events evs s)
       ∧ last evs = Some (StError "Please fill in all required fields.")
       ∧ requests evs = []).
Proof.
  intros Hbtn Hlab Hmissing.
  destruct (incomplete_form_run env form app_components s Hbtn Hlab Hmissing)
    as [Hcomponent Happ].
  split; eexists; (split; [eassumption|]); by case_bool_decide.
Qed.

Lemma incomplete_form_is_rejected_witness :
  (∃ evs,
     LessonPlan.render_lesson_plan_form Sample.env
       (mkLessonPlanForm "" "3rd Grade" Daily "45 minutes" []
          "Improve reading fluency" "" "" 0 true)
       (Sample.app Sample.indexing Sample.llm) Sample.with_iep
     = (Ok tt, with_events evs Sample.with_iep)
     ∧ last evs = Some (StError "Please fill in all required fields.")
     ∧ requests evs = [])
  ∧ (∃ evs,
       App.create_lesson_plan_tab Sample.env
         (mkLessonPlanForm "" "3rd Grade" Daily "45 minutes" []
            "Improve reading fluency" "" "" 0 true)
         (Sample.app Sample.indexing Sample.llm) Sample.with_iep
       = (Ok tt, with_events evs Sample.with_iep)
       ∧ last evs = Some (StError "Please fill in all required fields.")
       ∧ requests evs = []).
Proof.
  apply (incomplete_form_is_rejected Sample.env
           (mkLessonPlanForm "" "3rd Grade" Daily "45 minutes" []
              "Improve reading fluency" "" "" 0 true)
           (Sample.app Sample.indexing Sample.llm) Sample.with_iep).
  - reflexivity.
  - intros iep Hin. apply list_elem_of_singleton in Hin as ->.
    split; eexists; reflexivity.
  - left. reflexivity.
Defined.

Lemma lesson_plan_found_events (env : Collaborators)
    (subject grade_level timeframe duration : string)
    (days_per_week : list string)
    (specific_goals materials additional_accommodations : string)
    (selected_iep_id : string) (app_components : AppComponents) (s : Sys)
    (iep : gmap string string) :
  find_iep selected_iep_id (iep_results (session s)) = Ok (Some iep) →
  (∃ s' evs,
     LessonPlan.handle_lesson_plan_generation env subject grade_level
       timeframe duration days_per_week specific_goals materials
       additional_accommodations selected_iep_id app_components s
     = (Ok tt, s')
     ∧ trace s' = trace s ++ evs
     ∧ ¬ (StError "Selected IEP not found." ∈ evs))
  ∧ (∃ s' evs,
       App.handle_lesson_plan_generation env subject grade_level
         timeframe duration days_per_week specific_goals materials
         additional_accommodations selected_iep_id app_components s
       = (Ok tt, s')
       ∧ trace s' = trace s ++ evs
       ∧ ¬ (StError "Selected IEP not found." ∈ evs)).
Proof.
  intros Hfind. pose proof (found_present _ _ _ Hfind) as Hne. split.
  - unfold LessonPlan.handle_lesson_plan_generation.
    unfold try_except, bind, sm_get, lift_res, found. simpl.
    rewrite Hfind. simpl. rewrite (bool_decide_eq_false_2 _ Hne).
    destruct (llm_client app_components) as [llm|]; simpl;
      [|closes_quietly].
    destruct (LessonPlan.prepare_lesson_plan_prompt _ _ _ _ _ _ _ _ _)
      as [prompt|e]; simpl; [|closes_quietly].
    unfold call_llm, bind, emit, draw, lift_res. simpl.
    destruct (chat_completion llm _ _ _ _) as [response|e]; simpl;
      [|closes_quietly].
    destruct (checked_content response) as [generated|]; simpl;
      [|closes_quietly].
    unfold getitem. destruct (iep !! "source") as [src|]; simpl;
      closes_quietly.
  - unfold App.handle_lesson_plan_generation.
    unfold try_except, bind, sm_get, lift_res, found. simpl.
    rewrite Hfind. simpl. rewrite (bool_decide_eq_false_2 _ Hne).
    unfold getitem.
    destruct (lesson_plan_pipeline app_components) as [pipeline|]; simpl.
    + destruct (iep !! "content") as [iep_content|]; simpl;
        [|closes_quietly].
      unfold bind, draw, lift_res. simpl.
      destruct (generate_lesson_plan pipeline _ _ _ _ _ _ _ _ _ _)
        as [plan_data|e]; simpl; [|closes_quietly].
      destruct (iep !! "source") as [src|]; simpl; closes_quietly.
    + destruct (llm_client app_components) as [llm|]; simpl;
        [|closes_quietly].
      destruct (iep !! "content") as [iep_content|]; simpl;
        [|closes_quietly].
      unfold call_llm, bind, emit, draw, lift_res. simpl.
      destruct (chat_completion llm _ _ _ _) as [response|e]; simpl;
        [|closes_quietly].
      destruct (checked_content response) as [generated|]; simpl;
        [|closes_quietly].
      destruct (iep !! "source") as [src|]; simpl; closes_quietly.
Qed.

Lemma said_after {A} (m : M A) (s s' : Sys) (r : Res A) (evs : list Event) :
  m s = (r, s') → trace s' = trace s ++ evs → said m s = evs.
Proof.
  intros Hm Ht. unfold said. rewrite Hm. simpl.
  by rewrite Ht, drop_app_length.
Qed.

Lemma truthy_opt_some (o : option string) :
  Py.truthy_opt o = true → ∃ x, o = Some x.
Proof. destruct o; [by eexists|discriminate]. Qed.

(** X14.  The id submitted by the form is always the id of a stored IEP:
    the select box offers the ids of [iep_results] only.  So whatever the
    form holds, neither front end ever answers a form with "Selected IEP
    not found.". *)
Theorem form_never_selects_missing_iep (env : Collaborators)
    (form : LessonPlanForm) (app_components : AppComponents) (s : Sys) :
  ¬ (StError "Selected IEP not found."
     ∈ said (LessonPlan.render_lesson_plan_form env form app_components) s)
  ∧ ¬ (StError "Selected IEP not found."
       ∈ said (App.create_lesson_plan_tab env form app_components) s).
Proof.
  assert (∀ evs : list Event,
            evs = [] ∨ (∃ a, evs = [a] ∧ a ≠ StError "Selected IEP not found.")
            ∨ (∃ a b, evs = [a; b] ∧ a ≠ StError "Selected IEP not found."
                      ∧ b ≠ StError "Selected IEP not found.")
            ∨ (∃ a b c, evs = [a; b; c]
                        ∧ a ≠ StError "Selected IEP not found."
                        ∧ b ≠ StError "Selected IEP not found."
                        ∧ c ≠ StError "Selected IEP not found.") →
            ¬ (StError "Selected IEP not found." ∈ evs)) as Hshort.
  { intros evs [->|[(a & -> & Ha)|[(a & b & -> & Ha & Hb)
                                  |(a & b & c & -> & Ha & Hb & Hc)]]] Hin;
      repeat (apply elem_of_cons in Hin as [Hin|Hin]; [by subst|]);
      by apply elem_of_nil in Hin. }
  split.
  - unfold LessonPlan.render_lesson_plan_form, LessonPlan.required_filled.
    destruct (iep_results (session s)) as [|iep0 rest] eqn:Hieps.
    + apply Hshort. unfold said, bind, sm_get, emit, ret, lift_res.
      cbn [kget K_iep_results]. rewrite Hieps.
      cbn [Py.truthy_opt Py.all forallb id]. rewrite !andb_false_r.
      destruct (generate_button form); simpl;
        rewrite <- ?app_assoc, drop_app_length; simpl.
      * right. right. right. by eexists _, _, _.
      * right. right. left. by eexists _, _.
    + destruct (iep_ids (iep0 :: rest)) as [ids|e] eqn:Hids.
      2:{ apply Hshort. left. unfold said, bind, sm_get, lift_res.
          cbn [kget K_iep_results]. rewrite Hieps, Hids. simpl.
          by rewrite drop_all. }
      destruct (generate_button form) eqn:Hbtn.
      2:{ apply Hshort. right. left. unfold said, bind, sm_get, emit, ret,
            lift_res. cbn [kget K_iep_results]. rewrite Hieps, Hids, ?Hbtn.
          simpl. rewrite drop_app_length. by eexists. }
      destruct (Py.all [ Py.truthy (f_subject form);
                         Py.truthy (f_grade_level form);
                         Py.truthy (f_duration form);
                         Py.truthy (f_specific_goals form);
                         Py.truthy_opt (selectbox ids (iep_choice form)) ])
        eqn:Hall.
      2:{ apply Hshort. right. right. left.
          unfold said, bind, sm_get, emit, ret, lift_res.
          cbn [kget K_iep_results]. rewrite Hieps, Hids, ?Hbtn. simpl.
          unfold Py.all in Hall. simpl in Hall. rewrite Hall. simpl.
          rewrite <- ?app_assoc, drop_app_length. by eexists _, _. }
      assert (∃ id, selectbox ids (iep_choice form) = Some id)
        as [id Hsel].
      { apply truthy_opt_some. unfold Py.all in Hall. simpl in Hall.
        do 4 (apply andb_prop in Hall as [_ Hall]).
        by apply andb_prop in Hall as [Hall _]. }
      destruct (iep_ids_find (iep0 :: rest) ids id Hids
                  (selectbox_elem_of _ _ _ Hsel)) as [iep Hfind].
      set (s1 := with_events [StMarkdown "*Required fields"] s).
      destruct (lesson_plan_found_events env (f_subject form)
                  (f_grade_level form) (schedule_str (f_timeframe form))
                  (f_duration form) (LessonPlan.form_days form)
                  (f_specific_goals form) (f_materials form)
                  (f_additional_accommodations form) id app_components s1 iep)
        as [(s' & evs & Hrun & Ht & Hnot) _].
      { simpl. by rewrite Hieps. }
      erewrite said_after with (evs := StMarkdown "*Required fields" :: evs).
      * intros Hin. apply elem_of_cons in Hin as [Hin|Hin]; [discriminate|].
        by apply Hnot.
      * unfold bind, sm_get, emit, ret, lift_res.
        cbn [kget K_iep_results]. rewrite Hieps, Hids, ?Hbtn. simpl.
        unfold Py.all in Hall. simpl in Hall. rewrite Hall. rewrite Hsel.
        simpl. exact Hrun.
      * rewrite Ht. simpl. by rewrite <- app_assoc.
  - unfold App.create_lesson_plan_tab.
    destruct (iep_results (session s)) as [|iep0 rest] eqn:Hieps.
    + apply Hshort. unfold said, bind, sm_get, emit, ret, lift_res.
      cbn [kget K_iep_results]. rewrite Hieps.
      cbn [Py.truthy_opt Py.all forallb id]. rewrite !andb_false_r.
      destruct (generate_button form); simpl;
        rewrite <- ?app_assoc, drop_app_length; simpl.
      * right. right. right. by eexists _, _, _.
      * right. right. left. by eexists _, _.
    + destruct (iep_ids (iep0 :: rest)) as [ids|e] eqn:Hids.
      2:{ apply Hshort. left. unfold said, bind, sm_get, lift_res.
          cbn [kget K_iep_results]. rewrite Hieps, Hids. simpl.
          by rewrite drop_all. }
      destruct (generate_button form) eqn:Hbtn.
      2:{ apply Hshort. right. left. unfold said, bind, sm_get, emit, ret,
            lift_res. cbn [kget K_iep_results]. rewrite Hieps, Hids, ?Hbtn.
          simpl. rewrite drop_app_length. by eexists. }
      destruct (Py.all [ Py.truthy (f_subject form);
                         Py.truthy (f_grade_level form);
                         Py.truthy (f_duration form);
                         Py.truthy (f_specific_goals form);
                         Py.truthy_opt (selectbox ids (iep_choice form)) ])
        eqn:Hall.
      2:{ apply Hshort. right. right. left.
          unfold said, bind, sm_get, emit, ret, lift_res.
          cbn [kget K_iep_results]. rewrite Hieps, Hids, ?Hbtn. simpl.
          unfold Py.all in Hall. simpl in Hall. rewrite Hall. simpl.
          rewrite <- ?app_assoc, drop_app_length. by eexists _, _. }
      assert (∃ id, selectbox ids (iep_choice form) = Some id)
        as [id Hsel].
      { apply truthy_opt_some. unfold Py.all in Hall. simpl in Hall.
        do 4 (apply andb_prop in Hall as [_ Hall]).
        by apply andb_prop in Hall as [Hall _]. }
      destruct (iep_ids_find (iep0 :: rest) ids id Hids
                  (selectbox_elem_of _ _ _ Hsel)) as [iep Hfind].
      set (s1 := with_events [StMarkdown "*Required fields"] s).
      destruct (lesson_plan_found_events env (f_subject form)
                  (f_grade_level form) (schedule_str (f_timeframe form))
                  (f_duration form) (LessonPlan.form_days form)
                  (f_specific_goals form) (f_materials form)
                  (f_additional_accommodations form) id app_components s1 iep)
        as [_ (s' & evs & Hrun & Ht & Hnot)].
      { simpl. by rewrite Hieps. }
      erewrite said_after with (evs := StMarkdown "*Required fields" :: evs).
      * intros Hin. apply elem_of_cons in Hin as [Hin|Hin]; [discriminate|].
        by apply Hnot.
      * unfold bind, sm_get, emit, ret, lift_res.
        cbn [kget K_iep_results]. rewrite Hieps, Hids, ?Hbtn. simpl.
        unfold Py.all in Hall. simpl in Hall. rewrite Hall. rewrite Hsel.
        simpl. exact Hrun.
      * rewrite Ht. simpl. by rewrite <- app_assoc.
Qed.

(** ** Chat: what is answered *)

(** X15.  Without a RAG chain both front ends answer a prompt with the same
    fixed fallback reply: the user entry and the fallback are appended,
    both are shown, no chain request is made and nothing else changes. *)
Theorem chat_without_chain_answers_fallback (env : Collaborators)
    (prompt : string) (app_components : AppComponents) (s : Sys) :
  prompt ≠ "" →
  rag_chain app_components = None →
  let s' :=
    {| session :=
         kset K_messages
           (messages (session s)
            ++ [ {| role := "user"; content := prompt; sources := None |};
                 Chat.fallback_message ])
           (session s);
       index := index s;
       trace := trace s
                ++ [ StMarkdown prompt;
                     StMarkdown (content Chat.fallback_message) ];
       clock := clock s; entropy := entropy s |} in
  Chat.handle_chat_input env (Some prompt) app_components s = (Ok tt, s')
  ∧ App.create_chat_tab (Some prompt) app_components s = (Ok tt, s').
Proof.
  intros Hne Hchain s'. subst s'.
  unfold Chat.handle_chat_input, App.create_chat_tab.
  destruct prompt as [|c prompt]; [done|]. simpl Py.truthy_opt. cbv iota.
  rewrite Hchain.
  unfold try_except, bind, sm_append, modify_session, sm_get, emit, ret.
  simpl. by rewrite <- !app_assoc.
Qed.

Lemma chat_without_chain_answers_fallback_witness :
  Chat.handle_chat_input Sample.env (Some "What is an IEP?")
    (Sample.only_store Sample.indexing) initial_sys
  = (Ok tt,
     {| session :=
          kset K_messages
            [ {| role := "user"; content := "What is an IEP?";
                 sources := None |};
              Chat.fallback_message ]
            initial_session;
        index := [];
        trace := [ StMarkdown "What is an IEP?";
                   StMarkdown (content Chat.fallback_message) ];
        clock := 0; entropy := 0 |})
  ∧ App.create_chat_tab (Some "What is an IEP?")
      (Sample.only_store Sample.indexing) initial_sys
    = (Ok tt,
       {| session :=
            kset K_messages
              [ {| role := "user"; content := "What is an IEP?";
                   sources := None |};
                Chat.fallback_message ]
              initial_session;
          index := [];
          trace := [ StMarkdown "What is an IEP?";
                     StMarkdown (content Chat.fallback_message) ];
          clock := 0; entropy := 0 |}).
Proof.
  apply (chat_without_chain_answers_fallback Sample.env "What is an IEP?"
           (Sample.only_store Sample.indexing) initial_sys).
  - discriminate.
  - reflexivity.
Defined.

(** X16.  An answer of the chain is stored as it came: the reply entry
    holds the result text and the source documents of the response (none
    when the response names none), after the user entry.  The prompt, the
    request, the answer and then every source are shown, in that order.
    The component does so for a response its validator accepts; the
    single-file front end validates nothing. *)
Theorem chat_answer_is_stored_with_sources (env : Collaborators)
    (prompt : string) (app_components : AppComponents) (s : Sys)
    (chain : RagChain) (resp : RagResponse) (answer error_msg : string) :
  prompt ≠ "" →
  rag_chain app_components = Some chain →
  run chain prompt (entropy s) = Ok (Some resp) →
  result resp = Some answer →
  let reply :=
    {| role := "assistant"; content := answer;
       sources := Some (default [] (source_documents resp)) |} in
  let stored :=
    kset K_messages
      (messages (session s)
       ++ [ {| role := "user"; content := prompt; sources := None |}; reply ])
      (session s) in
  (validate_response_structure env (Some resp) = (true, error_msg) →
   ∃ s',
     Chat.handle_chat_input env (Some prompt) app_components s = (Ok tt, s')
     ∧ session s' = stored
     ∧ said (Chat.handle_chat_input env (Some prompt) app_components) s
       = [ StMarkdown prompt; ChainRequest prompt; StMarkdown answer ]
         ++ mjoin (imap (λ i doc, Chat.source_events env (S i) doc)
                     (default [] (source_documents resp))))
  ∧ (∃ s',
       App.create_chat_tab (Some prompt) app_components s = (Ok tt, s')
       ∧ session s' = stored
       ∧ said (App.create_chat_tab (Some prompt) app_components) s
         = [ StMarkdown prompt; ChainRequest prompt; StMarkdown answer ]
           ++ mjoin (imap (λ i doc, App.source_events (S i) doc)
                       (default [] (source_documents resp)))).
Proof.
  intros Hne Hchain Hrun Hresult reply stored. subst reply stored. split.
  - intros Hvalid. unfold said, Chat.handle_chat_input.
    destruct prompt as [|c prompt]; [done|]. simpl Py.truthy_opt. cbv iota.
    rewrite Hchain. unfold Chat.ask_chain.
    unfold try_except, bind, sm_append, modify_session, sm_get, emit, draw,
      lift_res, ret.
    simpl. rewrite Hrun. simpl. rewrite Hvalid, Hresult. simpl.
    destruct (default [] (source_documents resp)) as [|doc rest].
    + eexists. split; [reflexivity|]. split; [by rewrite <- app_assoc|].
      simpl. by rewrite <- !app_assoc, drop_app_length.
    + unfold Chat.display_sources. rewrite emit_all_run.
      eexists. split; [reflexivity|]. simpl.
      split; [by rewrite <- app_assoc|].
      by rewrite <- !app_assoc, drop_app_length.
  - unfold said, App.create_chat_tab.
    destruct prompt as [|c prompt]; [done|]. simpl Py.truthy_opt. cbv iota.
    rewrite Hchain.
    unfold try_except, bind, sm_append, modify_session, sm_get, emit, draw,
      lift_res, ret.
    simpl. rewrite Hrun. simpl. rewrite Hresult. simpl.
    destruct (default [] (source_documents resp)) as [|doc rest].
    + eexists. split; [reflexivity|]. split; [by rewrite <- app_assoc|].
      simpl. by rewrite <- !app_assoc, drop_app_length.
    + unfold App.display_sources. rewrite emit_all_run.
      eexists. split; [reflexivity|]. simpl.
      split; [by rewrite <- app_assoc|].
      by rewrite <- !app_assoc, drop_app_length.
Qed.

Lemma chat_answer_is_stored_with_sources_witness :
  (∃ s',
     Chat.handle_chat_input Sample.env (Some "What is an IEP?")
       (Sample.app Sample.indexing Sample.llm) initial_sys = (Ok tt, s')
     ∧ session s'
       = kset K_messages
           [ {| role := "user"; content := "What is an IEP?";
                sources := None |};
             {| role := "assistant"; content := "answer to What is an IEP?";
                sources := Some [] |} ]
           initial_session
     ∧ said (Chat.handle_chat_input Sample.env (Some "What is an IEP?")
               (Sample.app Sample.indexing Sample.llm)) initial_sys
       = [ StMarkdown "What is an IEP?"; ChainRequest "What is an IEP?";
           StMarkdown "answer to What is an IEP?" ])
  ∧ (∃ s',
       App.create_chat_tab (Some "What is an IEP?")
         (Sample.app Sample.indexing Sample.llm) initial_sys = (Ok tt, s')
       ∧ session s'
         = kset K_messages
             [ {| role := "user"; content := "What is an IEP?";
                  sources := None |};
               {| role := "assistant"; content := "answer to What is an IEP?";
                  sources := Some [] |} ]
             initial_session
       ∧ said (App.create_chat_tab (Some "What is an IEP?")
                 (Sample.app Sample.indexing Sample.llm)) initial_sys
         = [ StMarkdown "What is an IEP?"; ChainRequest "What is an IEP?";
             StMarkdown "answer to What is an IEP?" ]).
Proof.
  destruct (chat_answer_is_stored_with_sources Sample.env "What is an IEP?"
              (Sample.app Sample.indexing Sample.llm) initial_sys
              Sample.chain
              {| result := Some "answer to What is an IEP?";
                 source_documents := Some [] |}
              "answer to What is an IEP?" "")
    as [Hcomponent Happ]; [discriminate|reflexivity..|].
  split; [apply Hcomponent; reflexivity|exact Happ].
Defined.

(** X17.  A chain that raises is answered differently by the two front
    ends.  The component catches the error around the chain, logs it as an
    error in the RAG chain and replies that the question could not be
    processed and documents should be checked; the single-file front end
    logs an error generating the response and replies with its general
    error message.  Either way the user entry and one reply are stored and
    nothing else changes. *)
Theorem chat_chain_failure_is_answered (env : Collaborators)
    (prompt : string) (app_components : AppComponents) (s : Sys)
    (chain : RagChain) (e : Exn) :
  prompt ≠ "" →
  rag_chain app_components = Some chain →
  run chain prompt (entropy s) = Raise e →
  let after (log : string) (reply : Message) : Sys :=
    {| session :=
         kset K_messages
           (messages (session s)
            ++ [ {| role := "user"; content := prompt; sources := None |};
                 reply ])
           (session s);
       index := index s;
       trace := trace s
                ++ [ StMarkdown prompt; ChainRequest prompt;
                     LogError (log +:+ exn_str e);
                     StMarkdown (content reply) ];
       clock := clock s; entropy := S (entropy s) |} in
  Chat.handle_chat_input env (Some prompt) app_components s
  = (Ok tt, after "Error in RAG chain: " Chat.chain_error_message)
  ∧ App.create_chat_tab (Some prompt) app_components s
    = (Ok tt, after "Error generating response: " App.error_message).
Proof.
  intros Hne Hchain Hrun after. subst after.
  unfold Chat.handle_chat_input, App.create_chat_tab.
  destruct prompt as [|c prompt]; [done|]. simpl Py.truthy_opt. cbv iota.
  rewrite Hchain. unfold Chat.ask_chain.
  unfold try_except, bind, sm_append, modify_session, sm_get, emit, draw,
    lift_res, ret.
  simpl. rewrite Hrun. simpl. by rewrite <- !app_assoc.
Qed.

Lemma chat_chain_failure_is_answered_witness :
  Chat.handle_chat_input Sample.env (Some "What is an IEP?")
    (mkAppComponents None None
       (Some (mkRagChain (λ _ _, Raise (Exception "index not loaded"))))
       None None)
    initial_sys
  = (Ok tt,
     {| session :=
          kset K_messages
            [ {| role := "user"; content := "What is an IEP?";
                 sources := None |};
              Chat.chain_error_message ]
            initial_session;
        index := [];
        trace := [ StMarkdown "What is an IEP?";
                   ChainRequest "What is an IEP?";
                   LogError "Error in RAG chain: index not loaded";
                   StMarkdown (content Chat.chain_error_message) ];
        clock := 0; entropy := 1 |})
  ∧ App.create_chat_tab (Some "What is an IEP?")
      (mkAppComponents None None
         (Some (mkRagChain (λ _ _, Raise (Exception "index not loaded"))))
         None None)
      initial_sys
    = (Ok tt,
       {| session :=
            kset K_messages
              [ {| role := "user"; content := "What is an IEP?";
                   sources := None |};
                App.error_message ]
              initial_session;
          index := [];
          trace := [ StMarkdown "What is an IEP?";
                     ChainRequest "What is an IEP?";
                     LogError "Error generating response: index not loaded";
                     StMarkdown (content App.error_message) ];
          clock := 0; entropy := 1 |}).
Proof.
  apply (chat_chain_failure_is_answered Sample.env "What is an IEP?"
           (mkAppComponents None None
              (Some (mkRagChain (λ _ _, Raise (Exception "index not loaded"))))
              None None)
           initial_sys
           (mkRagChain (λ _ _, Raise (Exception "index not loaded")))
           (Exception "index not loaded")).
  - discriminate.
  - reflexivity.
  - reflexivity.
Defined.

Lemma shown_sources_run (display : list Document → M unit)
    (srcs : option (list Document)) (s : Sys) :
  (∀ l s0, ∃ evs, display l s0 = (Ok tt, with_events evs s0)) →
  ∃ evs,
    match srcs with
    | Some (doc :: rest) => display (doc :: rest)
    | _ => ret tt
    end s = (Ok tt, with_events evs s).
Proof.
  intros Hd. destruct srcs as [[|doc rest]|];
    try (exists []; unfold ret, with_events; rewrite app_nil_r;
         by destruct s).
  apply Hd.
Qed.

(** What one run of the chat input of the component does to the state. *)
Lemma chat_component_frame (env : Collaborators)
    (prompt : option string) (app_components : AppComponents) (s : Sys) :
  ∃ s',
    Chat.handle_chat_input env prompt app_components s = (Ok tt, s')
    ∧ session s' = kset K_messages (messages (session s')) (session s)
    ∧ messages (session s) `prefix_of` messages (session s')
    ∧ index s' = index s ∧ clock s' = clock s
    ∧ (Py.truthy_opt prompt = false → s' = s).
Proof.
  unfold Chat.handle_chat_input.
  destruct (Py.truthy_opt prompt) eqn:Htruthy.
  2:{ exists s. unfold ret. repeat split; try done; by destruct s as [[]]. }
  unfold try_except, bind at 1 2. simpl.
  match goal with |- context [bind ?m _ ?s0] =>
    assert (∃ reply s1, m s0 = (Ok reply, s1)
                        ∧ session s1 = session s0 ∧ index s1 = index s0
                        ∧ clock s1 = clock s0)
      as (reply & s1 & Hm & Hs & Hi & Hc)
  end.
  { destruct (rag_chain app_components) as [chain|]; [|by eexists _, _].
    unfold Chat.ask_chain, try_except, bind, emit, draw, lift_res. simpl.
    destruct (run chain _ (entropy s)) as [response|e]; simpl;
      [|by eexists _, _].
    destruct (validate_response_structure env response)
      as [[] error_msg]; simpl; [|by eexists _, _].
    destruct response as [resp|]; simpl; [|by eexists _, _].
    destruct (result resp) as [answer|]; simpl; by eexists _, _. }
  unfold bind at 1. rewrite Hm.
  unfold bind, sm_append, modify_session, emit. simpl.
  match goal with |- context [match sources reply with _ => _ end ?s2] =>
    destruct (shown_sources_run (Chat.display_sources env) (sources reply) s2
                (display_sources_run env)) as [evs ->]
  end.
  eexists. split; [reflexivity|]. simpl. rewrite Hs, Hi, Hc. simpl.
  repeat split; try done.
  rewrite <- app_assoc. by apply prefix_app_r.
Qed.

(** The same for the single-file front end. *)
Lemma app_chat_frame (prompt : option string)
    (app_components : AppComponents) (s : Sys) :
  ∃ s',
    App.create_chat_tab prompt app_components s = (Ok tt, s')
    ∧ session s' = kset K_messages (messages (session s')) (session s)
    ∧ messages (session s) `prefix_of` messages (session s')
    ∧ index s' = index s ∧ clock s' = clock s
    ∧ (Py.truthy_opt prompt = false → s' = s).
Proof.
  unfold App.create_chat_tab.
  destruct (Py.truthy_opt prompt) eqn:Htruthy.
  2:{ exists s. unfold ret. repeat split; try done; by destruct s as [[]]. }
  unfold try_except, bind at 1 2. simpl.
  match goal with |- context [bind ?m _ ?s0] =>
    assert (∃ r s1, m s0 = (r, s1)
                    ∧ session s1 = session s0 ∧ index s1 = index s0
                    ∧ clock s1 = clock s0)
      as (r & s1 & Hm & Hs & Hi & Hc)
  end.
  { destruct (rag_chain app_components) as [chain|]; [|by eexists _, _].
    unfold bind, emit, draw, lift_res, raise. simpl.
    destruct (run chain _ (entropy s)) as [[resp|]|e]; simpl;
      [|by eexists _, _|by eexists _, _].
    destruct (result resp) as [answer|]; simpl; by eexists _, _. }
  unfold bind at 1. rewrite Hm. destruct r as [reply|e].
  - unfold bind, sm_append, modify_session, emit. simpl.
    match goal with |- context [match sources reply with _ => _ end ?s2] =>
      destruct (shown_sources_run App.display_sources (sources reply) s2
                  app_display_sources_run) as [evs ->]
    end.
    eexists. split; [reflexivity|]. simpl. rewrite Hs, Hi, Hc. simpl.
    repeat split; try done.
    rewrite <- app_assoc. by apply prefix_app_r.
  - unfold bind, sm_append, modify_session, emit. simpl.
    eexists. split; [reflexivity|]. simpl. rewrite Hs, Hi, Hc. simpl.
    repeat split; try done.
    rewrite <- app_assoc. by apply prefix_app_r.
Qed.

(** X18.  A chat turn changes nothing but the message log: both front ends
    complete, leave the index and the clock alone and keep every other
    collection of the state store; the stored messages are kept in front of
    whatever is added.  An absent or empty prompt changes nothing at all. *)
Theorem chat_touches_messages_only (env : Collaborators)
    (prompt : option string) (app_components : AppComponents) (s : Sys) :
  (∃ s',
     Chat.handle_chat_input env prompt app_components s = (Ok tt, s')
     ∧ session s' = kset K_messages (messages (session s')) (session s)
     ∧ messages (session s) `prefix_of` messages (session s')
     ∧ index s' = index s ∧ clock s' = clock s
     ∧ (Py.truthy_opt prompt = false → s' = s))
  ∧ (∃ s',
       App.create_chat_tab prompt app_components s = (Ok tt, s')
       ∧ session s' = kset K_messages (messages (session s')) (session s)
       ∧ messages (session s) `prefix_of` messages (session s')
       ∧ index s' = index s ∧ clock s' = clock s
       ∧ (Py.truthy_opt prompt = false → s' = s)).
Proof.
  split; [apply chat_component_frame|apply app_chat_frame].
Qed.

(** ** The status panel *)

Lemma forallb_count_pos {A} (p : A → bool) (x : A) (l : list A) :
  forallb p (x :: l) = true → (0 <? count_where p (x :: l))%nat = true.
Proof.
  intros Hall. rewrite count_where_all; [done|].
  apply Forall_forall. intros y Hy. rewrite forallb_forall in Hall.
  apply Hall. by apply list_elem_of_In.
Qed.

Lemma with_events_twice (evs1 evs2 : list Event) (s : Sys) :
  with_events evs2 (with_events evs1 s) = with_events (evs1 ++ evs2) s.
Proof. unfold with_events. cbn [session index trace clock entropy].
  by rewrite app_assoc. Qed.

Lemma emit_run (ev : Event) (s : Sys) : emit ev s = (Ok tt, with_events [ev] s).
Proof. done. Qed.

(** The status panel writes its heading and one line per component, and
    changes nothing. *)
Lemma status_panel_run (app_components : AppComponents) (s : Sys) :
  SidebarPanel.render_system_status app_components s
  = (Ok tt,
     with_events (StWrite "### System Components Status"
                  :: (App.status_line <$> App.status_components (session s)))
       s)
  ∧ App.display_system_status app_components s
    = (Ok tt,
       with_events (StWrite "### System Components Status"
                    :: (App.status_line <$> App.status_components (session s)))
         s).
Proof.
  unfold SidebarPanel.render_system_status, App.display_system_status.
  unfold bind at 1 2 3 4. rewrite !emit_run, !emit_all_run.
  by rewrite !with_events_twice.
Qed.

(** X19.  After an upload (vector store installed, uploader not empty,
    clear button not pressed) the status panel of the same run tells what
    the batch made of the state.  The "Vector Store" line is OK exactly
    when every file of the batch succeeded or the flag was set before; the
    "Document Count" line is OK as soon as one document is registered,
    indexed or not.  The other two lines stand as the flags were. *)
Theorem status_follows_upload (env : Collaborators)
    (files : list UploadedFile) (app_components : AppComponents)
    (vs : VectorStore) (s : Sys) :
  vector_store app_components = Some vs →
  files ≠ [] →
  ∃ s' evs,
    SidebarPanel.render_sidebar env files false app_components s = (Ok tt, s')
    ∧ trace s'
      = trace s ++ evs
        ++ [ StWrite "### System Components Status";
             App.status_line
               ("LLM Client",
                default false (system_state (session s) !! "llm_initialized"));
             App.status_line
               ("Vector Store",
                forallb (succeeds env vs) files
                || default false
                     (system_state (session s) !! "vector_store_initialized"));
             App.status_line
               ("RAG Chain",
                default false
                  (system_state (session s) !! "chain_initialized"));
             App.status_line
               ("Document Count",
                (0 <? length (documents (session s))
                      + count_where (extracted env) files)%nat) ].
Proof.
  intros Hvs Hfiles. destruct files as [|file rest]; [done|].
  unfold SidebarPanel.render_sidebar. cbv iota.
  assert (∀ p : UploadedFile → bool,
            forallb p (file :: rest) = true →
            (0 <? count_where p (file :: rest))%nat = true) as Hpos
    by (intros p; apply forallb_count_pos).
  remember (file :: rest) as files eqn:Hf. clear Hf.
  unfold Sidebar.process_uploaded_files. rewrite Hvs.
  unfold bind at 1 2. unfold emit at 1. unfold bind at 1.
  match goal with |- context [Sidebar.process_files env vs files ?a ?s0] =>
    destruct (sidebar_process_files_summary env vs files a s0)
      as (s1 & evs1 & Hrun & _ & _ & _ & _ & Hlen);
    destruct (sidebar_process_files_effect env vs files a s0)
      as (acc' & new_docs & new_idx & evs & Hrun' & _)
  end.
  rewrite Hrun' in Hrun. injection Hrun as -> <-. rewrite Hrun'.
  cbn [fst snd andb Nat.add].
  cbn [ingested session documents kset K_documents] in Hlen.
  destruct (forallb (succeeds env vs) files) eqn:Hall.
  - rewrite (Hpos _ Hall). cbn [andb].
    unfold bind at 1 2 3 4. unfold sm_set, update_system_state.
    unfold modify_session at 1. rewrite emit_run.
    unfold modify_session at 1. rewrite emit_run.
    unfold sm_get.
    cbn [with_events ingested session index trace clock entropy kget kset
         K_documents_processed K_documents K_system_state andb
         documents_processed].
    match goal with
      |- context [SidebarPanel.render_system_status app_components ?s0] =>
        destruct (status_panel_run app_components s0) as [-> _]
    end.
    eexists _, (StWrite "### Processing Files" :: evs ++ [_; TempCleanup]).
    split; [reflexivity|].
    unfold App.status_components.
    cbn [with_events ingested session index trace clock entropy kget kset
         K_documents_processed K_documents K_system_state system_state
         documents fmap list_fmap orb].
    rewrite Hlen.
    rewrite !(lookup_union_r _ _ "llm_initialized") by done.
    rewrite !(lookup_union_r _ _ "chain_initialized") by done.
    rewrite (lookup_union_l' _ _ "vector_store_initialized")
      by (by eexists).
    rewrite lookup_singleton_eq. cbn [default].
    do 2 (rewrite <- ?app_assoc; cbn [app]). reflexivity.
  - cbn [andb].
    destruct (0 <? count_where (succeeds env vs) files)%nat;
      unfold bind at 1 2; rewrite !emit_run; unfold sm_get;
      cbn [with_events ingested session index trace clock entropy kget kset
           K_documents_processed K_documents andb documents_processed];
      rewrite andb_false_r;
      match goal with
      |- context [SidebarPanel.render_system_status app_components ?s0] =>
        destruct (status_panel_run app_components s0) as [-> _]
      end;
      (eexists _, (StWrite "### Processing Files" :: evs ++ [_; TempCleanup]);
       split; [reflexivity|]);
      unfold App.status_components;
      cbn [with_events ingested session index trace clock entropy kget kset
           K_documents_processed K_documents K_system_state system_state
           documents fmap list_fmap orb];
      rewrite Hlen; do 2 (rewrite <- ?app_assoc; cbn [app]); reflexivity.
Qed.

Lemma status_follows_upload_witness :
  ∃ s' evs,
    SidebarPanel.render_sidebar Sample.env [Sample.notes; Sample.broken]
      false (Sample.only_store Sample.indexing) initial_sys = (Ok tt, s')
    ∧ trace s'
      = trace initial_sys ++ evs
        ++ [ StWrite "### System Components Status";
             StError "❌ LLM Client: Failed";
             StError "❌ Vector Store: Failed";
             StError "❌ RAG Chain: Failed";
             StSuccess "✅ Document Count: OK" ].
Proof.
  apply (status_follows_upload Sample.env [Sample.notes; Sample.broken]
           (Sample.only_store Sample.indexing) Sample.indexing initial_sys).
  - reflexivity.
  - discriminate.
Defined.

Lemma cleared_state (app_components : AppComponents) (s : Sys) :
  (App.clear_documents app_components s).2
  = (Sidebar.clear_documents app_components s).2
  ∧ documents_processed
      (session (Sidebar.clear_documents app_components s).2) = false
  ∧ documents (session (Sidebar.clear_documents app_components s).2) = []
  ∧ system_state (session (Sidebar.clear_documents app_components s).2)
    = {[ "vector_store_initialized" := false ]} ∪ system_state (session s).
Proof.
  unfold App.clear_documents, Sidebar.clear_documents.
  by destruct (vector_store app_components).
Qed.

Lemma idle_sidebar_run (env : Collaborators) (clear_clicked : bool)
    (app_components : AppComponents) (s : Sys) :
  documents_processed (session s) = false →
  SidebarPanel.render_sidebar env [] clear_clicked app_components s
  = (Ok tt,
     with_events (StWrite "### System Components Status"
                  :: (App.status_line <$> App.status_components (session s)))
       s)
  ∧ App.create_sidebar env [] clear_clicked app_components s
    = (Ok tt,
       with_events (StWrite "### System Components Status"
                    :: (App.status_line <$> App.status_components (session s)))
         s).
Proof.
  intros Hnot. unfold SidebarPanel.render_sidebar, App.create_sidebar.
  unfold bind, ret, sm_get. cbn [kget K_documents_processed].
  rewrite Hnot. cbn [andb]. apply status_panel_run.
Qed.

(** X20.  Clearing resets what the status panel reports.  On the run after
    "Clear Documents", with nothing uploaded, the clear button is no longer
    offered (pressing it has no effect) and the panel reports the vector
    store and the document count as failed, even though the vector store
    itself is still installed; the LLM and chain lines stand as the flags
    were.  The run changes nothing.  Both front ends agree. *)
Theorem status_after_clear (env : Collaborators) (clear_clicked : bool)
    (app_components : AppComponents) (s : Sys) :
  let panel :=
    [ StWrite "### System Components Status";
      App.status_line
        ("LLM Client",
         default false (system_state (session s) !! "llm_initialized"));
      StError "❌ Vector Store: Failed";
      App.status_line
        ("RAG Chain",
         default false (system_state (session s) !! "chain_initialized"));
      StError "❌ Document Count: Failed" ] in
  let cleared := (Sidebar.clear_documents app_components s).2 in
  SidebarPanel.render_sidebar env [] clear_clicked app_components cleared
  = (Ok tt, with_events panel cleared)
  ∧ App.create_sidebar env [] clear_clicked app_components
      (App.clear_documents app_components s).2
    = (Ok tt, with_events panel (App.clear_documents app_components s).2).
Proof.
  intros panel cleared. subst panel cleared.
  destruct (cleared_state app_components s) as (-> & Hnot & Hdocs & Hflags).
  destruct (idle_sidebar_run env clear_clicked app_components _ Hnot)
    as [-> ->].
  unfold App.status_components. rewrite Hdocs, Hflags.
  rewrite !(lookup_union_r _ _ "llm_initialized") by done.
  rewrite !(lookup_union_r _ _ "chain_initialized") by done.
  rewrite (lookup_union_l' _ _ "vector_store_initialized")
    by (by eexists).
  by rewrite lookup_singleton_eq.
Qed.

(** ** Document previews *)

Lemma take_length (n : nat) (s : string) :
  String.length (Py.take n s) = n `min` String.length s.
Proof.
  revert s. induction n as [|n IH]; intros [|c s]; simpl; try done.
  by rewrite IH.
Qed.

Lemma string_app_length (s1 s2 : string) :
  String.length (s1 +:+ s2) = String.length s1 + String.length s2.
Proof. induction s1 as [|c s1 IH]; simpl; [done|]. by rewrite IH. Qed.

Lemma take_app_exact (s1 s2 : string) :
  Py.take (String.length s1) (s1 +:+ s2) = s1.
Proof. induction s1 as [|c s1 IH]; simpl; [by destruct s2|]. by rewrite IH. Qed.

Lemma take_all (n : nat) (s : string) :
  (String.length s ≤ n)%nat → Py.take n s = s.
Proof.
  revert s. induction n as [|n IH]; intros [|c s]; simpl; try done; [lia|].
  intros Hle. rewrite IH; [done|lia].
Qed.

Lemma take_take (n : nat) (s : string) : Py.take n (Py.take n s) = Py.take n s.
Proof.
  revert s. induction n as [|n IH]; intros [|c s]; simpl; try done.
  by rewrite IH.
Qed.

(** X21.  A preview is the content itself when that has at most
    [max_length] characters, and otherwise its first [max_length]
    characters followed by three dots: it never has more than [max_length +
    3] characters and its first [max_length] characters are always those of
    the content. *)
Theorem preview_is_bounded_prefix (document : Document) (max_length : nat) :
  let content := page_content document in
  let preview := DocumentUtils.format_document_preview document max_length in
  (if (String.length content <=? max_length)%nat
   then preview = content
   else String.length preview = max_length + 3)
  ∧ (String.length preview ≤ max_length + 3)%nat
  ∧ Py.take max_length preview = Py.take max_length content.
Proof.
  intros content preview. subst content preview.
  unfold DocumentUtils.format_document_preview. cbv zeta.
  destruct (Nat.ltb_spec max_length (String.length (page_content document)))
    as [Hlong|Hshort].
  - rewrite (proj2 (Nat.leb_gt _ _) Hlong).
    rewrite string_app_length, take_length. simpl String.length.
    split; [lia|]. split; [lia|].
    replace max_length
      with (String.length (Py.take max_length (page_content document))) at 1
      by (rewrite take_length; lia).
    by rewrite take_app_exact.
  - rewrite (proj2 (Nat.leb_le _ _) Hshort).
    split; [done|]. split; [lia|done].
Qed.

(** ** Accommodation categories *)

Lemma category_in_listed (table : list (string * list string))
    (lowered cat : string) :
  Visualization.category_in table lowered = Some cat → cat ∈ table.*1.
Proof.
  induction table as [|[c keywords] rest IH]; simpl; [discriminate|].
  destruct (Py.any _).
  - intros [= <-]. by left.
  - intros H. right. by apply IH.
Qed.

Lemma count_loop (accommodations : list string) (m : gmap string nat)
    (n : nat) :
  (foldl Visualization.count_step (m, n) accommodations).2
  = n + count_where
          (λ a, bool_decide (Visualization.category_of a = None))
          accommodations
  ∧ ∀ cat k, m !! cat = Some k →
      (foldl Visualization.count_step (m, n) accommodations).1 !! cat
      = Some (k + count_where
                    (λ a, bool_decide (Visualization.category_of a = Some cat))
                    accommodations).
Proof.
  revert m n. induction accommodations as [|a rest IH]; intros m n.
  - simpl. split; [by rewrite Nat.add_0_r|].
    intros cat k ->. by rewrite Nat.add_0_r.
  - cbn [foldl]. unfold Visualization.count_step at 2 4.
    rewrite !count_where_cons. cbv beta.
    destruct (Visualization.category_of a) as [c|] eqn:Hcat; cbn [fst snd].
    + destruct (IH (<[c := S (default 0 (m !! c))]> m) n) as [Hn Hm].
      split.
      * rewrite Hn. settle_count. done.
      * intros cat k Hk. rewrite count_where_cons. cbv beta. rewrite Hcat.
        destruct (decide (cat = c)) as [->|Hne].
        -- rewrite (Hm c (S k)); [|by rewrite Hk, lookup_insert_eq].
           settle_count. simpl. f_equal. lia.
        -- rewrite (Hm cat k); [|by rewrite lookup_insert_ne].
           settle_count. done.
    + destruct (IH m (S n)) as [Hn Hm]. split.
      * rewrite Hn. settle_count. simpl. lia.
      * intros cat k Hk. rewrite count_where_cons. cbv beta. rewrite Hcat.
        rewrite (Hm cat k Hk). settle_count. done.
Qed.

(** X22.  Every accommodation is counted exactly once: under the first
    category of the table one of whose keywords occurs in its lower-cased
    text, and under "other" when no keyword occurs.  So the six counts add
    up to the number of accommodations. *)
Theorem accommodations_are_counted_once (accommodations : list string) :
  let counts := Visualization.category_counts accommodations in
  Forall
    (λ cat,
       counts !! cat
       = Some (count_where
                 (λ a, bool_decide (Visualization.category_of a = Some cat))
                 accommodations))
    ["visual"; "audio"; "time"; "physical"; "assistive"]
  ∧ counts !! "other"
    = Some (count_where
              (λ a, bool_decide (Visualization.category_of a = None))
              accommodations)
  ∧ sum_list
      ((λ cat, default 0 (counts !! cat))
         <$> ["visual"; "audio"; "time"; "physical"; "assistive"; "other"])
    = length accommodations.
Proof.
  intros counts. subst counts. unfold Visualization.category_counts.
  cbv zeta.
  set (start := list_to_map ((λ c, (c.1, 0)) <$> Visualization.categories)
                : gmap string nat).
  destruct (count_loop accommodations start 0) as [Hother Hcat].
  assert (Forall
    (λ cat,
       (<["other" := (foldl Visualization.count_step (start, 0)
                        accommodations).2]>
          (foldl Visualization.count_step (start, 0) accommodations).1)
         !! cat
       = Some (count_where
                 (λ a, bool_decide (Visualization.category_of a = Some cat))
                 accommodations))
    ["visual"; "audio"; "time"; "physical"; "assistive"]) as Hfive.
  { repeat constructor;
      (rewrite lookup_insert_ne by done; by rewrite (Hcat _ 0)). }
  assert ((<["other" := (foldl Visualization.count_step (start, 0)
                           accommodations).2]>
             (foldl Visualization.count_step (start, 0) accommodations).1)
            !! "other"
          = Some (count_where
                    (λ a, bool_decide (Visualization.category_of a = None))
                    accommodations)) as Hsix.
  { by rewrite lookup_insert_eq, Hother. }
  split; [done|]. split; [done|].
  cbn [fmap list_fmap sum_list sum_list_with].
  rewrite Hsix.
  repeat match goal with
         | H : Forall _ (_ :: _) |- _ =>
             apply Forall_cons in H as [-> H]
         end.
  cbn [default]. clear.
  induction accommodations as [|a rest IH]; [done|].
  rewrite !count_where_cons. cbv beta. cbn [length]. rewrite <- IH.
  unfold Visualization.category_of.
  destruct (Visualization.category_in Visualization.categories (Py.lower a))
    as [c|] eqn:Hc.
  - apply category_in_listed in Hc. cbn in Hc.
    repeat (apply elem_of_cons in Hc as [->|Hc]; [simpl; lia|]).
    by apply elem_of_nil in Hc.
  - simpl. lia.
Qed.

(** ** The chat tab *)

(** X23.  "Clear Chat History" erases the messages and nothing else.  On a
    run without a prompt the tab shows the stored history; when the button
    is pressed while there are messages, the message log is emptied and the
    run restarted, and the documents, the generated artifacts, the flags
    and the index stay as they are.  With no messages the button is not
    there and pressing it has no effect. *)
Theorem clear_chat_erases_messages_only (env : Collaborators)
    (clear_clicked : bool) (app_components : AppComponents) (s : Sys) :
  let shown := mjoin (ChatTab.history_events env <$> messages (session s)) in
  ChatTab.render_chat_tab env None clear_clicked app_components s
  = (Ok tt,
     if clear_clicked && negb (bool_decide (messages (session s) = []))
     then {| session := kset K_messages [] (session s);
             index := index s;
             trace := trace s ++ shown ++ [StRerun];
             clock := clock s; entropy := entropy s |}
     else with_events shown s).
Proof.
  intros shown. subst shown. unfold ChatTab.render_chat_tab.
  unfold ChatTab.display_chat_history, Chat.handle_chat_input.
  cbn [Py.truthy_opt].
  unfold bind at 1 2 3. unfold sm_get at 1. cbn [kget K_messages].
  rewrite emit_all_run. unfold ret at 1. unfold bind, sm_get.
  cbn [with_events session kget K_messages].
  destruct (messages (session s)) as [|m rest] eqn:Hm.
  - rewrite bool_decide_eq_true_2 by done. by rewrite andb_false_r.
  - rewrite bool_decide_eq_false_2 by done. rewrite andb_true_r.
    destruct clear_clicked; [|done].
    unfold sm_set, modify_session, emit.
    unfold with_events. cbn [session index trace clock entropy].
    by rewrite <- app_assoc.
Qed.

(** ** Referential integrity through a session *)

Lemma sidebar_step_effect (env : Collaborators)
    (uploaded_files : list UploadedFile) (clear_clicked : bool)
    (app_components : AppComponents) (s : Sys) :
  ∃ s',
    SidebarPanel.render_sidebar env uploaded_files clear_clicked
      app_components s = (Ok tt, s')
    ∧ ((documents (session s') = [] ∧ iep_results (session s') = []
        ∧ lesson_plans (session s') = [])
       ∨ (documents (session s) `prefix_of` documents (session s')
          ∧ iep_results (session s') = iep_results (session s)
          ∧ lesson_plans (session s') = lesson_plans (session s))).
Proof.
  unfold SidebarPanel.render_sidebar. unfold bind at 1.
  assert (∃ s1,
            match uploaded_files with
            | [] => ret tt
            | _ :: _ =>
                Sidebar.process_uploaded_files env uploaded_files
                  app_components
            end s = (Ok tt, s1)
            ∧ documents (session s) `prefix_of` documents (session s1)
            ∧ iep_results (session s1) = iep_results (session s)
            ∧ lesson_plans (session s1) = lesson_plans (session s))
    as (s1 & -> & Hd & Hi & Hp).
  { destruct uploaded_files as [|file rest]; [by exists s|].
    destruct (sidebar_upload_effect env (file :: rest) app_components s)
      as (s1 & new_docs & new_idx & Hrun & Hd & _ & _ & _ & Hi & Hp & _).
    exists s1. rewrite Hd. repeat split; try done. by apply prefix_app_r. }
  unfold bind, sm_get.
  destruct (kget K_documents_processed (session s1) && clear_clicked).
  - unfold Sidebar.clear_documents.
    destruct (vector_store app_components); eexists; (split; [reflexivity|]);
      by left.
  - destruct (status_panel_run app_components s1) as [-> _].
    eexists. split; [reflexivity|]. by right.
Qed.

Lemma chat_step_effect (env : Collaborators) (prompt : option string)
    (clear_clicked : bool) (app_components : AppComponents) (s : Sys) :
  ∃ s',
    ChatTab.render_chat_tab env prompt clear_clicked app_components s
    = (Ok tt, s')
    ∧ documents (session s') = documents (session s)
    ∧ iep_results (session s') = iep_results (session s)
    ∧ lesson_plans (session s') = lesson_plans (session s).
Proof.
  unfold ChatTab.render_chat_tab, ChatTab.display_chat_history.
  unfold bind at 1 2 3. unfold sm_get at 1. rewrite emit_all_run.
  match goal with |- context [Chat.handle_chat_input env prompt _ ?s0] =>
    destruct (chat_component_frame env prompt app_components s0)
      as (s1 & -> & Hs & _)
  end.
  unfold bind, sm_get.
  destruct (kget K_messages (session s1)) as [|m rest];
    [|destruct clear_clicked];
    (eexists; split; [reflexivity|]); simpl; rewrite Hs; done.
Qed.

Lemma form_step_effect (env : Collaborators) (form : LessonPlanForm)
    (app_components : AppComponents) (s : Sys) :
  ∃ r s',
    LessonPlan.render_lesson_plan_form env form app_components s = (r, s')
    ∧ (session s' = session s
       ∨ ∃ plan iep id,
           session s'
           = kset K_current_plan (Some plan)
               (kset K_lesson_plans (lesson_plans (session s) ++ [plan])
                  (session s))
           ∧ iep ∈ iep_results (session s)
           ∧ iep !! "id" = Some id
           ∧ plan !! "source_iep_id" = Some (VStr id)).
Proof.
  unfold LessonPlan.render_lesson_plan_form, LessonPlan.required_filled.
  destruct (iep_results (session s)) as [|iep0 rest] eqn:Hieps.
  { unfold bind, sm_get, emit, ret, lift_res.
    cbn [kget K_iep_results]. rewrite Hieps.
    cbn [Py.truthy_opt Py.all forallb id]. rewrite !andb_false_r.
    destruct (generate_button form); eexists _, _;
      (split; [reflexivity|by left]). }
  destruct (iep_ids (iep0 :: rest)) as [ids|e] eqn:Hids.
  2:{ unfold bind, sm_get, lift_res. cbn [kget K_iep_results].
      rewrite Hieps, Hids. eexists _, _. split; [reflexivity|by left]. }
  destruct (generate_button form) eqn:Hbtn.
  2:{ unfold bind, sm_get, emit, ret, lift_res. cbn [kget K_iep_results].
      rewrite Hieps, Hids. eexists _, _. split; [reflexivity|by left]. }
  destruct (Py.all [ Py.truthy (f_subject form);
                     Py.truthy (f_grade_level form);
                     Py.truthy (f_duration form);
                     Py.truthy (f_specific_goals form);
                     Py.truthy_opt (selectbox ids (iep_choice form)) ])
    eqn:Hall.
  2:{ unfold bind, sm_get, emit, ret, lift_res. cbn [kget K_iep_results].
      rewrite Hieps, Hids. simpl. unfold Py.all in Hall. simpl in Hall.
      rewrite Hall. eexists _, _. split; [reflexivity|by left]. }
  set (s1 := with_events [StMarkdown "*Required fields"] s).
  destruct (lesson_plan_component_effect env (f_subject form)
              (f_grade_level form) (schedule_str (f_timeframe form))
              (f_duration form) (LessonPlan.form_days form)
              (f_specific_goals form) (f_materials form)
              (f_additional_accommodations form)
              (default "" (selectbox ids (iep_choice form)))
              app_components s1) as (s' & Hrun & _ & Heff).
  exists (Ok tt), s'. split.
  - unfold bind, sm_get, emit, ret, lift_res. cbn [kget K_iep_results].
    rewrite Hieps, Hids. simpl. unfold Py.all in Hall. simpl in Hall.
    rewrite Hall. exact Hrun.
  - destruct Heff as [Hsame|(plan & iep & Hsess & Hin & Hid & Hsrc & _)].
    + by left.
    + right. subst s1. cbn [with_events session] in Hsess, Hin.
      rewrite Hieps in Hin.
      by exists plan, iep, (default "" (selectbox ids (iep_choice form))).
Qed.

Lemma step_keeps_references (env : Collaborators)
    (app_components : AppComponents) (a : Step) (s : Sys) :
  plans_reference_ieps (session s) ∧ ieps_reference_documents (session s) →
  plans_reference_ieps (session (step env app_components a s).2)
  ∧ ieps_reference_documents (session (step env app_components a s).2).
Proof.
  intros [Hplans Hieps]. destruct a as [files c|prompt c|selected|form]; simpl.
  - destruct (sidebar_step_effect env files c app_components s)
      as (s' & -> & [(Hd & Hi & Hp)|(Hd & Hi & Hp)]); simpl.
    + split.
      * intros plan. rewrite Hp. intros Hin. by apply elem_of_nil in Hin.
      * intros iep. rewrite Hi. intros Hin. by apply elem_of_nil in Hin.
    + split.
      * intros plan. rewrite Hp, Hi. apply Hplans.
      * intros iep. rewrite Hi. intros Hin.
        destruct (Hieps iep Hin) as (document & id & Hdoc & Hrest).
        exists document, id. split; [|done].
        destruct Hd as [more ->]. apply elem_of_app. by left.
  - destruct (chat_step_effect env prompt c app_components s)
      as (s' & -> & Hd & Hi & Hp); simpl.
    split.
    + intros plan. rewrite Hp, Hi. apply Hplans.
    + intros iep. rewrite Hi, Hd. apply Hieps.
  - destruct (iep_component_effect env selected app_components s)
      as (s' & -> & _ & Heff); simpl.
    destruct Heff as [->|(iep & document & id & -> & _ & Hdoc & Hdid
                          & Hsid & _)]; [done|].
    simpl.
    split.
    + intros plan Hin. destruct (Hplans plan Hin) as (iep' & id' & Hin' & H').
      exists iep', id'. split; [|done]. apply elem_of_app. by left.
    + intros iep' Hin. apply elem_of_app in Hin as [Hin|Hin].
      * by apply Hieps.
      * apply list_elem_of_singleton in Hin as ->. by exists document, id.
  - destruct (form_step_effect env form app_components s)
      as (r & s' & -> & Heff); simpl.
    destruct Heff as [->|(plan & iep & id & -> & Hin & Hid & Hsrc)];
      [done|].
    simpl.
    split; [|done].
    intros plan' Hin'. apply elem_of_app in Hin' as [Hin'|Hin'].
    + by apply Hplans.
    + apply list_elem_of_singleton in Hin' as ->. by exists iep, id.
Qed.

(** X24.  Referential integrity is an invariant of a session of the
    component front end.  If every stored lesson plan names a stored IEP
    and every stored IEP names a registered document, then this still holds
    after any sequence of sidebar runs (uploads, clearing), chat turns, IEP
    generations and lesson-plan submissions, whatever the collaborators
    return or raise. *)
Theorem references_hold_through_session (env : Collaborators)
    (app_components : AppComponents) (steps : list Step) (s : Sys) :
  plans_reference_ieps (session s) →
  ieps_reference_documents (session s) →
  plans_reference_ieps (session (after_steps env app_components steps s))
  ∧ ieps_reference_documents
      (session (after_steps env app_components steps s)).
Proof.
  revert s. induction steps as [|a rest IH]; intros s Hplans Hieps; [done|].
  simpl.
  destruct (step_keeps_references env app_components a s (conj Hplans Hieps)).
  by apply IH.
Qed.

Lemma references_hold_through_session_witness :
  plans_reference_ieps
    (session
       (after_steps Sample.env (Sample.app Sample.indexing Sample.llm)
          [ SidebarStep [Sample.notes] false;
            IepStep {[ "id" := "doc_0"; "display_name" := "notes.txt" ]};
            LessonPlanStep Sample.weekly_no_days;
            ChatStep (Some "What is an IEP?") false ]
          initial_sys))
  ∧ ieps_reference_documents
      (session
         (after_steps Sample.env (Sample.app Sample.indexing Sample.llm)
            [ SidebarStep [Sample.notes] false;
              IepStep {[ "id" := "doc_0"; "display_name" := "notes.txt" ]};
              LessonPlanStep Sample.weekly_no_days;
              ChatStep (Some "What is an IEP?") false ]
            initial_sys)).
Proof.
  apply (references_hold_through_session Sample.env
           (Sample.app Sample.indexing Sample.llm)
           [ SidebarStep [Sample.notes] false;
             IepStep {[ "id" := "doc_0"; "display_name" := "notes.txt" ]};
             LessonPlanStep Sample.weekly_no_days;
             ChatStep (Some "What is an IEP?") false ]
           initial_sys).
  - intros plan Hin. by apply elem_of_nil in Hin.
  - intros iep Hin. by apply elem_of_nil in Hin.
Defined.
